(** * brain-tumor-detection-v2: the upload widget

    A shallow embedding of [src/components/brain-tumor-uploader.tsx]
    (component [BrainTumorUploader]) and the properties of its validator,
    uploader and presenter.

    Conventions of the embedding.
    - JavaScript strings are modelled by [string]: sequences of code units
      below 256 (the Latin-1 part of a JS string), with the case mapping
      and the white space of that range.
    - Byte counts, pixel sizes, status codes and millisecond clocks are
      integers ([Z]).  The numbers the progress handler divides are exact
      rationals ([Q]).  The percentage as the source computes it, with the
      quotient and the product rounded to binary64, is
      [percent_in_doubles]; it can differ from the exact one where
      [100 * loaded / total] lies halfway between two integers.
    - React state lives in a record; the [useRef] cells, the table of live
      object URLs and a chronological log of outward effects (toasts, focus
      requests, network posts, timers) complete the [World].
    - An [async] function is run to completion against a script that says
      what the transport does on each attempt: every request of a script
      settles.  [handleUpload_awaiting] is the component while a request
      has not settled, and an [Interruption] is what the user does in the
      meantime. *)

From Stdlib Require Import ZArith QArith Qround Qminmax Bool List Ascii String Lia.
From Stdlib Require Import DecimalString.
From Stdlib Require Import DecimalZ Lqa.
From Stdlib Require Floats Uint63.
Import ListNotations.

Set Warnings "-register-all".

Open Scope string_scope.
Open Scope Z_scope.

(* ------------------------------------------------------------------ *)
(** ** JavaScript string primitives used by the component *)

Module Js.

Definition code (c : ascii) : Z := Z.of_N (N_of_ascii c).

(** White space removed by [String.prototype.trim], below 256. *)
Definition is_ws (c : ascii) : bool :=
  let n := code c in
  ((9 <=? n) && (n <=? 13)) || (n =? 32) || (n =? 160).

(** [toLowerCase] on one code unit: A-Z, and U+00C0..U+00DE but U+00D7. *)
Definition lower_char (c : ascii) : ascii :=
  let n := code c in
  if ((65 <=? n) && (n <=? 90))
     || ((192 <=? n) && (n <=? 222) && negb (n =? 215))
  then ascii_of_N (Z.to_N (n + 32))
  else c.

Fixpoint toLowerCase (s : string) : string :=
  match s with
  | EmptyString => EmptyString
  | String c r => String (lower_char c) (toLowerCase r)
  end.

Fixpoint trimStart (s : string) : string :=
  match s with
  | EmptyString => EmptyString
  | String c r => if is_ws c then trimStart r else s
  end.

Fixpoint trimEnd (s : string) : string :=
  match s with
  | EmptyString => EmptyString
  | String c r =>
      match trimEnd r with
      | EmptyString => if is_ws c then EmptyString else String c EmptyString
      | r' => String c r'
      end
  end.

Definition trim (s : string) : string := trimEnd (trimStart s).

Definition startsWith (s p : string) : bool := String.prefix p s.

(** [s.includes(p)] *)
Fixpoint includes (s p : string) : bool :=
  String.prefix p s ||
  match s with
  | EmptyString => false
  | String _ r => includes r p
  end.

(** Truthiness of a string value: only the empty string is falsy. *)
Definition truthy (s : string) : bool :=
  match s with EmptyString => false | _ => true end.

(** [a || b] on strings. *)
Definition or_else (a b : string) : string := if truthy a then a else b.

(** Template interpolation of an integer. *)
Definition show (z : Z) : string := NilZero.string_of_int (Z.to_int z).

(** [arr.includes(x)] on an array of strings. *)
Definition mem (x : string) (l : list string) : bool :=
  existsb (String.eqb x) l.

End Js.

(* ------------------------------------------------------------------ *)
(** ** Constants and the candidate file *)

Definition MAX_SIZE_BYTES : Z := 10 * 1024 * 1024.
Definition ALLOWED_TYPES : list string := ["image/jpeg"; "image/png"; "image/webp"].
Definition MIN_WIDTH : Z := 256.
Definition MIN_HEIGHT : Z := 256.

(** The fields of a DOM [File] the component reads. *)
Record File := mkFile {
  file_name : string;
  file_type : string;
  file_size : Z
}.

(** What decoding the image yields in [validateDimensions]: [onload] with
    the natural size, or [onerror]. *)
Inductive ImageLoad :=
| Loaded (w h : Z)
| LoadFailed.

(* ------------------------------------------------------------------ *)
(** ** Helpers *)

(** [x.toFixed(1)] for [x = num / 2^sh], a dyadic value a double holds
    exactly: the nearest tenth, ties upward. *)
Definition toFixed1_dyadic (num sh : Z) : string :=
  let tenths := (20 * num + 2 ^ sh) / (2 * 2 ^ sh) in
  Js.show (tenths / 10) ++ "." ++ Js.show (tenths mod 10).

Definition size_unit (i : Z) : string :=
  match i with
  | 0 => "B" | 1 => "KB" | 2 => "MB" | 3 => "GB"
  | _ => "undefined"
  end.

(** [humanFileSize]; [Math.floor(Math.log(bytes) / Math.log(1024))] is the
    integer logarithm [log2 bytes / 10]. *)
Definition humanFileSize (bytes : Z) : string :=
  if bytes =? 0 then "0 B"
  else
    let i := Z.log2 bytes / 10 in
    toFixed1_dyadic bytes (10 * i) ++ " " ++ size_unit i.

(** The multiplication sign U+00D7 of the dimension message. *)
Definition times_sign : string := String (ascii_of_N 215) EmptyString.

(* ------------------------------------------------------------------ *)
(** ** Validator *)

Definition type_message (f : File) : string :=
  "Unsupported file type: " ++ Js.or_else (file_type f) "unknown"
    ++ ". Allowed: JPEG, PNG, WEBP.".

Definition size_message (f : File) : string :=
  "File is too large: " ++ humanFileSize (file_size f)
    ++ ". Max allowed is " ++ humanFileSize MAX_SIZE_BYTES ++ ".".

Definition small_message (w h : Z) : string :=
  "Image is too small (" ++ Js.show w ++ times_sign ++ Js.show h
    ++ "). Minimum required is " ++ Js.show MIN_WIDTH ++ times_sign
    ++ Js.show MIN_HEIGHT ++ ".".

Definition unreadable_message : string :=
  "Could not read image dimensions. Please try another file.".

Definition validateBasic (f : File) : list string :=
  let errs : list string := [] in
  let errs :=
    if negb (Js.mem (file_type f) ALLOWED_TYPES)
    then (errs ++ [type_message f])%list else errs in
  let errs :=
    if file_size f >? MAX_SIZE_BYTES
    then (errs ++ [size_message f])%list else errs in
  errs.

(** The violations [validateDimensions] resolves to, given how the decode
    went. *)
Definition dimension_errors (load : ImageLoad) : list string :=
  match load with
  | Loaded w h =>
      if (w <? MIN_WIDTH) || (h <? MIN_HEIGHT) then [small_message w h] else []
  | LoadFailed => [unreadable_message]
  end.

(** [const all = [...basicErrs, ...dimErrs]] of [setFileWithValidation]. *)
Definition validate (f : File) (load : ImageLoad) : list string :=
  (validateBasic f ++ dimension_errors load)%list.


(* ------------------------------------------------------------------ *)
(** ** Response bodies and the prediction result *)

(** A response body as axios hands it over ([res.data]): a parsed JSON
    value or a string. *)
Inductive json :=
| JNull
| JBool (b : bool)
| JNum (q : Q)
| JStr (s : string)
| JArr (items : list json)
| JObj (fields : list (string * json)).

Fixpoint assoc {A} (k : string) (l : list (string * A)) : option A :=
  match l with
  | [] => None
  | (k', v) :: r => if String.eqb k k' then Some v else assoc k r
  end.

(** [data?.key] for the keys the component asks for: only an object has
    them. *)
Definition prop (data : json) (key : string) : option json :=
  match data with
  | JObj fields => assoc key fields
  | _ => None
  end.

Record PredictResult := mkResult {
  prediction : option string;
  confidence : option Q;
  topK : option (list json);
  version : option string;
  latencyMs : option Q
}.

Record Response := mkResponse {
  headers : list (string * string);
  data : json
}.

(** A value caught by [catch]: what the handlers read from it. *)
Record Err := mkErr {
  err_cancel : bool;                  (* axios.isCancel / AbortError *)
  err_status : option Z;              (* err.response?.status *)
  err_data_message : option string;   (* err.response?.data?.message, a string when present *)
  err_message : string                (* err.message *)
}.

Definition plain_error (msg : string) : Err := mkErr false None None msg.

(** What axios rejects an aborted request with. *)
Definition CanceledError : Err := mkErr true None None "canceled".

(** How the transport settles a request that was not aborted.  A request
    that is never settled has no constructor: the component then stays
    where [handleUpload_awaiting] leaves it.  The [message] field of an
    error body is taken to be a string when there is one. *)
Inductive Settle :=
| Fulfilled (r : Response)
| HttpError (status : Z) (data_message : option string) (message : string)
| NetworkError (message : string).

Record ProgressEvent := mkProgress {
  loaded : option Z;
  total : option Z
}.

(** One attempt as the environment plays it: the clock at its start, the
    progress events with the clock at each, whether the user presses
    cancel while it is in flight, and how the transport settles it
    otherwise. *)
Record Attempt := mkAttempt {
  at_start : Z;
  at_ticks : list (ProgressEvent * Z);
  at_cancel : bool;
  at_settle : Settle
}.

(** The environment of the component. *)
Record Env := mkEnv {
  API_URL : option string;                (* process.env.NEXT_PUBLIC_API_URL *)
  JSON_parse : string -> option json;     (* None: SyntaxError *)
  Math_random : nat -> Q;                 (* the k-th call *)
  transport : nat -> Attempt              (* the k-th attempt, from 1 *)
}.

(* ------------------------------------------------------------------ *)
(** ** Widget state, refs and effects *)

Inductive Status := Idle | Ready | Uploading | Success | Error.

Record ReactState := mkState {
  file : option File;
  previewUrl : option string;
  status : Status;
  errors : list string;
  result : option PredictResult;
  progress : Z;
  uploadedBytes : Z;
  totalBytes : Z;
  etaSeconds : option Q
}.

Inductive ToastKind := ToastPlain | ToastSuccess | ToastError.
Inductive FocusTarget := ErrorRegion | ResultHeading.

Inductive Effect :=
| EToast (kind : ToastKind) (title description : string)
| EFocus (target : FocusTarget)
| EPost (url : string) (controller : nat) (f : File)
| ESleep (ms : Z).

Record World := mkWorld {
  ui : ReactState;
  controllerRef : option nat;     (* the AbortController, by identity *)
  startTimeRef : option Z;
  aborted : list nat;             (* controllers whose signal has fired *)
  nextController : nat;
  pending : option nat;           (* signal of the request on the wire *)
  liveUrls : list string;         (* object URLs not yet revoked *)
  nextUrl : nat;
  log : list Effect               (* oldest first *)
}.

Definition initial_state : ReactState :=
  mkState None None Idle [] None 0 0 0 None.

Definition initial_world : World :=
  mkWorld initial_state None None [] O None [] O [].

Definition with_ui (g : ReactState -> ReactState) (w : World) : World :=
  mkWorld (g (ui w)) (controllerRef w) (startTimeRef w) (aborted w)
    (nextController w) (pending w) (liveUrls w) (nextUrl w) (log w).

Definition setFile v (s : ReactState) :=
  mkState v (previewUrl s) (status s) (errors s) (result s) (progress s)
    (uploadedBytes s) (totalBytes s) (etaSeconds s).
Definition setPreviewUrl v (s : ReactState) :=
  mkState (file s) v (status s) (errors s) (result s) (progress s)
    (uploadedBytes s) (totalBytes s) (etaSeconds s).
Definition setStatus v (s : ReactState) :=
  mkState (file s) (previewUrl s) v (errors s) (result s) (progress s)
    (uploadedBytes s) (totalBytes s) (etaSeconds s).
Definition setErrors v (s : ReactState) :=
  mkState (file s) (previewUrl s) (status s) v (result s) (progress s)
    (uploadedBytes s) (totalBytes s) (etaSeconds s).
Definition setResult v (s : ReactState) :=
  mkState (file s) (previewUrl s) (status s) (errors s) v (progress s)
    (uploadedBytes s) (totalBytes s) (etaSeconds s).
Definition setProgress v (s : ReactState) :=
  mkState (file s) (previewUrl s) (status s) (errors s) (result s) v
    (uploadedBytes s) (totalBytes s) (etaSeconds s).
Definition setUploadedBytes v (s : ReactState) :=
  mkState (file s) (previewUrl s) (status s) (errors s) (result s) (progress s)
    v (totalBytes s) (etaSeconds s).
Definition setTotalBytes v (s : ReactState) :=
  mkState (file s) (previewUrl s) (status s) (errors s) (result s) (progress s)
    (uploadedBytes s) v (etaSeconds s).
Definition setEtaSeconds v (s : ReactState) :=
  mkState (file s) (previewUrl s) (status s) (errors s) (result s) (progress s)
    (uploadedBytes s) (totalBytes s) v.

Definition set_controllerRef v (w : World) : World :=
  mkWorld (ui w) v (startTimeRef w) (aborted w)
    (nextController w) (pending w) (liveUrls w) (nextUrl w) (log w).
Definition set_startTimeRef v (w : World) : World :=
  mkWorld (ui w) (controllerRef w) v (aborted w)
    (nextController w) (pending w) (liveUrls w) (nextUrl w) (log w).
Definition set_pending v (w : World) : World :=
  mkWorld (ui w) (controllerRef w) (startTimeRef w) (aborted w)
    (nextController w) v (liveUrls w) (nextUrl w) (log w).

(** Append one effect to the log. *)
Definition emit (e : Effect) (w : World) : World :=
  mkWorld (ui w) (controllerRef w) (startTimeRef w) (aborted w)
    (nextController w) (pending w) (liveUrls w) (nextUrl w)
    (log w ++ [e])%list.

Definition toast k title desc := emit (EToast k title desc).
Definition focus_later t := emit (EFocus t).

Definition is_aborted (c : nat) (w : World) : bool :=
  existsb (Nat.eqb c) (aborted w).

(** [controller.abort()]: nothing happens when the signal has already
    fired. *)
Definition abort (c : nat) (w : World) : World :=
  if is_aborted c w then w
  else
    mkWorld (ui w) (controllerRef w) (startTimeRef w) (c :: aborted w)
      (nextController w) (pending w) (liveUrls w) (nextUrl w) (log w).

(** [controllerRef.current?.abort()] *)
Definition abort_current (w : World) : World :=
  match controllerRef w with
  | Some c => abort c w
  | None => w
  end.

(** A request is in flight when one is on the wire and its signal has not
    fired. *)
Definition in_flight (w : World) : bool :=
  match pending w with
  | Some c => negb (is_aborted c w)
  | None => false
  end.

(** [new AbortController()]: a new identity, whose signal has not fired. *)
Definition new_controller (w : World) : nat * World :=
  let c := nextController w in
  (c,
   mkWorld (ui w) (controllerRef w) (startTimeRef w)
     (filter (fun a => negb (Nat.eqb c a)) (aborted w))
     (S c) (pending w) (liveUrls w) (nextUrl w) (log w)).

(** [URL.createObjectURL(f)]: a URL never handed out before. *)
Definition createObjectURL (w : World) : string * World :=
  let url := "blob:" ++ Js.show (Z.of_nat (nextUrl w)) in
  (url,
   mkWorld (ui w) (controllerRef w) (startTimeRef w) (aborted w)
     (nextController w) (pending w) (url :: liveUrls w) (S (nextUrl w))
     (log w)).

(** [URL.revokeObjectURL(url)] *)
Definition revokeObjectURL (url : string) (w : World) : World :=
  mkWorld (ui w) (controllerRef w) (startTimeRef w) (aborted w)
    (nextController w) (pending w)
    (filter (fun u => negb (String.eqb u url)) (liveUrls w)) (nextUrl w)
    (log w).

(* ------------------------------------------------------------------ *)
(** ** Helpers of the component *)

Fixpoint strip_trailing_slash (s : string) : string :=   (* replace(/\/$/, "") *)
  match s with
  | EmptyString => EmptyString
  | String c r =>
      match r with
      | EmptyString => if Ascii.eqb c "/"%char then EmptyString else s
      | _ => String c (strip_trailing_slash r)
      end
  end.

Definition apiEndpoint (env : Env) : string :=
  let base := Js.trim (match API_URL env with Some u => u | None => "" end) in
  let normalized := if Js.truthy base then strip_trailing_slash base else "" in
  normalized ++ "/predict".

Definition looksLikeHTML (s : string) : bool :=
  let t := Js.toLowerCase (Js.trim s) in
  Js.startsWith t "<!doctype html" || Js.startsWith t "<html"
  || Js.includes t "</html>" || Js.includes t "<head" || Js.includes t "<body".

Definition revokePreview (view : ReactState) (w : World) : World :=
  match previewUrl view with
  | Some u => if Js.truthy u then revokeObjectURL u w else w
  | None => w
  end.

(** [resetAll].  The state variables a handler reads are those of the
    render it was created in ([view]); refs are read from the world. *)
Definition resetAll (view : ReactState) (w : World) : World :=
  let w := abort_current w in
  let w := revokePreview view w in
  let w := with_ui (setFile None) w in
  let w := with_ui (setPreviewUrl None) w in
  let w := with_ui (setStatus Idle) w in
  let w := with_ui (setErrors []) w in
  let w := with_ui (setResult None) w in
  let w := with_ui (setProgress 0) w in
  let w := with_ui (setUploadedBytes 0) w in
  let w := with_ui (setTotalBytes 0) w in
  let w := with_ui (setEtaSeconds None) w in
  set_startTimeRef None w.

(** The effects of [validateDimensions] on the URL table: the temporary
    URL is revoked only when the image loaded. *)
Definition validateDimensions (load : ImageLoad) (w : World)
  : list string * World :=
  let (url, w) := createObjectURL w in
  match load with
  | Loaded _ _ => (dimension_errors load, revokeObjectURL url w)
  | LoadFailed => (dimension_errors load, w)
  end.

Definition setFileWithValidation (view : ReactState) (f : File)
    (load : ImageLoad) (w : World) : World :=
  let basicErrs := validateBasic f in
  let (dimErrs, w) := validateDimensions load w in
  let all := (basicErrs ++ dimErrs)%list in
  match all with
  | _ :: _ =>
      let w := with_ui (setErrors all) w in
      let w := with_ui (setStatus Error) w in
      focus_later ErrorRegion w
  | [] =>
      let w := revokePreview view w in
      let w := with_ui (setErrors []) w in
      let (url, w) := createObjectURL w in
      let w := with_ui (setFile (Some f)) w in
      let w := with_ui (setPreviewUrl (Some url)) w in
      with_ui (setStatus Ready) w
  end.

(* ------------------------------------------------------------------ *)
(** ** Uploader: progress *)

Definition Math_round (q : Q) : Z := Qfloor (q + (1 # 2))%Q.

(** [rate], [remaining / rate] and the value stored, as the handler
    computes them. *)
Definition rate_of (loaded : Z) (elapsed : Q) : Q :=
  (inject_Z loaded / Qmax elapsed (1 # 1000))%Q.

Definition eta_of (loaded total : Z) (elapsed : Q) : option Q :=
  let rate := rate_of loaded elapsed in
  let remaining := Z.max (total - loaded) 0 in
  if negb (Qle_bool rate 0) then Some (inject_Z remaining / rate)%Q else None.

Definition eta_stored (eta : option Q) : option Q :=   (* eta ? max(0, eta) : null *)
  match eta with
  | Some q => if Qeq_bool q 0 then None else Some (Qmax 0 q)
  | None => None
  end.

Definition onUploadProgress (f : File) (e : ProgressEvent) (now : Z)
    (w : World) : World :=
  let loaded := match loaded e with Some l => l | None => 0 end in
  let total := match total e with Some t => t | None => file_size f end in
  let w := with_ui (setUploadedBytes loaded) w in
  let w := with_ui (setTotalBytes total) w in
  let pct :=
    if total =? 0 then 0
    else Math_round ((inject_Z loaded / inject_Z total) * 100)%Q in
  let w := with_ui (setProgress pct) w in
  match startTimeRef w with
  | Some startedAt =>
      if negb (startedAt =? 0) && negb (total =? 0) then
        let elapsed := (inject_Z (now - startedAt) / 1000)%Q in
        with_ui (setEtaSeconds (eta_stored (eta_of loaded total elapsed))) w
      else w
  | None => w
  end.

(* ------------------------------------------------------------------ *)
(** ** Uploader: response normalization *)

Definition html_error_message : string :=
  "The prediction endpoint returned HTML instead of JSON. Please verify NEXT_PUBLIC_API_URL and that /predict returns JSON.".

Definition unexpected_error_message : string :=
  "Unexpected response from server. Expected JSON but received another format. Check the /predict endpoint.".

Definition header (r : Response) (name : string) : string :=
  match assoc name (headers r) with Some v => v | None => "" end.

Definition content_type (r : Response) : string :=
  Js.toLowerCase
    (Js.or_else (header r "content-type")
       (Js.or_else (header r "Content-Type") "")).

(** The [if (typeof data === "string")] block: the body after the parse
    attempt, or the message of the error thrown. *)
Definition body_stage (env : Env) (ct : string) (d : json) : string + json :=
  match d with
  | JStr s =>
      let trimmed := Js.trim s in
      let isHtml := looksLikeHTML trimmed || Js.includes ct "text/html" in
      let looksJson := Js.startsWith trimmed "{" || Js.startsWith trimmed "[" in
      if looksJson then
        match JSON_parse env trimmed with
        | Some v => inr v
        | None => inr d
        end
      else if isHtml then inl html_error_message
      else inr d
  | _ => inr d
  end.

Definition string_prop (d : json) (key : string) : option string :=
  match prop d key with Some (JStr s) => Some s | _ => None end.

Definition number_prop (d : json) (key : string) : option Q :=
  match prop d key with Some (JNum q) => Some q | _ => None end.

Definition array_prop (d : json) (key : string) : option (list json) :=
  match prop d key with Some (JArr l) => Some l | _ => None end.

Definition normalize (d : json) : PredictResult :=
  {| prediction :=
       match string_prop d "prediction" with
       | Some p => Some p
       | None => match d with JStr s => Some s | _ => None end
       end;
     confidence := number_prop d "confidence";
     topK := array_prop d "topK";
     version := string_prop d "version";
     latencyMs := number_prop d "latencyMs" |}.

(** The response fields [normalize] looks at. *)
Definition recognized_fields : list string :=
  ["prediction"; "confidence"; "topK"; "version"; "latencyMs"].

(** Truthiness of [normalized.prediction]. *)
Definition usable (p : option string) : bool :=
  match p with Some s => Js.truthy s | None => false end.

Definition declares_json (ct : string) : bool :=
  Js.includes ct "application/json" || Js.includes ct "application/problem+json".

(** Everything [uploadOnce] does with a fulfilled response: the message
    of the error it throws, or the value it passes to [setResult]. *)
Definition interpret_response (env : Env) (r : Response)
  : string + PredictResult :=
  let ct := content_type r in
  match body_stage env ct (data r) with
  | inl msg => inl msg
  | inr d =>
      let normalized := normalize d in
      let isJson := declares_json ct in
      if negb (usable (prediction normalized)) && negb isJson
      then inl unexpected_error_message
      else inr normalized
  end.

(* ------------------------------------------------------------------ *)
(** ** Uploader: one attempt, the retry loop, the handlers *)

Inductive Completion :=
| Return
| Throw (e : option Err).      (* [None]: the value [null] *)

Definition handleCancel (w : World) : World :=
  let w := abort_current w in
  let w := set_controllerRef None w in
  let w := with_ui (setStatus Ready) w in
  let w := with_ui (setProgress 0) w in
  let w := with_ui (setUploadedBytes 0) w in
  let w := with_ui (setEtaSeconds None) w in
  toast ToastPlain "Upload canceled" "You canceled the current upload." w.

Definition settle_error (s : Settle) : option Err :=
  match s with
  | Fulfilled _ => None
  | HttpError st dm m => Some (mkErr false (Some st) dm m)
  | NetworkError m => Some (mkErr false None None m)
  end.

(** [uploadOnce] up to the [await]: the request is on the wire. *)
Definition uploadOnce_start (env : Env) (f : File) (now : Z) (w : World)
  : nat * World :=
  let (controller, w) := new_controller w in
  let w := set_controllerRef (Some controller) w in
  let w := set_startTimeRef (Some now) w in
  let w := with_ui (setUploadedBytes 0) w in
  let w := with_ui (setTotalBytes (file_size f)) w in
  let w := with_ui (setEtaSeconds None) w in
  let w := with_ui (setProgress 0) w in
  (* axios.post(apiEndpoint, formData, { signal, onUploadProgress }) *)
  let w := emit (EPost (apiEndpoint env) controller f) w in
  (controller, set_pending (Some controller) w).

(** The progress events of one request, in order. *)
Definition run_ticks (f : File) (ticks : list (ProgressEvent * Z)) (w : World)
  : World :=
  fold_left (fun w t => onUploadProgress f (fst t) (snd t) w) ticks w.

(** [uploadOnce], played against one [Attempt].  The request is rejected
    with [CanceledError] when its signal has fired by the time it
    settles. *)
Definition uploadOnce (env : Env) (f : File) (a : Attempt) (w : World)
  : World * Completion :=
  let (controller, w) := uploadOnce_start env f (at_start a) w in
  let w := run_ticks f (at_ticks a) w in
  let w := if at_cancel a then handleCancel w else w in
  (* the await resumes *)
  let cancelled := is_aborted controller w in
  let w := set_pending None w in
  if cancelled then (w, Throw (Some CanceledError))
  else
    match at_settle a with
    | Fulfilled res =>
        match interpret_response env res with
        | inl msg => (w, Throw (Some (plain_error msg)))
        | inr normalized => (with_ui (setResult (Some normalized)) w, Return)
        end
    | other => (w, Throw (settle_error other))
    end.

(** [axios.isCancel?.(err) || (err instanceof DOMException && ...)] *)
Definition is_cancel (err : option Err) : bool :=
  match err with Some e => err_cancel e | None => false end.

(** [status && status < 500] with [status = err?.response?.status] *)
Definition client_status (err : option Err) : bool :=
  match err with
  | Some e =>
      match err_status e with
      | Some st => negb (st =? 0) && (st <? 500)
      | None => false
      end
  | None => false
  end.

Definition backoff (attempt : nat) : Z :=
  Z.min (2000 * 2 ^ (Z.of_nat attempt - 1)) 8000.

Definition jitter (r : Q) : Z := Qfloor (r * 200)%Q.

Definition retry_delay (env : Env) (attempt : nat) : Z :=
  backoff attempt + jitter (Math_random env attempt).

(** The [while (attempt < maxAttempts)] loop, by recursion on
    [maxAttempts - attempt]. *)
Fixpoint retry_loop (env : Env) (f : File) (remaining : nat) (attempt : nat)
    (lastError : option Err) (w : World) : World * Completion :=
  match remaining with
  | O => (w, Throw lastError)
  | S remaining =>
      let attempt := S attempt in
      match uploadOnce env f (transport env attempt) w with
      | (w, Return) => (w, Return)
      | (w, Throw err) =>
          let lastError := err in
          if is_cancel err then (w, Throw err)
          else if client_status err then (w, Throw lastError)   (* break *)
          else
            let delay := retry_delay env attempt in
            (* await new Promise((res) => setTimeout(res, delay)) *)
            retry_loop env f remaining attempt lastError
              (emit (ESleep delay) w)
      end
  end.

Definition uploadWithRetry (env : Env) (f : File) (maxAttempts : nat)
    (w : World) : World * Completion :=
  retry_loop env f maxAttempts O None w.

Definition default_failure_message : string :=
  "Prediction failed due to a network or server error.".

(** [error?.response?.data?.message || error?.message || "..."] *)
Definition error_text (e : option Err) : string :=
  match e with
  | Some e =>
      Js.or_else (match err_data_message e with Some m => m | None => "" end)
        (Js.or_else (err_message e) default_failure_message)
  | None => default_failure_message
  end.

Definition no_file_message : string :=
  "Please select an image before uploading.".

Definition handleUpload (view : ReactState) (env : Env) (w : World) : World :=
  match file view with
  | None =>
      let w := with_ui (setErrors [no_file_message]) w in
      let w := with_ui (setStatus Error) w in
      focus_later ErrorRegion w
  | Some f =>
      let w := with_ui (setStatus Uploading) w in
      let w := with_ui (setResult None) w in
      let w := with_ui (setErrors []) w in
      let w := toast ToastPlain "Starting upload"
                 "Your image is being uploaded and processed..." w in
      let w :=
        match uploadWithRetry env f 3 w with
        | (w, Return) =>
            let w := with_ui (setStatus Success) w in
            let w := toast ToastSuccess "Prediction complete"
                       "The model returned a result successfully." w in
            focus_later ResultHeading w
        | (w, Throw error) =>
            let w := with_ui (setStatus Error) w in
            let msg := error_text error in
            let w := with_ui (setErrors [msg]) w in
            let w := focus_later ErrorRegion w in
            toast ToastError "Prediction failed" msg w
        end in
      (* finally *)
      let w := set_controllerRef None w in
      set_startTimeRef None w
  end.

(* ------------------------------------------------------------------ *)
(** ** Presenter *)

Definition is_az (c : ascii) : bool :=
  let n := Js.code c in (97 <=? n) && (n <=? 122).

Fixpoint strip_non_az (s : string) : string :=   (* replace(/[^a-z]/g, '') *)
  match s with
  | EmptyString => EmptyString
  | String c r => if is_az c then String c (strip_non_az r) else strip_non_az r
  end.

Definition normalizeLabel (label : option string) : string :=
  let l := match label with Some l => l | None => "" end in
  strip_non_az (Js.trim (Js.toLowerCase l)).

Inductive Band := Negative | Positive | Unknown.

Record Classification := mkClass {
  kind : Band;
  title : string;
  description : string;
  container_class : string;
  icon_class : string
}.

Definition isNoTumor (n : string) : bool :=
  Js.includes n "notumor" || Js.includes n "notumour"
  || String.eqb n "normal" || String.eqb n "healthy"
  || Js.includes n "negative" || Js.includes n "absenceoftumor".

(** The descriptions are the source's, their dash written as a hyphen. *)
Definition classifyPrediction (pred : option string) : Classification :=
  let n := normalizeLabel pred in
  if isNoTumor n then
    mkClass Negative "No tumor detected"
      "The model did not detect evidence of a tumor in the provided image. False negatives are possible - interpret with clinical context."
      "border-emerald-300 bg-emerald-50 text-emerald-950" "text-emerald-700"
  else if usable pred then
    mkClass Positive "Tumor likely detected"
      "One or more tumor-related classes were predicted. This is not a diagnosis - please consult a qualified clinician."
      "border-red-300 bg-red-50 text-red-950" "text-red-700"
  else
    mkClass Unknown "Prediction unavailable"
      "The model did not return a recognizable label. Try another image or try again later."
      "border-slate-300 bg-slate-50 text-slate-900" "text-slate-700".

(* ------------------------------------------------------------------ *)
(** ** Vocabulary of the properties *)

(** What happens to an attempt, seen from the transport. *)
Inductive Outcome :=
| Cancelled
| Settled (s : Settle).

Definition outcome_of (a : Attempt) : Outcome :=
  if at_cancel a then Cancelled else Settled (at_settle a).

(** The completion of [uploadOnce] on an attempt. *)
Definition completion_of (env : Env) (a : Attempt) : Completion :=
  match outcome_of a with
  | Cancelled => Throw (Some CanceledError)
  | Settled (Fulfilled res) =>
      match interpret_response env res with
      | inl msg => Throw (Some (plain_error msg))
      | inr _ => Return
      end
  | Settled other => Throw (settle_error other)
  end.

(** The attempt is followed by a backoff delay. *)
Definition retried (env : Env) (a : Attempt) : bool :=
  match completion_of env a with
  | Return => false
  | Throw err => negb (is_cancel err) && negb (client_status err)
  end.

(** A transient failure in the policy's words: a network or transport
    failure, or a server status of 500 or more. *)
Definition transient_as_stated (o : Outcome) : bool :=
  match o with
  | Settled (NetworkError _) => true
  | Settled (HttpError st _ _) => 500 <=? st
  | _ => false
  end.

(** A response arrived and [uploadOnce] itself rejected it. *)
Definition rejected_response (env : Env) (o : Outcome) : bool :=
  match o with
  | Settled (Fulfilled res) =>
      match interpret_response env res with inl _ => true | inr _ => false end
  | _ => false
  end.

Definition valid_http_status (st : Z) : Prop := 100 <= st <= 599.

(** Every status the transport reports is an HTTP status code. *)
Definition http_statuses (env : Env) : Prop :=
  forall k st dm m,
    at_settle (transport env k) = HttpError st dm m -> valid_http_status st.

Fixpoint count_posts (l : list Effect) : nat :=
  match l with
  | [] => O
  | EPost _ _ _ :: r => S (count_posts r)
  | _ :: r => count_posts r
  end.

(** Number of requests [uploadWithRetry] issues from [w]. *)
Definition attempts_made (env : Env) (f : File) (w : World) : nat :=
  count_posts (log (fst (uploadWithRetry env f 3 w))) - count_posts (log w).

(** The requests and timers of a log, in order. *)
Inductive NetEvent := Post | Sleep (ms : Z).

Fixpoint net_trace (l : list Effect) : list NetEvent :=
  match l with
  | [] => []
  | EPost _ _ _ :: r => Post :: net_trace r
  | ESleep ms :: r => Sleep ms :: net_trace r
  | _ :: r => net_trace r
  end.

(** Attempt [k], the delay after it, attempt [k+1], ... for [n] attempts. *)
Fixpoint schedule (env : Env) (n k : nat) : list NetEvent :=
  match n with
  | O => []
  | S n => Post :: Sleep (retry_delay env (S k)) :: schedule env n (S k)
  end.

Definition is_error_toast (e : Effect) : bool :=
  match e with EToast ToastError _ _ => true | _ => false end.


(** The pending request, if any, is the one [controllerRef] can abort. *)
Definition request_owned (w : World) : Prop :=
  forall c, pending w = Some c ->
    controllerRef w = Some c \/ is_aborted c w = true.

(** Same letter up to case. *)
Definition same_letter (a b : ascii) : Prop := Js.lower_char a = Js.lower_char b.

(** [variant b s]: [s] is [b] with letters re-cased and white space
    inserted or removed. *)
Inductive variant : string -> string -> Prop :=
| variant_nil : variant "" ""
| variant_char a b r s :
    same_letter a b -> variant r s -> variant (String a r) (String b s)
| variant_insert c r s :
    Js.is_ws c = true -> variant r s -> variant r (String c s)
| variant_remove c r s :
    Js.is_ws c = true -> variant r s -> variant (String c r) s.

Definition negative_labels : list string :=
  ["No Tumor"; "No Tumour"; "Normal"; "Healthy"; "Negative"; "Absence of Tumor"].
(** Two worlds that differ at most in the progress display. *)
Definition same_frame (w w' : World) : Prop :=
  controllerRef w' = controllerRef w /\ startTimeRef w' = startTimeRef w
  /\ aborted w' = aborted w /\ nextController w' = nextController w
  /\ pending w' = pending w /\ liveUrls w' = liveUrls w
  /\ nextUrl w' = nextUrl w /\ log w' = log w
  /\ file (ui w') = file (ui w) /\ previewUrl (ui w') = previewUrl (ui w)
  /\ status (ui w') = status (ui w) /\ errors (ui w') = errors (ui w)
  /\ result (ui w') = result (ui w).

Definition cancel_toast : Effect :=
  EToast ToastPlain "Upload canceled" "You canceled the current upload.".

(** The attempts and delays of the loop, read off the environment: with
    [n] iterations left after attempt [k]. *)
Fixpoint trace_plan (env : Env) (n k : nat) : list NetEvent :=
  match n with
  | O => []
  | S n =>
      Post ::
      (if retried env (transport env (S k))
       then Sleep (retry_delay env (S k)) :: trace_plan env n (S k)
       else [])
  end.

Fixpoint attempts_plan (env : Env) (n k : nat) : nat :=
  match n with
  | O => O
  | S n =>
      S (if retried env (transport env (S k))
         then attempts_plan env n (S k) else O)
  end.

Fixpoint completion_plan (env : Env) (n k : nat) (lastError : option Err)
  : Completion :=
  match n with
  | O => Throw lastError
  | S n =>
      if retried env (transport env (S k))
      then match completion_of env (transport env (S k)) with
           | Throw err => completion_plan env n (S k) err
           | Return => Return
           end
      else completion_of env (transport env (S k))
  end.

Fixpoint count_net_posts (l : list NetEvent) : nat :=
  match l with
  | [] => O
  | Post :: r => S (count_net_posts r)
  | Sleep _ :: r => count_net_posts r
  end.

(** The random source stays in the unit interval. *)
Definition unit_random (env : Env) : Prop :=
  forall k, (0 <= Math_random env k)%Q /\ (Math_random env k < 1)%Q.

(** The retry rule in the policy's words: after attempt [k] of at most
    three, another attempt follows exactly when attempt [k] failed with a
    network or transport error or with a status of 500 or more. *)
Definition retry_policy_as_stated : Prop :=
  forall env f w, http_statuses env ->
  forall k, (1 <= k)%nat -> (k <= attempts_made env f w)%nat -> (k < 3)%nat ->
    ((k + 1 <= attempts_made env f w)%nat <->
     transient_as_stated (outcome_of (transport env k)) = true).

(** Sample data for the examples. *)
Definition sample_file : File := mkFile "scan.png" "image/png" 204800.

Definition json_response (d : json) : Response :=
  mkResponse [("content-type", "application/json")] d.

Definition glioma_response : Response :=
  json_response
    (JObj [("prediction", JStr "glioma"); ("confidence", JNum (9 # 10));
           ("model", JStr "resnet")]).

Definition html_response : Response :=
  mkResponse [("content-type", "text/html")]
    (JStr "<!DOCTYPE html><html><body>Not Found</body></html>").

Definition quiet (s : Settle) : Attempt := mkAttempt 1000 [] false s.

Definition env_of (script : nat -> Attempt) : Env :=
  mkEnv None (fun _ => None) (fun _ => 1 # 2) script.

(** 503, 503, then a prediction. *)
Definition flaky_env : Env :=
  env_of (fun k =>
    match k with
    | 1%nat | 2%nat => quiet (HttpError 503 None "Request failed with status code 503")
    | _ => quiet (Fulfilled glioma_response)
    end).

(** A 400 on the first attempt. *)
Definition bad_request_env : Env :=
  env_of (fun _ => quiet (HttpError 400 None "Request failed with status code 400")).

(** The endpoint answers every request with an HTML page. *)
Definition html_env : Env := env_of (fun _ => quiet (Fulfilled html_response)).

(** The user cancels the first attempt while it is in flight. *)
Definition cancel_env : Env :=
  env_of (fun _ => mkAttempt 1000 [(mkProgress (Some 1024) (Some 204800), 1500)]
                     true (Fulfilled glioma_response)).

(** A request of [sample_file] on the wire, started at clock 1000. *)
Definition in_flight_world : World :=
  snd (uploadOnce_start html_env sample_file 1000 initial_world).



(** A render that shows a preview. *)
Definition previewing : ReactState :=
  setPreviewUrl (Some "blob:0") (setFile (Some sample_file) initial_state).

(** A body without any recognized field, served as plain text. *)
Definition stray_response : Response :=
  mkResponse [("content-type", "text/plain")] (JObj [("ok", JBool true)]).

(* ------------------------------------------------------------------ *)
(** ** The rest of the component *)

(** [formatEta]; for [s >= 60] the remainder [s % 60] is
    [s - 60 * floor (s / 60)]. *)
Definition formatEta (s : Q) : string :=
  if negb (Qle_bool 1 s) then "<1s"
  else if negb (Qle_bool 60 s) then Js.show (Math_round s) ++ "s"
  else
    let m := Qfloor (s / 60)%Q in
    let r := Math_round (s - inject_Z (60 * m))%Q in
    Js.show m ++ "m " ++ Js.show r ++ "s".

Definition Status_eqb (a b : Status) : bool :=
  match a, b with
  | Idle, Idle | Ready, Ready | Uploading, Uploading
  | Success, Success | Error, Error => true
  | _, _ => false
  end.

Definition has_file (s : ReactState) : bool :=
  match file s with Some _ => true | None => false end.

Definition ctaLabel (s : ReactState) : string :=
  if Status_eqb (status s) Uploading then "Processing..."
  else if has_file s then "Upload & Predict" else "Select an image".

Definition ctaDisabled (s : ReactState) : bool :=
  Status_eqb (status s) Uploading
  || (negb (has_file s) && negb (Status_eqb (status s) Error)).

(** The handlers a button can be wired to. *)
Inductive Handler := OnCancel | OnUpload | OnReset.

(** [onClick] of the primary button. *)
Definition ctaOnClick (s : ReactState) : Handler :=
  if Status_eqb (status s) Uploading then OnCancel else OnUpload.

(** The buttons of a render that can be pressed and run one of these
    handlers: the primary button, "Reset", "Try again", and "Remove
    image".  The other buttons open the file picker or load a sample. *)
Definition pressable (s : ReactState) : list Handler :=
  ((if ctaDisabled s then [] else [ctaOnClick s])
   ++ (if Status_eqb (status s) Uploading then [] else [OnReset])
   ++ (if Status_eqb (status s) Error then [OnUpload] else [])
   ++ (if has_file s then [OnReset] else []))%list.

(** The cleanup of the mount effect.  The effect has no dependencies: its
    closure is the one of the first render, where [previewUrl] is null. *)
Definition unmount (w : World) : World :=
  let w := abort_current w in
  revokePreview initial_state w.

(** Clipboard items as [onPaste] reads them. *)
Record Blob := mkBlob {
  blob_type : string;
  blob_size : Z
}.

Record ClipboardItem := mkItem {
  item_type : string;
  item_file : option Blob      (* getAsFile() *)
}.

Definition is_image_item (it : ClipboardItem) : bool :=
  Js.startsWith (item_type it) "image/".

(** [new File([blob], "pasted-image.png", { type: blob.type || "image/png" })] *)
Definition pasted (b : Blob) : File :=
  mkFile "pasted-image.png" (Js.or_else (blob_type b) "image/png") (blob_size b).

(** The [for] loop of [onPaste]: the file it hands to the validator. *)
Fixpoint pasted_file (items : list ClipboardItem) : option File :=
  match items with
  | [] => None
  | it :: rest =>
      if is_image_item it then
        match item_file it with
        | Some b => Some (pasted b)
        | None => pasted_file rest
        end
      else pasted_file rest
  end.

(** [onPaste], [items] being [e.clipboardData?.items].  The [isPasting]
    flag, which nothing reads, is left out. *)
Definition onPaste (view : ReactState) (items : option (list ClipboardItem))
    (load : ImageLoad) (w : World) : World :=
  match items with
  | None => w
  | Some items =>
      match pasted_file items with
      | Some f => setFileWithValidation view f load w
      | None => w
      end
  end.

(** [onDrop] and [onFileInputChange]: the first file, if any. *)
Definition onDrop (view : ReactState) (files : list File) (load : ImageLoad)
    (w : World) : World :=
  match files with
  | f :: _ => setFileWithValidation view f load w
  | [] => w
  end.

(** [useSample], given the blob fetched. *)
Definition useSample (view : ReactState) (name : string) (b : Blob)
    (load : ImageLoad) (w : World) : World :=
  setFileWithValidation view
    (mkFile name (Js.or_else (blob_type b) "image/jpeg") (blob_size b)) load w.

(** Vocabulary. *)

Definition blob_url (k : nat) : string := "blob:" ++ Js.show (Z.of_nat k).

(** Every live object URL was handed out by [createObjectURL]. *)
Definition urls_wf (w : World) : Prop :=
  forall u, In u (liveUrls w) -> exists k, (k < nextUrl w)%nat /\ u = blob_url k.

Definition eta_positive (o : option Q) : Prop :=
  match o with Some q => (0 < q)%Q | None => True end.

Definition no_ws (s : string) : Prop :=
  forall c, In c (list_ascii_of_string s) -> Js.is_ws c = false.

Definition all_ws (s : string) : Prop :=
  forall c, In c (list_ascii_of_string s) -> Js.is_ws c = true.

(** The tokens [isNoTumor] looks for anywhere in the label. *)
Definition negative_tokens : list string :=
  ["notumor"; "notumour"; "negative"; "absenceoftumor"].

(** The network always fails. *)
Definition offline_env : Env :=
  env_of (fun _ => quiet (NetworkError "Network Error")).

(** 1 KiB = 1024 bytes and so on: the unit index of a size. *)
Definition unit_index (bytes : Z) : Z := Z.log2 bytes / 10.

(** The labels whose variants contain a token of [negative_tokens]. *)
Definition contained_labels : list string :=
  ["No Tumor"; "No Tumour"; "Negative"; "Absence of Tumor"].

(** A request on the wire while an accepted file is previewed. *)
Definition previewing_in_flight_world : World :=
  snd (uploadOnce_start html_env sample_file 1000
         (setFileWithValidation initial_state sample_file (Loaded 512 512)
            initial_world)).

(* ------------------------------------------------------------------ *)
(** ** The earlier page ([HomePage], second source file) *)

Module HomePage.

Record State := mkState {
  file : option File;
  prediction : option json;     (* None: null or undefined *)
  loading : bool
}.

Inductive Effect :=
| Alert (message : string)
| ConsoleError
| Post (url : string) (f : File).

Definition initial : State := mkState None None false.

Definition setFile v (s : State) := mkState v (prediction s) (loading s).
Definition setPrediction v (s : State) := mkState (file s) v (loading s).
Definition setLoading v (s : State) := mkState (file s) (prediction s) v.

(** [e.target.files]: absent, or a list. *)
Definition handleFileChange (files : option (list File)) (s : State) : State :=
  match files with
  | Some (f :: _) => setFile (Some f) s
  | _ => s
  end.

(** The template [`${process.env.NEXT_PUBLIC_API_URL}/predict`]: an unset
    variable prints as "undefined". *)
Definition endpoint (api_url : option string) : string :=
  (match api_url with Some u => u | None => "undefined" end) ++ "/predict".

Definition failure : list Effect :=
  [ConsoleError; Alert "Prediction failed. Check console."].

(** [handleUpload], given how the one request settles.  Reading
    [res.data.prediction] throws when [res.data] is null. *)
Definition handleUpload (api_url : option string) (settle : Settle)
    (s : State) : State * list Effect :=
  match file s with
  | None => (s, [Alert "Please select an image"])
  | Some f =>
      let s := setLoading true s in
      let s := setPrediction None s in
      let post := Post (endpoint api_url) f in
      match settle with
      | Fulfilled res =>
          match data res with
          | JNull => (setLoading false s, post :: failure)
          | d => (setLoading false (setPrediction (prop d "prediction") s),
                  [post])
          end
      | _ => (setLoading false s, post :: failure)
      end
  end.

Definition is_post (e : Effect) : bool :=
  match e with Post _ _ => true | _ => false end.

End HomePage.

(* ------------------------------------------------------------------ *)
(** ** The upload with an interruption while a request is on the wire *)

(** What reaches the component during the [await] of [uploadOnce]:
    nothing, [handleCancel], or "Remove image" - the button in the row of
    the selected file, which is rendered whenever a file is selected, is
    not disabled while a request is on the wire, and runs [resetAll] of
    the render then shown. *)
Inductive Interruption := Undisturbed | Cancel | RemoveImage.

Definition interrupt (i : Interruption) (w : World) : World :=
  match i with
  | Undisturbed => w
  | Cancel => handleCancel w
  | RemoveImage => resetAll (ui w) w
  end.

(** The interruption that an [Attempt] scripts. *)
Definition interruption_of (a : Attempt) : Interruption :=
  if at_cancel a then Cancel else Undisturbed.

(** [uploadOnce], the interruption given apart from the attempt. *)
Definition uploadOnce_interrupted (env : Env) (f : File) (a : Attempt)
    (i : Interruption) (w : World) : World * Completion :=
  let (controller, w) := uploadOnce_start env f (at_start a) w in
  let w := run_ticks f (at_ticks a) w in
  let w := interrupt i w in
  (* the await resumes *)
  let cancelled := is_aborted controller w in
  let w := set_pending None w in
  if cancelled then (w, Throw (Some CanceledError))
  else
    match at_settle a with
    | Fulfilled res =>
        match interpret_response env res with
        | inl msg => (w, Throw (Some (plain_error msg)))
        | inr normalized => (with_ui (setResult (Some normalized)) w, Return)
        end
    | other => (w, Throw (settle_error other))
    end.

(** The retry loop and [handleUpload] over it; [script k] is what happens
    during attempt [k]. *)
Fixpoint retry_loop_interrupted (env : Env) (f : File)
    (script : nat -> Interruption) (remaining : nat) (attempt : nat)
    (lastError : option Err) (w : World) : World * Completion :=
  match remaining with
  | O => (w, Throw lastError)
  | S remaining =>
      let attempt := S attempt in
      match uploadOnce_interrupted env f (transport env attempt)
              (script attempt) w with
      | (w, Return) => (w, Return)
      | (w, Throw err) =>
          let lastError := err in
          if is_cancel err then (w, Throw err)
          else if client_status err then (w, Throw lastError)
          else
            let delay := retry_delay env attempt in
            retry_loop_interrupted env f script remaining attempt lastError
              (emit (ESleep delay) w)
      end
  end.

Definition handleUpload_interrupted (view : ReactState) (env : Env)
    (script : nat -> Interruption) (w : World) : World :=
  match file view with
  | None =>
      let w := with_ui (setErrors [no_file_message]) w in
      let w := with_ui (setStatus Error) w in
      focus_later ErrorRegion w
  | Some f =>
      let w := with_ui (setStatus Uploading) w in
      let w := with_ui (setResult None) w in
      let w := with_ui (setErrors []) w in
      let w := toast ToastPlain "Starting upload"
                 "Your image is being uploaded and processed..." w in
      let w :=
        match retry_loop_interrupted env f script 3 O None w with
        | (w, Return) =>
            let w := with_ui (setStatus Success) w in
            let w := toast ToastSuccess "Prediction complete"
                       "The model returned a result successfully." w in
            focus_later ResultHeading w
        | (w, Throw error) =>
            let w := with_ui (setStatus Error) w in
            let msg := error_text error in
            let w := with_ui (setErrors [msg]) w in
            let w := focus_later ErrorRegion w in
            toast ToastError "Prediction failed" msg w
        end in
      (* finally *)
      let w := set_controllerRef None w in
      set_startTimeRef None w
  end.

(** [handleUpload] as far as it gets while its first request has not
    settled: the request was issued at clock [now] and [ticks] are the
    progress events so far.  Nothing else of [handleUpload] runs until the
    transport settles the request or its signal fires; [axios.post] is
    called without a timeout. *)
Definition handleUpload_awaiting (view : ReactState) (env : Env) (now : Z)
    (ticks : list (ProgressEvent * Z)) (w : World) : World :=
  match file view with
  | None =>
      let w := with_ui (setErrors [no_file_message]) w in
      let w := with_ui (setStatus Error) w in
      focus_later ErrorRegion w
  | Some f =>
      let w := with_ui (setStatus Uploading) w in
      let w := with_ui (setResult None) w in
      let w := with_ui (setErrors []) w in
      let w := toast ToastPlain "Starting upload"
                 "Your image is being uploaded and processed..." w in
      run_ticks f ticks (snd (uploadOnce_start env f now w))
  end.

(** "Remove image" is pressed during the first attempt. *)
Definition remove_during_first (k : nat) : Interruption :=
  match k with
  | 1%nat => RemoveImage
  | _ => Undisturbed
  end.

(** The widget after [sample_file] was accepted: state [Ready], the
    preview shown. *)
Definition ready_world : World :=
  setFileWithValidation initial_state sample_file (Loaded 512 512)
    initial_world.

(* ------------------------------------------------------------------ *)
(** ** HTML answers *)

(** The response is an HTML page in the words of the rule: a string body
    that, trimmed, opens neither a JSON object nor an array and either
    shows the document markers or is declared as HTML. *)
Definition html_page (r : Response) : bool :=
  match data r with
  | JStr s =>
      negb (Js.startsWith (Js.trim s) "{")
      && negb (Js.startsWith (Js.trim s) "[")
      && (looksLikeHTML (Js.trim s) || Js.includes (content_type r) "text/html")
  | _ => false
  end.

(** The attempt is answered, uninterrupted, with an HTML page. *)
Definition answers_html (a : Attempt) : bool :=
  negb (at_cancel a)
  && match at_settle a with
     | Fulfilled r => html_page r
     | _ => false
     end.

(** An HTML page on the first attempt, a prediction on the second. *)
Definition html_then_prediction_env : Env :=
  env_of (fun k =>
    match k with
    | 1%nat => quiet (Fulfilled html_response)
    | _ => quiet (Fulfilled glioma_response)
    end).

(** The rule on HTML answers in its own words: when a response is such a
    page, the upload fails. *)
Definition html_failure_as_stated : Prop :=
  forall view env w f,
    file view = Some f ->
    answers_html (transport env 1) = true ->
    status (ui (handleUpload view env w)) = Error.

(** A body with all five recognized fields and one more. *)
Definition full_response : Response :=
  mkResponse [("content-type", "text/plain")]
    (JObj [("model", JStr "resnet");
           ("prediction", JStr "glioma");
           ("confidence", JNum (9 # 10));
           ("topK", JArr [JStr "glioma"; JStr "meningioma"]);
           ("version", JStr "v2");
           ("latencyMs", JNum (120 # 1))]).

(** The same fields with values of the wrong type. *)
Definition mistyped_response : Response :=
  json_response
    (JObj [("prediction", JNum (1 # 1));
           ("confidence", JStr "high");
           ("topK", JStr "glioma");
           ("version", JNum (2 # 1));
           ("latencyMs", JNull)]).

(* ------------------------------------------------------------------ *)
(** ** The percentage in binary64 *)

(** The value of a finite double. *)
Definition Q_of_float (x : PrimFloat.float) : Q :=
  match FloatOps.Prim2SF x with
  | SpecFloat.S754_finite s m e =>
      let v := (inject_Z (Zpos m) * Qpower 2 e)%Q in
      if s then Qopp v else v
  | _ => 0%Q
  end.

(** A byte count as a double (exact below 2^53). *)
Definition float_of_Z (z : Z) : PrimFloat.float :=
  PrimFloat.of_uint63 (Uint63.of_Z z).

(** [total ? Math.round((loaded / total) * 100) : 0] with the division
    and the product rounded to binary64, as the source evaluates it;
    [Math.round] itself is exact. *)
Definition percent_in_doubles (loaded total : Z) : Z :=
  if total =? 0 then 0
  else
    Math_round
      (Q_of_float
         (PrimFloat.mul (PrimFloat.div (float_of_Z loaded) (float_of_Z total))
            (float_of_Z 100))).


(* ------------------------------------------------------------------ *)
(** ** A request that the abort handle no longer refers to *)

(** The endpoint answers every request with a prediction. *)
Definition prompt_env : Env := env_of (fun _ => quiet (Fulfilled glioma_response)).

(** [handleUpload] on [ready_world] while its first request is on the
    wire. *)
Definition uploading_world : World :=
  handleUpload_awaiting (ui ready_world) prompt_env 1000 [] ready_world.

(** While request 0 is on the wire the user selects a file, which moves
    the state to [Ready] and enables the upload button; the second upload
    finishes first, and its [finally] clears [controllerRef].  Request 0
    has not settled: the one slot the world has for the request on the
    wire, which the second request had taken, is set back to it. *)
Definition second_upload_done_world : World :=
  let w := uploading_world in
  let w := setFileWithValidation (ui w) sample_file (Loaded 512 512) w in
  let w := handleUpload (ui w) prompt_env w in
  set_pending (Some O) w.

(** Reset in the words of its rule: from any state, no request is in
    flight after the call. *)
Definition reset_as_stated : Prop :=
  forall view w, in_flight (resetAll view w) = false.

(* ------------------------------------------------------------------ *)
(** ** The failure message as a JavaScript value *)

(** Truthiness of a JSON value. *)
Definition json_truthy (v : json) : bool :=
  match v with
  | JNull => false
  | JBool b => b
  | JNum q => negb (Qeq_bool q 0)
  | JStr s => Js.truthy s
  | JArr _ | JObj _ => true
  end.

(** [error?.response?.data?.message || error?.message || "..."] for an
    error with a message of its own, [body] being the body of the error
    response when there is one: the [message] field may hold any JSON
    value, and any truthy one is taken as it is. *)
Definition failure_message (body : option json) (message : string) : json :=
  let own := JStr (Js.or_else message default_failure_message) in
  match body with
  | Some d =>
      match prop d "message" with
      | Some v => if json_truthy v then v else own
      | None => own
      end
  | None => own
  end.

(* ================================================================== *)
(** * Properties *)

(* ------------------------------------------------------------------ *)
(** ** Validator *)

Example humanFileSize_max : humanFileSize MAX_SIZE_BYTES = "10.0 MB".
Proof. reflexivity. Qed.

Example humanFileSize_1536 : humanFileSize 1536 = "1.5 KB".
Proof. reflexivity. Qed.

Lemma validateBasic_spec (f : File) (m : string) :
  In m (validateBasic f) <->
  (Js.mem (file_type f) ALLOWED_TYPES = false /\ m = type_message f) \/
  (MAX_SIZE_BYTES < file_size f /\ m = size_message f).
Proof.
  unfold validateBasic.
  destruct (Js.mem (file_type f) ALLOWED_TYPES) eqn:Ht;
    destruct (file_size f >? MAX_SIZE_BYTES) eqn:Hs; cbn [negb app In];
    rewrite ?Z.gtb_lt in Hs;
    try (assert (~ MAX_SIZE_BYTES < file_size f)
           by (rewrite Z.gtb_ltb, Z.ltb_ge in Hs; lia));
    intuition (subst; auto; try discriminate).
Qed.

Lemma dimension_errors_spec (load : ImageLoad) (m : string) :
  In m (dimension_errors load) <->
  match load with
  | Loaded w h => (w < MIN_WIDTH \/ h < MIN_HEIGHT) /\ m = small_message w h
  | LoadFailed => m = unreadable_message
  end.
Proof.
  destruct load as [w h|]; cbn [dimension_errors].
  - destruct ((w <? MIN_WIDTH) || (h <? MIN_HEIGHT)) eqn:E.
    + apply orb_true_iff in E. rewrite !Z.ltb_lt in E.
      cbn [In]. intuition auto.
    + apply orb_false_iff in E. rewrite !Z.ltb_ge in E.
      cbn [In]. intuition lia.
  - cbn [In]. intuition auto.
Qed.

Lemma setFileWithValidation_status (view : ReactState) (f : File)
    (load : ImageLoad) (w : World) :
  status (ui (setFileWithValidation view f load w)) =
  match validate f load with [] => Ready | _ :: _ => Error end.
Proof.
  unfold setFileWithValidation, validate, validateDimensions.
  destruct (createObjectURL w) as [url w1].
  destruct load as [wd ht|];
    destruct (validateBasic f ++ _)%list; reflexivity.
Qed.

Lemma setFileWithValidation_errors (view : ReactState) (f : File)
    (load : ImageLoad) (w : World) :
  validate f load <> [] ->
  errors (ui (setFileWithValidation view f load w)) = validate f load.
Proof.
  unfold setFileWithValidation, validate, validateDimensions.
  destruct (createObjectURL w) as [url w1].
  destruct load as [wd ht|];
    destruct (validateBasic f ++ _)%list; try reflexivity; congruence.
Qed.

(** C4.  The validator runs the type, size and dimension checks
    independently of each other and returns every violation, in that
    order: a message is
    in the list exactly when its own check fails, the file is accepted
    (state [Ready]) exactly when the list is empty, and a file whose
    declared type is outside the allow-list always gets a non-empty list
    holding the type message, whatever its size and dimensions. *)
Theorem validator_collects_all_violations (f : File) (load : ImageLoad) :
  validate f load =
    ((if Js.mem (file_type f) ALLOWED_TYPES then [] else [type_message f])
     ++ (if MAX_SIZE_BYTES <? file_size f then [size_message f] else [])
     ++ dimension_errors load)%list
  /\ (forall m, In m (validate f load) <->
     (Js.mem (file_type f) ALLOWED_TYPES = false /\ m = type_message f) \/
     (MAX_SIZE_BYTES < file_size f /\ m = size_message f) \/
     match load with
     | Loaded w h => (w < MIN_WIDTH \/ h < MIN_HEIGHT) /\ m = small_message w h
     | LoadFailed => m = unreadable_message
     end)
  /\ (forall view w,
        status (ui (setFileWithValidation view f load w)) = Ready
        <-> validate f load = [])
  /\ (forall view w, validate f load <> [] ->
        status (ui (setFileWithValidation view f load w)) = Error /\
        errors (ui (setFileWithValidation view f load w)) = validate f load)
  /\ (Js.mem (file_type f) ALLOWED_TYPES = false ->
        validate f load <> [] /\ In (type_message f) (validate f load)).
Proof.
  assert (Hin : forall m, In m (validate f load) <->
     (Js.mem (file_type f) ALLOWED_TYPES = false /\ m = type_message f) \/
     (MAX_SIZE_BYTES < file_size f /\ m = size_message f) \/
     match load with
     | Loaded w h => (w < MIN_WIDTH \/ h < MIN_HEIGHT) /\ m = small_message w h
     | LoadFailed => m = unreadable_message
     end).
  { intro m. unfold validate. rewrite in_app_iff, validateBasic_spec,
      dimension_errors_spec. tauto. }
  split.
  { unfold validate, validateBasic. rewrite Z.gtb_ltb.
    destruct (Js.mem (file_type f) ALLOWED_TYPES);
      destruct (MAX_SIZE_BYTES <? file_size f); reflexivity. }
  split; [exact Hin|]. split; [|split].
  - intros view w. rewrite setFileWithValidation_status.
    destruct (validate f load); split; congruence.
  - intros view w Hne. split.
    + rewrite setFileWithValidation_status.
      destruct (validate f load); congruence.
    + now apply setFileWithValidation_errors.
  - intro Ht.
    assert (In (type_message f) (validate f load)) as Hm
        by (apply Hin; left; auto).
    split; [|exact Hm].
    intro E. rewrite E in Hm. exact Hm.
Qed.

(* ------------------------------------------------------------------ *)
(** ** Presenter *)

Lemma ws_is_not_az (c : ascii) : Js.is_ws c = true -> is_az c = false.
Proof.
  destruct c as [[] [] [] [] [] [] [] []]; intro H;
    (reflexivity || discriminate H).
Qed.

Lemma ws_lower_is_not_az (c : ascii) :
  Js.is_ws c = true -> is_az (Js.lower_char c) = false.
Proof.
  destruct c as [[] [] [] [] [] [] [] []]; intro H;
    (reflexivity || discriminate H).
Qed.

Lemma strip_trimStart (s : string) :
  strip_non_az (Js.trimStart s) = strip_non_az s.
Proof.
  induction s as [|c r IH]; [reflexivity|].
  cbn [Js.trimStart]. destruct (Js.is_ws c) eqn:W; [|reflexivity].
  cbn [strip_non_az]. now rewrite (ws_is_not_az c W).
Qed.

Lemma strip_trimEnd (s : string) :
  strip_non_az (Js.trimEnd s) = strip_non_az s.
Proof.
  induction s as [|c r IH]; [reflexivity|].
  cbn [Js.trimEnd]. destruct (Js.trimEnd r) as [|c' r'] eqn:E.
  - cbn [strip_non_az] in IH. destruct (Js.is_ws c) eqn:W.
    + cbn [strip_non_az]. now rewrite (ws_is_not_az c W).
    + cbn [strip_non_az]. now rewrite <- IH.
  - change (strip_non_az (String c (String c' r')))
      with (if is_az c then String c (strip_non_az (String c' r'))
            else strip_non_az (String c' r')).
    rewrite IH. reflexivity.
Qed.

(** [trim] is redundant in [normalizeLabel]: white space is not a letter. *)
Lemma normalizeLabel_eq (l : string) :
  normalizeLabel (Some l) = strip_non_az (Js.toLowerCase l).
Proof.
  unfold normalizeLabel, Js.trim. now rewrite strip_trimEnd, strip_trimStart.
Qed.

Lemma strip_non_az_letters (s : string) (c : ascii) :
  In c (list_ascii_of_string (strip_non_az s)) -> is_az c = true.
Proof.
  induction s as [|a r IH]; cbn [strip_non_az]; [intros []|].
  destruct (is_az a) eqn:A; [|exact IH].
  cbn [list_ascii_of_string In]. intros [<-|H]; auto.
Qed.

Lemma variant_normalizeLabel (b s : string) :
  variant b s -> normalizeLabel (Some s) = normalizeLabel (Some b).
Proof.
  rewrite !normalizeLabel_eq.
  induction 1 as [|a c r s Hc _ IH|c r s W _ IH|c r s W _ IH];
    cbn [Js.toLowerCase strip_non_az].
  - reflexivity.
  - unfold same_letter in Hc. rewrite Hc, IH. reflexivity.
  - now rewrite (ws_lower_is_not_az c W).
  - now rewrite (ws_lower_is_not_az c W).
Qed.

Lemma classify_kind (pred : option string) :
  kind (classifyPrediction pred) =
  if isNoTumor (normalizeLabel pred) then Negative
  else if usable pred then Positive else Unknown.
Proof.
  unfold classifyPrediction.
  destruct (isNoTumor _); [reflexivity|]. destruct (usable pred); reflexivity.
Qed.

Example no_tumor_is_a_variant : variant "No Tumor" "NO  tumor".
Proof.
  apply variant_char; [reflexivity|]. apply variant_char; [reflexivity|].
  apply variant_char; [reflexivity|].
  apply variant_insert; [reflexivity|].
  repeat (apply variant_char; [reflexivity|]). apply variant_nil.
Qed.

Example notumor_is_a_variant : variant "No Tumor" "notumor".
Proof.
  apply variant_char; [reflexivity|]. apply variant_char; [reflexivity|].
  apply variant_remove; [reflexivity|].
  repeat (apply variant_char; [reflexivity|]). apply variant_nil.
Qed.

Example no_tumor_shouting :
  kind (classifyPrediction (Some "  NO   tuMoR ")) = Negative.
Proof. reflexivity. Qed.

Example empty_label_is_unknown :
  kind (classifyPrediction (Some "")) = Unknown.
Proof. reflexivity. Qed.

(** C8.  [classifyPrediction] works on the lower-cased label with every
    character that is not a letter a-z removed.  Every casing and spacing
    variant of "No Tumor" and of the other no-tumor labels is in the
    negative band; a present (non-empty) label that does not match the
    negative tokens, such as "glioma", is in the positive band; an absent
    label is in the unknown band. *)
Theorem classifyPrediction_bands :
  (forall l, normalizeLabel (Some l) = strip_non_az (Js.toLowerCase l))
  /\ (forall l c, In c (list_ascii_of_string (normalizeLabel (Some l))) ->
        is_az c = true)
  /\ (forall s, variant "No Tumor" s ->
        kind (classifyPrediction (Some s)) = Negative)
  /\ (forall b s, In b negative_labels -> variant b s ->
        kind (classifyPrediction (Some s)) = Negative)
  /\ (forall s, s <> "" -> isNoTumor (normalizeLabel (Some s)) = false ->
        kind (classifyPrediction (Some s)) = Positive)
  /\ kind (classifyPrediction (Some "glioma")) = Positive
  /\ kind (classifyPrediction None) = Unknown.
Proof.
  assert (Hneg : forall b s, In b negative_labels -> variant b s ->
            kind (classifyPrediction (Some s)) = Negative).
  { intros b s Hb Hv. rewrite classify_kind, (variant_normalizeLabel b s Hv).
    cbn [negative_labels In] in Hb.
    repeat (destruct Hb as [<-|Hb]; [reflexivity|]). destruct Hb. }
  repeat split.
  - exact normalizeLabel_eq.
  - intros l c. rewrite normalizeLabel_eq. apply strip_non_az_letters.
  - intros s. apply Hneg. cbn. auto.
  - exact Hneg.
  - intros s Hs Hn. rewrite classify_kind, Hn.
    destruct s; [congruence|reflexivity].
Qed.

(* ------------------------------------------------------------------ *)
(** ** Uploader: what one attempt leaves behind *)

Lemma same_frame_refl (w : World) : same_frame w w.
Proof. unfold same_frame; repeat split. Qed.

Lemma same_frame_trans (a b c : World) :
  same_frame a b -> same_frame b c -> same_frame a c.
Proof. unfold same_frame; intuition congruence. Qed.

Lemma onUploadProgress_frame (f : File) (e : ProgressEvent) (now : Z)
    (w : World) :
  same_frame w (onUploadProgress f e now w).
Proof.
  unfold onUploadProgress. cbn [startTimeRef with_ui].
  destruct (startTimeRef w) as [t0|]; [|unfold same_frame; repeat split].
  destruct (negb (t0 =? 0) && negb (_ =? 0));
    unfold same_frame; repeat split.
Qed.

Lemma run_ticks_frame (f : File) (ticks : list (ProgressEvent * Z)) :
  forall w, same_frame w (run_ticks f ticks w).
Proof.
  unfold run_ticks.
  induction ticks as [|t ticks IH]; intro w; cbn [fold_left].
  - apply same_frame_refl.
  - eapply same_frame_trans; [apply onUploadProgress_frame | apply IH].
Qed.

Lemma fresh_not_aborted (c : nat) (l : list nat) :
  existsb (Nat.eqb c) (filter (fun a => negb (Nat.eqb c a)) l) = false.
Proof.
  induction l as [|a l IH]; [reflexivity|].
  cbn [filter]. destruct (Nat.eqb c a) eqn:E; cbn [negb]; [exact IH|].
  cbn [existsb]. now rewrite E, IH.
Qed.

(** One attempt: its completion is decided by the attempt alone; it
    issues exactly one request; it touches neither the file nor the
    violation list; the status changes only through a cancel. *)
Lemma uploadOnce_spec (env : Env) (f : File) (a : Attempt) (w : World) :
  let w' := fst (uploadOnce env f a w) in
  snd (uploadOnce env f a w) = completion_of env a
  /\ log w' = (log w ++ EPost (apiEndpoint env) (nextController w) f
                 :: (if at_cancel a then [cancel_toast] else []))%list
  /\ status (ui w') = (if at_cancel a then Ready else status (ui w))
  /\ file (ui w') = file (ui w)
  /\ errors (ui w') = errors (ui w)
  /\ pending w' = None
  /\ result (ui w') =
       match at_cancel a, at_settle a with
       | false, Fulfilled res =>
           match interpret_response env res with
           | inr n => Some n
           | inl _ => result (ui w)
           end
       | _, _ => result (ui w)
       end.
Proof.
  unfold uploadOnce, uploadOnce_start, completion_of, outcome_of.
  cbn [new_controller].
  match goal with
  | |- context [run_ticks f (at_ticks a) ?w0] =>
      pose proof (run_ticks_frame f (at_ticks a) w0) as F;
      destruct (run_ticks f (at_ticks a) w0) as [u cr st ab nc pd lu nu lg]
  end.
  unfold same_frame in F.
  cbn [controllerRef startTimeRef aborted nextController pending liveUrls
       nextUrl log ui set_pending set_controllerRef set_startTimeRef emit
       with_ui setProgress setEtaSeconds setTotalBytes setUploadedBytes
       file previewUrl status errors result] in F.
  destruct F as (-> & -> & -> & -> & -> & -> & -> & -> & Ff & Fp & Fs & Fe & Fr).
  pose proof (fresh_not_aborted (nextController w) (aborted w)) as Hfresh.
  destruct (at_cancel a).
  - unfold handleCancel, abort_current, abort, is_aborted.
    cbn [controllerRef aborted]. rewrite Hfresh.
    cbn. rewrite Nat.eqb_refl. cbn.
    rewrite <- app_assoc. cbn [app].
    repeat split; auto.
  - unfold is_aborted. cbn [aborted]. rewrite Hfresh.
    destruct (at_settle a) as [res|st dm m|m].
    + destruct (interpret_response env res) as [msg|n];
        cbn [fst snd log ui pending set_pending with_ui setResult
             status file errors result];
        repeat split; auto.
    + cbn [fst snd log ui pending set_pending settle_error];
        repeat split; auto.
    + cbn [fst snd log ui pending set_pending settle_error];
        repeat split; auto.
Qed.

(* ------------------------------------------------------------------ *)
(** ** Uploader: response normalization *)

Lemma uploadOnce_fulfilled (env : Env) (f : File) (a : Attempt) (w : World)
    (r : Response) :
  at_cancel a = false -> at_settle a = Fulfilled r ->
  match interpret_response env r with
  | inl msg =>
      snd (uploadOnce env f a w) = Throw (Some (plain_error msg))
      /\ result (ui (fst (uploadOnce env f a w))) = result (ui w)
  | inr n =>
      snd (uploadOnce env f a w) = Return
      /\ result (ui (fst (uploadOnce env f a w))) = Some n
  end.
Proof.
  intros Hc Hs.
  destruct (uploadOnce_spec env f a w) as (Hr & _ & _ & _ & _ & _ & Hres).
  unfold completion_of, outcome_of in Hr. rewrite Hc, Hs in Hr, Hres.
  destruct (interpret_response env r); auto.
Qed.

Example doctype_page_is_html :
  looksLikeHTML "<!DOCTYPE html><html><body>Not Found</body></html>" = true.
Proof. reflexivity. Qed.

Lemma html_page_rejected (env : Env) (r : Response) :
  html_page r = true -> interpret_response env r = inl html_error_message.
Proof.
  unfold html_page, interpret_response, body_stage.
  destruct (data r) as [| | |s| |]; try discriminate.
  intro H. apply andb_true_iff in H as [H Hh].
  apply andb_true_iff in H as [H1 H2].
  apply negb_true_iff in H1, H2. rewrite H1, H2. cbn [orb].
  now rewrite Hh.
Qed.

Lemma answers_html_inv (a : Attempt) :
  answers_html a = true ->
  at_cancel a = false
  /\ exists r, at_settle a = Fulfilled r /\ html_page r = true.
Proof.
  unfold answers_html. intro H. apply andb_true_iff in H as [Hc Hs].
  apply negb_true_iff in Hc. split; [exact Hc|].
  destruct (at_settle a) as [r| |]; try discriminate. eauto.
Qed.

Lemma answers_html_completion (env : Env) (a : Attempt) :
  answers_html a = true ->
  completion_of env a = Throw (Some (plain_error html_error_message))
  /\ retried env a = true.
Proof.
  intro H. destruct (answers_html_inv a H) as (Hc & r & Hs & Hp).
  assert (E : completion_of env a
              = Throw (Some (plain_error html_error_message))).
  { unfold completion_of, outcome_of. rewrite Hc, Hs.
    now rewrite (html_page_rejected env r Hp). }
  split; [exact E|]. unfold retried. now rewrite E.
Qed.

Lemma normalize_recognized_only (fields fields' : list (string * json)) :
  (forall k, In k recognized_fields -> assoc k fields = assoc k fields') ->
  normalize (JObj fields) = normalize (JObj fields').
Proof.
  intro H. unfold normalize, string_prop, number_prop, array_prop, prop.
  rewrite !(H "prediction"), !(H "confidence"), !(H "topK"), !(H "version"),
    !(H "latencyMs") by (cbn; tauto).
  reflexivity.
Qed.

(** A key's value in an object is the value of its first binding. *)
Lemma assoc_first {A} (k : string) (l : list (string * A)) (v : A) :
  assoc k l = Some v <->
  exists pre post,
    l = (pre ++ (k, v) :: post)%list /\ forall v', ~ In (k, v') pre.
Proof.
  induction l as [|[k' x] l IH]; cbn [assoc].
  - split; [discriminate|]. intros (pre & post & E & _).
    destruct pre; discriminate E.
  - destruct (String.eqb_spec k k') as [<-|Hk].
    + split.
      * intros [= ->]. exists [], l. split; [reflexivity|]. intros v' [].
      * intros (pre & post & E & Hn). destruct pre as [|[k2 x2] pre].
        -- now injection E as ->.
        -- injection E as <- <- _. destruct (Hn x). left. reflexivity.
    + rewrite IH. split.
      * intros (pre & post & -> & Hn). exists ((k', x) :: pre), post.
        split; [reflexivity|]. intros v' [[= E _]|H]; [now apply Hk|].
        now apply (Hn v').
      * intros (pre & post & E & Hn). destruct pre as [|[k2 x2] pre].
        -- injection E as E _. now destruct Hk.
        -- injection E as _ _ ->. exists pre, post. split; [reflexivity|].
           intros v' H. apply (Hn v'). right. exact H.
Qed.

(** C6.  After the body stage has let the response through with body [d]:
    when no usable (non-empty) prediction string resolves - in particular
    when [d] neither has a string-valued "prediction" field nor is a bare
    string - and the content type does not declare JSON, [uploadOnce]
    throws the unexpected-format error and stores no result; in every
    other case it returns and stores the normalized result.  Each of its
    five fields is the value of the like-named field of [d] when that
    value has the expected type (a string, a number, an array) and is
    absent otherwise, the prediction falling back to [d] itself when [d]
    is a bare string.  An object being the list of its bindings, the value
    of a key is that of its first binding in the list, and keys other than
    the five do not matter. *)
Theorem normalization_accepts_or_rejects
    (env : Env) (f : File) (a : Attempt) (w : World) (r : Response)
    (d : json) :
  at_cancel a = false ->
  at_settle a = Fulfilled r ->
  body_stage env (content_type r) (data r) = inr d ->
  let ct := content_type r in
  let w' := fst (uploadOnce env f a w) in
  let done := snd (uploadOnce env f a w) in
  let n := normalize d in
  (usable (prediction n) = false -> declares_json ct = false ->
     done = Throw (Some (plain_error unexpected_error_message))
     /\ result (ui w') = result (ui w))
  /\ ((forall p, prop d "prediction" <> Some (JStr p)) ->
      (forall s, d <> JStr s) ->
      declares_json ct = false ->
     done = Throw (Some (plain_error unexpected_error_message))
     /\ result (ui w') = result (ui w))
  /\ (usable (prediction n) = true \/ declares_json ct = true ->
     done = Return /\ result (ui w') = Some n)
  /\ (forall p, prop d "prediction" = Some (JStr p) -> prediction n = Some p)
  /\ (forall s, d = JStr s -> prediction n = Some s)
  /\ ((forall p, prop d "prediction" <> Some (JStr p)) ->
      (forall s, d <> JStr s) -> prediction n = None)
  /\ (forall q, prop d "confidence" = Some (JNum q) -> confidence n = Some q)
  /\ ((forall q, prop d "confidence" <> Some (JNum q)) -> confidence n = None)
  /\ (forall l, prop d "topK" = Some (JArr l) -> topK n = Some l)
  /\ ((forall l, prop d "topK" <> Some (JArr l)) -> topK n = None)
  /\ (forall v, prop d "version" = Some (JStr v) -> version n = Some v)
  /\ ((forall v, prop d "version" <> Some (JStr v)) -> version n = None)
  /\ (forall q, prop d "latencyMs" = Some (JNum q) -> latencyMs n = Some q)
  /\ ((forall q, prop d "latencyMs" <> Some (JNum q)) -> latencyMs n = None)
  /\ (forall fields k v, d = JObj fields ->
        (prop d k = Some v <->
         exists pre post,
           fields = (pre ++ (k, v) :: post)%list
           /\ forall v', ~ In (k, v') pre))
  /\ (forall k, (forall fields, d <> JObj fields) -> prop d k = None)
  /\ (forall fields fields',
        (forall k, In k recognized_fields -> assoc k fields = assoc k fields') ->
        normalize (JObj fields) = normalize (JObj fields')).
Proof.
  intros Hc Hs Hb ct w' done n.
  pose proof (uploadOnce_fulfilled env f a w r Hc Hs) as H.
  unfold interpret_response in H. rewrite Hb in H. fold ct n in H.
  assert (Hnone : (forall p, prop d "prediction" <> Some (JStr p)) ->
                  (forall s, d <> JStr s) -> prediction n = None).
  { intros Hp Hns. subst n. unfold normalize, string_prop.
    cbn [prediction].
    destruct (prop d "prediction") as [[| | |p| |]|];
      try (now destruct (Hp p)); destruct d; try reflexivity;
      now destruct (Hns s). }
  assert (Hfail : usable (prediction n) = false ->
                  declares_json ct = false ->
                  done = Throw (Some (plain_error unexpected_error_message))
                  /\ result (ui w') = result (ui w)).
  { intros Hu Hj. rewrite Hu, Hj in H. exact H. }
  split; [exact Hfail|]. split.
  { intros Hp Hns. apply Hfail. now rewrite (Hnone Hp Hns). }
  split.
  { intros Hok.
    replace (negb (usable (prediction n)) && negb (declares_json ct))
      with false in H; [exact H|].
    destruct Hok as [-> | ->]; cbn [negb andb]; auto using andb_false_r. }
  subst n. unfold normalize, string_prop, number_prop, array_prop.
  cbn [prediction confidence topK version latencyMs].
  split; [now intros p ->|].
  split; [now intros s ->|].
  split; [exact Hnone|].
  split; [now intros q ->|].
  split.
  { intro Hq. destruct (prop d "confidence") as [[| |q| | |]|];
      try reflexivity. now destruct (Hq q). }
  split; [now intros l ->|].
  split.
  { intro Hl. destruct (prop d "topK") as [[| | | |l|]|];
      try reflexivity. now destruct (Hl l). }
  split; [now intros v ->|].
  split.
  { intro Hv. destruct (prop d "version") as [[| | |v| |]|];
      try reflexivity. now destruct (Hv v). }
  split; [now intros q ->|].
  split.
  { intro Hq. destruct (prop d "latencyMs") as [[| |q| | |]|];
      try reflexivity. now destruct (Hq q). }
  split.
  { intros fields k v ->. cbn [prop]. apply assoc_first. }
  split.
  { intros k Hno. destruct d; try reflexivity. now destruct (Hno fields). }
  exact normalize_recognized_only.
Qed.

Lemma normalization_accepts_or_rejects_witness :
  snd (uploadOnce prompt_env sample_file (quiet (Fulfilled full_response))
         initial_world) = Return
  /\ result (ui (fst (uploadOnce prompt_env sample_file
                        (quiet (Fulfilled full_response)) initial_world)))
     = Some (mkResult (Some "glioma") (Some (9 # 10))
               (Some [JStr "glioma"; JStr "meningioma"]) (Some "v2")
               (Some (120 # 1)))
  /\ topK (normalize (data full_response))
     = Some [JStr "glioma"; JStr "meningioma"]
  /\ version (normalize (data full_response)) = Some "v2"
  /\ latencyMs (normalize (data full_response)) = Some (120 # 1).
Proof.
  pose proof (normalization_accepts_or_rejects prompt_env sample_file
                (quiet (Fulfilled full_response)) initial_world
                full_response (data full_response)
                eq_refl eq_refl eq_refl) as H.
  cbv zeta in H.
  destruct H as (_ & _ & Hok & _ & _ & _ & _ & _ & Ht & _ & Hv & _ & Hl & _).
  split; [exact (proj1 (Hok (or_introl eq_refl)))|].
  split; [exact (proj2 (Hok (or_introl eq_refl)))|].
  split; [exact (Ht _ eq_refl)|]. split; [exact (Hv _ eq_refl)|].
  exact (Hl _ eq_refl).
Defined.

(** Values of the wrong type are dropped, field by field; with a JSON
    content type the empty result is still a success. *)
Example mistyped_fields_are_dropped :
  interpret_response prompt_env mistyped_response
  = inr (mkResult None None None None None).
Proof. reflexivity. Qed.

(* ------------------------------------------------------------------ *)
(** ** Uploader: the retry loop *)

Lemma net_trace_app (l l' : list Effect) :
  net_trace (l ++ l') = (net_trace l ++ net_trace l')%list.
Proof.
  induction l as [|e l IH]; [reflexivity|].
  destruct e; cbn [app net_trace]; rewrite IH; reflexivity.
Qed.

Lemma count_posts_net (l : list Effect) :
  count_posts l = count_net_posts (net_trace l).
Proof.
  induction l as [|e l IH]; [reflexivity|].
  destruct e; cbn [count_posts net_trace count_net_posts]; congruence.
Qed.

Lemma count_net_posts_app (l l' : list NetEvent) :
  count_net_posts (l ++ l') = (count_net_posts l + count_net_posts l')%nat.
Proof.
  induction l as [|e l IH]; [reflexivity|].
  destruct e; cbn [app count_net_posts]; rewrite IH; reflexivity.
Qed.

Lemma count_trace_plan (env : Env) (n k : nat) :
  count_net_posts (trace_plan env n k) = attempts_plan env n k.
Proof.
  revert k. induction n as [|n IH]; intro k; [reflexivity|].
  cbn [trace_plan attempts_plan count_net_posts].
  destruct (retried env _); cbn [count_net_posts]; [now rewrite IH|reflexivity].
Qed.

Lemma uploadOnce_net_trace (env : Env) (f : File) (a : Attempt) (w : World) :
  net_trace (log (fst (uploadOnce env f a w)))
  = (net_trace (log w) ++ [Post])%list.
Proof.
  destruct (uploadOnce_spec env f a w) as (_ & Hl & _).
  rewrite Hl, net_trace_app. destruct (at_cancel a); reflexivity.
Qed.

(** The loop does what the plans say. *)
Lemma retry_loop_spec (env : Env) (f : File) (n : nat) :
  forall k lastError w,
    net_trace (log (fst (retry_loop env f n k lastError w)))
      = (net_trace (log w) ++ trace_plan env n k)%list
    /\ snd (retry_loop env f n k lastError w)
      = completion_plan env n k lastError.
Proof.
  induction n as [|n IH]; intros k lastError w.
  - cbn. now rewrite app_nil_r.
  - cbn [retry_loop trace_plan completion_plan].
    pose proof (uploadOnce_net_trace env f (transport env (S k)) w) as Ht.
    destruct (uploadOnce_spec env f (transport env (S k)) w) as (Hc & _).
    destruct (uploadOnce env f (transport env (S k)) w) as [w1 c].
    cbn [fst snd] in Ht, Hc. unfold retried. rewrite <- Hc.
    destruct c as [|err]; cbn [fst snd].
    + now rewrite Ht.
    + destruct (is_cancel err); cbn [negb andb fst snd]; [now rewrite Ht|].
      destruct (client_status err); cbn [negb fst snd]; [now rewrite Ht|].
      destruct (IH (S k) err (emit (ESleep (retry_delay env (S k))) w1))
        as (IH1 & IH2).
      rewrite IH1, IH2. split; [|reflexivity].
      cbn [emit log]. rewrite net_trace_app, Ht. cbn [net_trace app].
      rewrite <- !app_assoc. reflexivity.
Qed.

Lemma attempts_made_plan (env : Env) (f : File) (w : World) :
  attempts_made env f w = attempts_plan env 3 0.
Proof.
  unfold attempts_made, uploadWithRetry.
  destruct (retry_loop_spec env f 3 0 None w) as (Ht & _).
  rewrite !count_posts_net, Ht, count_net_posts_app, count_trace_plan. lia.
Qed.

Lemma uploadWithRetry_completion (env : Env) (f : File) (w : World) :
  snd (uploadWithRetry env f 3 w) = completion_plan env 3 0 None.
Proof. apply retry_loop_spec. Qed.

Lemma retried_iff (env : Env) (a : Attempt) :
  (forall st dm m, at_settle a = HttpError st dm m -> valid_http_status st) ->
  retried env a = true <->
  transient_as_stated (outcome_of a) = true
  \/ rejected_response env (outcome_of a) = true.
Proof.
  intro Hv. unfold retried, completion_of, outcome_of.
  destruct (at_cancel a); cbn; [intuition discriminate|].
  destruct (at_settle a) as [r|st dm m|m] eqn:E; cbn.
  - destruct (interpret_response env r); cbn; intuition discriminate.
  - specialize (Hv st dm m eq_refl). unfold valid_http_status in Hv.
    destruct (Z.eqb_spec st 0); [lia|]. cbn.
    destruct (Z.ltb_spec st 500); destruct (Z.leb_spec 500 st);
      cbn; try lia; intuition discriminate.
  - intuition.
Qed.

Lemma client_status_not_retried (env : Env) (a : Attempt) st dm m :
  valid_http_status st ->
  outcome_of a = Settled (HttpError st dm m) -> st < 500 ->
  retried env a = false /\
  completion_of env a = Throw (Some (mkErr false (Some st) dm m)).
Proof.
  intros Hv Ho Hlt. unfold retried, completion_of. rewrite Ho. cbn.
  unfold valid_http_status in Hv.
  destruct (Z.eqb_spec st 0); [lia|].
  destruct (Z.ltb_spec st 500); [auto|lia].
Qed.

Lemma server_status_retried (env : Env) (a : Attempt) st dm m :
  outcome_of a = Settled (HttpError st dm m) -> 500 <= st ->
  retried env a = true.
Proof.
  intros Ho Hge. unfold retried, completion_of. rewrite Ho. cbn.
  destruct (Z.ltb_spec st 500); [lia|]. now rewrite andb_false_r.
Qed.

(** C2, as the code has it.  With HTTP status codes for statuses,
    [uploadWithRetry] issues between one and three requests; attempt
    [k+1] is made exactly when attempt [k] was made, [k < 3], and attempt
    [k] failed other than by cancellation or with a status below 500:
    that is, with a network or transport error, with a status of 500 or
    more, or because [uploadOnce] itself rejected the response it got.  A
    status below 500 ends the loop at once.  The loop completes as its
    last attempt did.  Two 503 failures and then a success give success
    after exactly three attempts; a first 400 gives a failure after one. *)
Theorem retry_policy (env : Env) (f : File) (w : World) :
  http_statuses env ->
  let n := attempts_made env f w in
  (1 <= n <= 3)%nat
  /\ (forall k, (1 <= k)%nat ->
        ((k + 1 <= n)%nat <->
         (k <= n)%nat /\ (k < 3)%nat /\ retried env (transport env k) = true))
  /\ (forall k, retried env (transport env k) = true <->
        transient_as_stated (outcome_of (transport env k)) = true
        \/ rejected_response env (outcome_of (transport env k)) = true)
  /\ (forall k st dm m,
        outcome_of (transport env k) = Settled (HttpError st dm m) ->
        st < 500 -> retried env (transport env k) = false)
  /\ snd (uploadWithRetry env f 3 w) = completion_of env (transport env n)
  /\ (forall dm1 m1 dm2 m2 r p,
        outcome_of (transport env 1) = Settled (HttpError 503 dm1 m1) ->
        outcome_of (transport env 2) = Settled (HttpError 503 dm2 m2) ->
        outcome_of (transport env 3) = Settled (Fulfilled r) ->
        interpret_response env r = inr p ->
        n = 3%nat /\ snd (uploadWithRetry env f 3 w) = Return)
  /\ (forall dm m,
        outcome_of (transport env 1) = Settled (HttpError 400 dm m) ->
        n = 1%nat /\
        snd (uploadWithRetry env f 3 w)
          = Throw (Some (mkErr false (Some 400) dm m))).
Proof.
  intros Hv n. subst n.
  rewrite attempts_made_plan, uploadWithRetry_completion.
  cbn [attempts_plan completion_plan].
  split; [|split; [|split; [|split; [|split; [|split]]]]].
  - destruct (retried env (transport env 1)); [|lia].
    destruct (retried env (transport env 2)); [|lia].
    destruct (retried env (transport env 3)); lia.
  - intros k Hk.
    destruct (retried env (transport env 1)) eqn:R1;
      [destruct (retried env (transport env 2)) eqn:R2;
         [destruct (retried env (transport env 3)) eqn:R3|]|];
      destruct k as [|[|[|k]]]; try lia;
      rewrite ?R1, ?R2, ?R3; intuition (try lia; try discriminate).
  - intro k. apply retried_iff. intros st dm m. apply Hv.
  - intros k st dm m Ho Hlt.
    assert (valid_http_status st) as Hst.
    { unfold outcome_of in Ho.
      destruct (at_cancel (transport env k)); [discriminate|].
      injection Ho as Ho. exact (Hv k st dm m Ho). }
    exact (proj1 (client_status_not_retried env _ st dm m Hst Ho Hlt)).
  - unfold retried.
    destruct (completion_of env (transport env 1)) as [|e1] eqn:C1;
      cbv beta iota; [now rewrite C1|].
    destruct (negb (is_cancel e1) && negb (client_status e1));
      cbv beta iota; [|now rewrite C1].
    destruct (completion_of env (transport env 2)) as [|e2] eqn:C2;
      cbv beta iota; [now rewrite C2|].
    destruct (negb (is_cancel e2) && negb (client_status e2));
      cbv beta iota; [|now rewrite C2].
    destruct (completion_of env (transport env 3)) as [|e3] eqn:C3;
      cbv beta iota; [now rewrite C3|].
    destruct (negb (is_cancel e3) && negb (client_status e3));
      cbv beta iota; now rewrite C3.
  - intros dm1 m1 dm2 m2 r p H1 H2 H3 Hp.
    rewrite (server_status_retried env _ 503 dm1 m1 H1) by lia.
    rewrite (server_status_retried env _ 503 dm2 m2 H2) by lia.
    assert (completion_of env (transport env 3) = Return) as C3
        by (unfold completion_of; now rewrite H3, Hp).
    assert (retried env (transport env 3) = false) as R3
        by (unfold retried; now rewrite C3).
    rewrite R3, C3.
    unfold completion_of at 1. rewrite H1. cbn [settle_error].
    unfold completion_of at 1. rewrite H2. cbn [settle_error].
    auto.
  - intros dm m H1.
    assert (valid_http_status 400) as V by (unfold valid_http_status; lia).
    destruct (client_status_not_retried env _ 400 dm m V H1) as [R C]; [lia|].
    rewrite R, C. auto.
Qed.

Lemma retry_policy_witness :
  http_statuses flaky_env
  /\ attempts_made flaky_env sample_file initial_world = 3%nat
  /\ snd (uploadWithRetry flaky_env sample_file 3 initial_world) = Return.
Proof.
  assert (Hv : http_statuses flaky_env).
  { intros k st dm m. unfold valid_http_status.
    destruct k as [|[|[|k]]]; cbn; intro H; try discriminate;
      injection H as <- _ _; lia. }
  split; [exact Hv|].
  destruct (retry_policy flaky_env sample_file initial_world Hv)
    as (_ & _ & _ & _ & _ & H503 & _).
  exact (H503 None _ None _ glioma_response _
           eq_refl eq_refl eq_refl eq_refl).
Defined.

Example bad_request_is_not_retried :
  attempts_made bad_request_env sample_file initial_world = 1%nat.
Proof. vm_compute. reflexivity. Qed.

(** C2, counterexample.  The endpoint answers with an HTML page: no
    attempt fails with a network error or a status of 500 or more, and
    yet three requests are made. *)
Lemma html_page_is_retried :
  attempts_made html_env sample_file initial_world = 3%nat
  /\ transient_as_stated (outcome_of (transport html_env 1)) = false
  /\ ~ retry_policy_as_stated.
Proof.
  assert (Hn : attempts_made html_env sample_file initial_world = 3%nat)
    by (vm_compute; reflexivity).
  split; [exact Hn|]. split; [reflexivity|].
  intro H.
  assert (Hv : http_statuses html_env) by (intros k st dm m; discriminate).
  specialize (H html_env sample_file initial_world Hv 1%nat).
  rewrite Hn in H.
  assert (transient_as_stated (outcome_of (transport html_env 1)) = true)
    as Habs by (apply H; lia).
  discriminate Habs.
Qed.

(* ------------------------------------------------------------------ *)
(** ** Uploader: backoff *)

Lemma jitter_range (r : Q) :
  (0 <= r)%Q -> (r < 1)%Q -> 0 <= jitter r < 200.
Proof.
  intros H0 H1. unfold jitter. split.
  - change 0 with (Qfloor 0). apply Qfloor_resp_le.
    apply Qmult_le_0_compat; [exact H0|discriminate].
  - rewrite Zlt_Qlt.
    apply Qle_lt_trans with (r * 200)%Q; [apply Qfloor_le|].
    setoid_replace (inject_Z 200) with (1 * 200)%Q by reflexivity.
    apply Qmult_lt_compat_r; [reflexivity|exact H1].
Qed.

Lemma backoff_values :
  backoff 1 = 2000 /\ backoff 2 = 4000 /\ backoff 3 = 8000.
Proof. repeat split. Qed.

Lemma backoff_capped (k : nat) : backoff k <= 8000.
Proof. unfold backoff. lia. Qed.

Lemma trace_plan_prefix (env : Env) (n : nat) :
  forall k, exists m, trace_plan env n k = firstn m (schedule env n k).
Proof.
  induction n as [|n IH]; intro k.
  - exists O. reflexivity.
  - cbn [trace_plan schedule]. destruct (retried env _).
    + destruct (IH (S k)) as [m Hm]. exists (S (S m)).
      cbn [firstn]. now rewrite Hm.
    + exists 1%nat. reflexivity.
Qed.

(** C3.  With [Math.random] in the unit interval, the requests and
    timers of [uploadWithRetry] form a prefix of: attempt 1, delay 1,
    attempt 2, delay 2, attempt 3, delay 3.  So no delay precedes the
    first attempt and the delay before attempt [k+1] is the one computed
    after attempt [k] failed: [min (2000 * 2^(k-1)) 8000] milliseconds plus
    a jitter in [0, 200) - 2 s after the first failure, 4 s after the
    second, never more than 8 s. *)
Theorem backoff_schedule (env : Env) (f : File) (w : World) :
  unit_random env ->
  (exists m,
     net_trace (log (fst (uploadWithRetry env f 3 w))) =
     (net_trace (log w) ++
      firstn m [Post; Sleep (retry_delay env 1);
                Post; Sleep (retry_delay env 2);
                Post; Sleep (retry_delay env 3)])%list)
  /\ (forall k, (1 <= k)%nat ->
        exists j, retry_delay env k
                  = Z.min (2000 * 2 ^ (Z.of_nat k - 1)) 8000 + j
                  /\ 0 <= j < 200)
  /\ 2000 <= retry_delay env 1 < 2200
  /\ 4000 <= retry_delay env 2 < 4200
  /\ (forall k, retry_delay env k < 8200).
Proof.
  intro Hr.
  assert (Hj : forall k, 0 <= jitter (Math_random env k) < 200)
    by (intro k; destruct (Hr k); now apply jitter_range).
  split; [|split; [|split; [|split]]].
  - destruct (trace_plan_prefix env 3 0) as [m Hm]. exists m.
    unfold uploadWithRetry.
    destruct (retry_loop_spec env f 3 0 None w) as (Ht & _).
    rewrite Ht, Hm. reflexivity.
  - intros k _. exists (jitter (Math_random env k)). split; [reflexivity|].
    apply Hj.
  - unfold retry_delay. change (backoff 1) with 2000. specialize (Hj 1%nat). lia.
  - unfold retry_delay. change (backoff 2) with 4000. specialize (Hj 2%nat). lia.
  - intro k. unfold retry_delay.
    pose proof (backoff_capped k). specialize (Hj k). lia.
Qed.

Lemma backoff_schedule_witness :
  unit_random flaky_env
  /\ net_trace (log (fst (uploadWithRetry flaky_env sample_file 3 initial_world)))
     = [Post; Sleep 2100; Post; Sleep 4100; Post]
  /\ 2000 <= retry_delay flaky_env 1 < 2200.
Proof.
  assert (Hr : unit_random flaky_env).
  { intro k. cbn. split; [discriminate|reflexivity]. }
  split; [exact Hr|]. split; [vm_compute; reflexivity|].
  exact (proj1 (proj2 (proj2
           (backoff_schedule flaky_env sample_file initial_world Hr)))).
Defined.

(* ------------------------------------------------------------------ *)
(** ** Uploader: the upload and cancel handlers *)

Lemma uploadOnce_result (env : Env) (f : File) (a : Attempt) (w : World) :
  match snd (uploadOnce env f a w) with
  | Return => exists p, result (ui (fst (uploadOnce env f a w))) = Some p
  | Throw _ => result (ui (fst (uploadOnce env f a w))) = result (ui w)
  end.
Proof.
  destruct (uploadOnce_spec env f a w) as (Hc & _ & _ & _ & _ & _ & Hr).
  rewrite Hc, Hr. unfold completion_of, outcome_of.
  destruct (at_cancel a); [reflexivity|].
  destruct (at_settle a) as [res|st dm m|m]; try reflexivity.
  destruct (interpret_response env res); eauto.
Qed.

Lemma retry_loop_state (env : Env) (f : File) (n : nat) :
  forall k lastError w,
    let w' := fst (retry_loop env f n k lastError w) in
    file (ui w') = file (ui w)
    /\ errors (ui w') = errors (ui w)
    /\ (pending w = None \/ (1 <= n)%nat -> pending w' = None)
    /\ match snd (retry_loop env f n k lastError w) with
       | Return => exists p, result (ui w') = Some p
       | Throw _ => result (ui w') = result (ui w)
       end.
Proof.
  induction n as [|n IH]; intros k lastError w.
  - cbn. repeat split. intros [H|H]; [exact H|lia].
  - cbn [retry_loop].
    pose proof (uploadOnce_result env f (transport env (S k)) w) as Hres.
    destruct (uploadOnce_spec env f (transport env (S k)) w)
      as (_ & _ & _ & Hf & He & Hp & _).
    destruct (uploadOnce env f (transport env (S k)) w) as [w1 c].
    cbn [fst snd] in *.
    destruct c as [|err]; cbn [fst snd]; [auto|].
    destruct (is_cancel err); cbn [fst snd]; [auto|].
    destruct (client_status err); cbn [fst snd]; [auto|].
    specialize (IH (S k) err (emit (ESleep (retry_delay env (S k))) w1)).
    cbv zeta in IH. destruct IH as (IHf & IHe & IHp & IHr).
    split; [|split; [|split]].
    + rewrite IHf. exact Hf.
    + rewrite IHe. exact He.
    + intros _. apply IHp. left. exact Hp.
    + destruct (snd (retry_loop env f n (S k) err _)).
      * exact IHr.
      * rewrite IHr. exact Hres.
Qed.

Lemma attempts_plan_bounds (env : Env) (n : nat) :
  forall k, (attempts_plan env n k <= n)%nat
            /\ ((1 <= n)%nat -> (1 <= attempts_plan env n k)%nat).
Proof.
  induction n as [|n IH]; intro k; cbn [attempts_plan]; [lia|].
  destruct (retried env _); [|lia]. destruct (IH (S k)). lia.
Qed.

Lemma count_posts_app (l l' : list Effect) :
  count_posts (l ++ l') = (count_posts l + count_posts l')%nat.
Proof.
  now rewrite !count_posts_net, net_trace_app, count_net_posts_app.
Qed.

Lemma uploadWithRetry_posts (env : Env) (f : File) (n : nat) (w : World) :
  count_posts (log (fst (uploadWithRetry env f n w)))
  = (count_posts (log w) + attempts_plan env n 0)%nat.
Proof.
  unfold uploadWithRetry.
  destruct (retry_loop_spec env f n 0 None w) as (Ht & _).
  now rewrite !count_posts_net, Ht, count_net_posts_app, count_trace_plan.
Qed.

(** C10.  The upload action without an accepted file issues no request:
    it sets the state to [Error], replaces the violation list by the one
    message asking for an image, asks for focus on the error region, and
    leaves the previous result and everything else as they were. *)
Theorem upload_without_file (view : ReactState) (env : Env) (w : World) :
  file view = None ->
  let w' := handleUpload view env w in
  status (ui w') = Error
  /\ errors (ui w') = ["Please select an image before uploading."]
  /\ result (ui w') = result (ui w)
  /\ log w' = (log w ++ [EFocus ErrorRegion])%list
  /\ count_posts (log w') = count_posts (log w)
  /\ pending w' = pending w
  /\ controllerRef w' = controllerRef w
  /\ file (ui w') = file (ui w)
  /\ previewUrl (ui w') = previewUrl (ui w).
Proof.
  intros Hf w'. subst w'. unfold handleUpload. rewrite Hf.
  cbn. repeat split.
  rewrite !count_posts_net, net_trace_app. cbn. now rewrite app_nil_r.
Qed.

Lemma upload_without_file_witness :
  status (ui (handleUpload initial_state html_env initial_world)) = Error
  /\ log (handleUpload initial_state html_env initial_world)
     = [EFocus ErrorRegion].
Proof.
  pose proof (upload_without_file initial_state html_env initial_world eq_refl)
    as H.
  split; [exact (proj1 H) | exact (proj1 (proj2 (proj2 (proj2 H))))].
Defined.

Lemma handleCancel_sets_ready (w : World) :
  status (ui (handleCancel w)) = Ready
  /\ log (handleCancel w) = (log w ++ [cancel_toast])%list
  /\ controllerRef (handleCancel w) = None.
Proof.
  unfold handleCancel, abort_current, abort.
  destruct (controllerRef w) as [c|]; [destruct (is_aborted c w)|];
    repeat split.
Qed.

(** [handleCancel] run while the first request is on the wire, as an
    [Attempt] scripts it: it sets [Ready] and shows the neutral notice,
    then the rejected request unwinds into the [catch] of [handleUpload],
    which reports a failure. *)
Lemma cancelled_upload_ends_in_error
    (view : ReactState) (env : Env) (w : World) (f : File) :
  file view = Some f ->
  at_cancel (transport env 1) = true ->
  let w' := handleUpload view env w in
  status (ui w') = Error
  /\ errors (ui w') = ["canceled"]
  /\ log w' =
     (log w ++
      [EToast ToastPlain "Starting upload"
         "Your image is being uploaded and processed...";
       EPost (apiEndpoint env) (nextController w) f;
       EToast ToastPlain "Upload canceled" "You canceled the current upload.";
       EFocus ErrorRegion;
       EToast ToastError "Prediction failed" "canceled"])%list
  /\ existsb is_error_toast (log w') = true.
Proof.
  intros Hf Hc w'. subst w'. unfold handleUpload. rewrite Hf.
  unfold uploadWithRetry. cbn [retry_loop].
  match goal with
  | |- context [uploadOnce env f (transport env 1) ?w0] =>
      destruct (uploadOnce_spec env f (transport env 1) w0)
        as (Hr & Hl & _);
      destruct (uploadOnce env f (transport env 1) w0) as [w1 c]
  end.
  cbn [fst snd] in Hr, Hl.
  unfold completion_of, outcome_of in Hr. rewrite Hc in Hr, Hl. subst c.
  cbn [is_cancel CanceledError err_cancel].
  cbn in Hl. rewrite <- app_assoc in Hl. cbn [app] in Hl.
  assert (Hlog :
    log (set_startTimeRef None (set_controllerRef None
      (toast ToastError "Prediction failed" (error_text (Some CanceledError))
        (focus_later ErrorRegion
          (with_ui (setErrors [error_text (Some CanceledError)])
            (with_ui (setStatus Error) w1))))))
    = (log w ++
      [EToast ToastPlain "Starting upload"
         "Your image is being uploaded and processed...";
       EPost (apiEndpoint env) (nextController w) f;
       EToast ToastPlain "Upload canceled" "You canceled the current upload.";
       EFocus ErrorRegion;
       EToast ToastError "Prediction failed" "canceled"])%list).
  { cbn. rewrite Hl. rewrite <- !app_assoc. reflexivity. }
  split; [reflexivity|]. split; [reflexivity|]. split; [exact Hlog|].
  rewrite Hlog, existsb_app. apply orb_true_iff. right. reflexivity.
Qed.

Lemma cancelled_upload_ends_in_error_witness :
  status (ui (handleUpload (setFile (Some sample_file) initial_state)
                cancel_env initial_world)) = Error
  /\ errors (ui (handleUpload (setFile (Some sample_file) initial_state)
                cancel_env initial_world)) = ["canceled"].
Proof.
  pose proof (cancelled_upload_ends_in_error
                (setFile (Some sample_file) initial_state) cancel_env
                initial_world sample_file eq_refl eq_refl) as H.
  split; [exact (proj1 H) | exact (proj1 (proj2 H))].
Defined.

(** Where [handleUpload] ends, read off the plan of the loop. *)
Lemma handleUpload_outcome (view : ReactState) (env : Env) (w : World)
    (f : File) :
  file view = Some f ->
  let w' := handleUpload view env w in
  count_posts (log w') = (count_posts (log w) + attempts_plan env 3 0)%nat
  /\ match completion_plan env 3 0 None with
     | Return =>
         status (ui w') = Success /\ errors (ui w') = []
         /\ exists p, result (ui w') = Some p
     | Throw e =>
         status (ui w') = Error /\ errors (ui w') = [error_text e]
         /\ result (ui w') = None
         /\ In (EToast ToastError "Prediction failed" (error_text e)) (log w')
     end.
Proof.
  intros Hf w'. subst w'. unfold handleUpload. rewrite Hf.
  match goal with
  | |- context [uploadWithRetry env f 3 ?w0] =>
      pose proof (retry_loop_state env f 3 0 None w0) as Hst;
      pose proof (uploadWithRetry_completion env f w0) as Hc;
      pose proof (uploadWithRetry_posts env f 3 w0) as Hn;
      unfold uploadWithRetry in *;
      destruct (retry_loop env f 3 0 None w0) as [w2 c]
  end.
  cbv zeta in Hst. cbn [fst snd] in Hst, Hc, Hn.
  destruct Hst as (_ & Herr & _ & Hres).
  cbn [errors ui with_ui toast emit setErrors] in Herr.
  cbn [log emit toast with_ui] in Hn. rewrite count_posts_app in Hn.
  cbn [count_posts] in Hn.
  rewrite <- Hc. clear Hc.
  generalize dependent (attempts_plan env 3 0). intros n Hn.
  destruct c as [|err].
  - destruct Hres as [p Hp]. cbn.
    split; [|split; [reflexivity|split; [exact Herr|exists p; exact Hp]]].
    rewrite !count_posts_app, Hn. cbn [count_posts]. lia.
  - cbn in Hres. cbn. split; [|repeat split; auto].
    + rewrite !count_posts_app, Hn. cbn [count_posts]. lia.
    + apply in_or_app. right. left. reflexivity.
Qed.

(** C5, as the code has it.  A response that is an HTML page makes the
    attempt fail: [uploadOnce] throws the error whose message names the
    configuration variable and the endpoint and stores no prediction
    result.  The error carries no status, so the loop treats it like a
    transient failure and tries again (a second request follows a page on
    the first attempt); the upload fails with that message when the third
    attempt is answered by such a page after two attempts that were
    retried: state [Error], that message as the only violation and in the
    error toast, no result, three requests. *)
Theorem html_response_is_a_configuration_error (env : Env) (f : File) :
  (forall a w, answers_html a = true ->
     snd (uploadOnce env f a w) = Throw (Some (plain_error html_error_message))
     /\ result (ui (fst (uploadOnce env f a w))) = result (ui w)
     /\ retried env a = true)
  /\ (forall w, answers_html (transport env 1) = true ->
        (2 <= attempts_made env f w)%nat)
  /\ (forall view w,
        file view = Some f ->
        retried env (transport env 1) = true ->
        retried env (transport env 2) = true ->
        answers_html (transport env 3) = true ->
        let w' := handleUpload view env w in
        status (ui w') = Error
        /\ errors (ui w') = [html_error_message]
        /\ result (ui w') = None
        /\ In (EToast ToastError "Prediction failed" html_error_message)
             (log w')
        /\ count_posts (log w') = (count_posts (log w) + 3)%nat)
  /\ Js.includes html_error_message "NEXT_PUBLIC_API_URL" = true
  /\ Js.includes html_error_message "/predict" = true.
Proof.
  split; [|split; [|split; [|split; reflexivity]]].
  - intros a w H.
    destruct (answers_html_completion env a H) as [Hc Hr].
    destruct (answers_html_inv a H) as (Hcan & r & Hs & Hp).
    pose proof (uploadOnce_fulfilled env f a w r Hcan Hs) as Hu.
    rewrite (html_page_rejected env r Hp) in Hu. destruct Hu as [H1 H2].
    repeat split; assumption.
  - intros w H. rewrite attempts_made_plan. cbn [attempts_plan].
    destruct (answers_html_completion env _ H) as [_ ->].
    destruct (retried env (transport env 2)); lia.
  - intros view w Hf R1 R2 H3 w'.
    destruct (answers_html_completion env _ H3) as [C3 R3].
    destruct (handleUpload_outcome view env w f Hf) as [Hn Ho].
    fold w' in Hn, Ho.
    assert (Hplan : completion_plan env 3 0 None
                    = Throw (Some (plain_error html_error_message))).
    { cbn [completion_plan]. rewrite R1, R2, R3, C3.
      unfold retried in R1, R2.
      destruct (completion_of env (transport env 1)); [discriminate R1|].
      destruct (completion_of env (transport env 2)); [discriminate R2|].
      reflexivity. }
    assert (Hatt : attempts_plan env 3 0 = 3%nat)
      by (cbn [attempts_plan]; now rewrite R1, R2, R3).
    rewrite Hplan in Ho. rewrite Hatt in Hn.
    destruct Ho as (H1 & H2 & H4 & H5).
    repeat split; assumption.
Qed.

Lemma html_response_is_a_configuration_error_witness :
  status (ui (handleUpload (ui ready_world) html_env ready_world)) = Error
  /\ errors (ui (handleUpload (ui ready_world) html_env ready_world))
     = [html_error_message]
  /\ snd (uploadOnce html_env sample_file (quiet (Fulfilled html_response))
            initial_world)
     = Throw (Some (plain_error html_error_message)).
Proof.
  pose proof (html_response_is_a_configuration_error html_env sample_file)
    as (Ha & _ & Hu & _).
  pose proof (Hu (ui ready_world) ready_world eq_refl eq_refl eq_refl eq_refl)
    as H.
  cbv zeta in H. destruct H as (H1 & H2 & _).
  split; [exact H1|]. split; [exact H2|].
  exact (proj1 (Ha (quiet (Fulfilled html_response)) initial_world eq_refl)).
Defined.

(** C5, counterexample.  The first attempt is answered by an HTML page,
    the second by a prediction: the upload ends in [Success], with no
    violation and no error toast. *)
Lemma html_page_then_prediction_succeeds :
  answers_html (transport html_then_prediction_env 1) = true
  /\ status (ui (handleUpload (ui ready_world) html_then_prediction_env
                   ready_world)) = Success
  /\ errors (ui (handleUpload (ui ready_world) html_then_prediction_env
                   ready_world)) = []
  /\ existsb is_error_toast
       (log (handleUpload (ui ready_world) html_then_prediction_env
               ready_world)) = false
  /\ ~ html_failure_as_stated.
Proof.
  assert (Hs : status (ui (handleUpload (ui ready_world)
                             html_then_prediction_env ready_world)) = Success)
    by (vm_compute; reflexivity).
  split; [reflexivity|]. split; [exact Hs|].
  split; [vm_compute; reflexivity|]. split; [vm_compute; reflexivity|].
  intro H.
  specialize (H (ui ready_world) html_then_prediction_env ready_world
                sample_file eq_refl eq_refl).
  rewrite Hs in H. discriminate H.
Qed.

(* ------------------------------------------------------------------ *)
(** ** Uploader: progress *)







Lemma Math_round_compat (x y : Q) : (x == y)%Q -> Math_round x = Math_round y.
Proof. intro E. unfold Math_round. now rewrite E. Qed.





(** Where the two neighbours are equally near, binary64 takes either:
    down at 29 of 200, up at 1 of 200; elsewhere it agrees with the
    exact value, as at a quarter of the sample file. *)
Example percent_in_doubles_samples :
  percent_in_doubles 29 200 = 14
  /\ percent_in_doubles 1 200 = 1
  /\ percent_in_doubles 29696 204800 = 14
  /\ percent_in_doubles 51200 204800 = 25
  /\ percent_in_doubles 204800 204800 = 100
  /\ percent_in_doubles 0 204800 = 0.
Proof. vm_compute. repeat split. Qed.

(* ------------------------------------------------------------------ *)
(** ** Reset *)

Lemma filter_idem {A} (p : A -> bool) (l : list A) :
  filter p (filter p l) = filter p l.
Proof.
  induction l as [|a l IH]; [reflexivity|].
  cbn [filter]. destruct (p a) eqn:E; [|exact IH].
  cbn [filter]. now rewrite E, IH.
Qed.

Lemma abort_fires (c : nat) (w : World) : is_aborted c (abort c w) = true.
Proof.
  unfold abort. destruct (is_aborted c w) eqn:E; [exact E|].
  unfold is_aborted. cbn. now rewrite Nat.eqb_refl.
Qed.

Lemma abort_keeps (c d : nat) (w : World) :
  is_aborted d w = true -> is_aborted d (abort c w) = true.
Proof.
  intro H. unfold abort. destruct (is_aborted c w); [exact H|].
  unfold is_aborted in *. cbn. rewrite H. apply orb_true_r.
Qed.

Lemma abort_idem (c : nat) (w : World) : abort c (abort c w) = abort c w.
Proof.
  pose proof (abort_fires c w) as H. unfold abort at 1. now rewrite H.
Qed.

Lemma abort_current_idem (w : World) :
  abort_current (abort_current w) = abort_current w.
Proof.
  unfold abort_current.
  destruct (controllerRef w) as [c|] eqn:E; [|now rewrite E].
  assert (controllerRef (abort c w) = Some c) as ->
      by (unfold abort; destruct (is_aborted c w); [exact E|exact E]).
  apply abort_idem.
Qed.

Lemma abort_current_stops_request (w : World) :
  request_owned w -> in_flight (abort_current w) = false.
Proof.
  intro Ho. unfold in_flight.
  assert (Hp : pending (abort_current w) = pending w).
  { unfold abort_current, abort. destruct (controllerRef w) as [c|];
      [destruct (is_aborted c w)|]; reflexivity. }
  rewrite Hp. destruct (pending w) as [c|] eqn:E; [|reflexivity].
  apply negb_false_iff. unfold abort_current.
  destruct (Ho c E) as [Hc|Ha].
  - rewrite Hc. apply abort_fires.
  - destruct (controllerRef w) as [d|]; [now apply abort_keeps|exact Ha].
Qed.

Lemma resetAll_ui (view : ReactState) (w : World) :
  ui (resetAll view w) = initial_state.
Proof. reflexivity. Qed.

Lemma resetAll_in_flight (view : ReactState) (w : World) :
  request_owned w -> in_flight (resetAll view w) = false.
Proof.
  intro Ho. rewrite <- (abort_current_stops_request w Ho).
  unfold resetAll, revokePreview, in_flight, is_aborted.
  destruct (previewUrl view) as [u|]; [destruct (Js.truthy u)|]; reflexivity.
Qed.

Lemma resetAll_eq (view : ReactState) (w : World) :
  resetAll view w =
  mkWorld initial_state (controllerRef w) None (aborted (abort_current w))
    (nextController w) (pending w) (liveUrls (revokePreview view w))
    (nextUrl w) (log w).
Proof.
  destruct w as [u cr st ab nc pd lu nu lg].
  unfold resetAll, abort_current, abort, revokePreview.
  destruct cr as [c|]; cbn [controllerRef];
    [destruct (is_aborted c (mkWorld u (Some c) st ab nc pd lu nu lg))|];
    (destruct (previewUrl view) as [p|]; [destruct (Js.truthy p)|]);
    reflexivity.
Qed.

(** A world that a reset leaves as it is. *)
Lemma resetAll_fixed (view : ReactState) (w : World) :
  ui w = initial_state -> startTimeRef w = None ->
  aborted (abort_current w) = aborted w ->
  liveUrls (revokePreview view w) = liveUrls w ->
  resetAll view w = w.
Proof.
  intros Hu Hs Ha Hl. rewrite resetAll_eq, Ha, Hl.
  destruct w; cbn in *. now subst.
Qed.

Lemma resetAll_again (view view' : ReactState) (w : World) :
  previewUrl view' = previewUrl view \/ previewUrl view' = None ->
  resetAll view' (resetAll view w) = resetAll view w.
Proof.
  intro Hv. apply resetAll_fixed.
  - apply resetAll_ui.
  - rewrite resetAll_eq. reflexivity.
  - rewrite resetAll_eq. unfold abort_current at 1. cbn [controllerRef aborted].
    destruct (controllerRef w) as [c|] eqn:Ec; [|reflexivity].
    unfold abort_current. rewrite Ec.
    pose proof (abort_fires c w) as Hf. unfold is_aborted in Hf.
    unfold abort at 1, is_aborted. cbn [aborted]. now rewrite Hf.
  - rewrite resetAll_eq. unfold revokePreview at 1.
    destruct Hv as [-> | ->]; [|reflexivity].
    unfold revokePreview.
    destruct (previewUrl view) as [p|]; [|reflexivity].
    destruct (Js.truthy p); [|reflexivity].
    unfold revokeObjectURL. cbn [liveUrls]. apply filter_idem.
Qed.

(** C9, as the code has it.  From any world, a call of [resetAll] leaves
    the state [Idle] with no file and no preview URL (the previous one is
    revoked), and the signal of the request that [controllerRef] refers
    to has fired: no request is in flight when the one on the wire, if
    any, is that request.  A second call, whether it comes from the same
    render or from the next, changes nothing. *)
Theorem reset_is_idempotent (view : ReactState) (w : World) :
  let w1 := resetAll view w in
  status (ui w1) = Idle
  /\ file (ui w1) = None
  /\ previewUrl (ui w1) = None
  /\ ui w1 = initial_state
  /\ (forall c, controllerRef w = Some c -> is_aborted c w1 = true)
  /\ (request_owned w -> in_flight w1 = false)
  /\ (forall u, previewUrl view = Some u -> Js.truthy u = true ->
        ~ In u (liveUrls w1))
  /\ resetAll (ui w1) w1 = w1
  /\ resetAll view w1 = w1.
Proof.
  intros w1. subst w1.
  split; [reflexivity|]. split; [reflexivity|]. split; [reflexivity|].
  split; [reflexivity|]. split; [|split; [|split; [|split]]].
  - intros c Hc. rewrite resetAll_eq. unfold abort_current. rewrite Hc.
    pose proof (abort_fires c w) as H. unfold is_aborted in *. exact H.
  - apply resetAll_in_flight.
  - intros u Hu Ht. unfold resetAll, revokePreview. rewrite Hu, Ht.
    cbn. rewrite filter_In. intros [_ H].
    now rewrite String.eqb_refl in H.
  - apply resetAll_again. right. reflexivity.
  - apply resetAll_again. left. reflexivity.
Qed.

Lemma reset_is_idempotent_witness :
  request_owned uploading_world
  /\ in_flight uploading_world = true
  /\ in_flight (resetAll (ui uploading_world) uploading_world) = false
  /\ status (ui (resetAll (ui uploading_world) uploading_world)) = Idle
  /\ resetAll (ui uploading_world)
       (resetAll (ui uploading_world) uploading_world)
     = resetAll (ui uploading_world) uploading_world.
Proof.
  assert (Ho : request_owned uploading_world).
  { intros c Hc. left. cbn in Hc |- *. exact Hc. }
  pose proof (reset_is_idempotent (ui uploading_world) uploading_world) as H.
  cbv zeta in H. destruct H as (Hs & _ & _ & _ & _ & Hf & _ & _ & Hi).
  split; [exact Ho|]. split; [reflexivity|]. split; [exact (Hf Ho)|].
  split; [exact Hs|exact Hi].
Defined.

(** C9, counterexample.  Request 0 is on the wire and [controllerRef] has
    been cleared by a second upload that has finished: the reset has no
    handle to abort, and the request stays in flight. *)
Lemma reset_leaves_an_unowned_request_in_flight :
  pending second_upload_done_world = Some O
  /\ controllerRef second_upload_done_world = None
  /\ in_flight second_upload_done_world = true
  /\ in_flight (resetAll (ui second_upload_done_world)
                  second_upload_done_world) = true
  /\ status (ui (resetAll (ui second_upload_done_world)
                   second_upload_done_world)) = Idle
  /\ ~ reset_as_stated.
Proof.
  assert (H : in_flight (resetAll (ui second_upload_done_world)
                           second_upload_done_world) = true)
    by (vm_compute; reflexivity).
  split; [reflexivity|]. split; [reflexivity|].
  split; [vm_compute; reflexivity|]. split; [exact H|].
  split; [reflexivity|].
  intro Hr. rewrite Hr in H. discriminate H.
Qed.

(** The request on the wire is the one [controllerRef] refers to while
    [uploadOnce] waits for it, through its progress events, and after a
    cancel. *)
Lemma request_owned_in_flight (env : Env) (f : File) (now : Z)
    (ticks : list (ProgressEvent * Z)) (w : World) :
  let w1 := run_ticks f ticks (snd (uploadOnce_start env f now w)) in
  request_owned w1 /\ request_owned (handleCancel w1).
Proof.
  intro w1.
  pose proof (run_ticks_frame f ticks (snd (uploadOnce_start env f now w)))
    as F. fold w1 in F. unfold same_frame in F.
  destruct F as (Hc & _ & Ha & _ & Hp & _).
  cbn in Hc, Hp.
  split.
  - intros c Hpc. left. congruence.
  - intros c Hpc. right.
    assert (pending (handleCancel w1) = pending w1) as Hpp.
    { unfold handleCancel, abort_current, abort.
      destruct (controllerRef w1) as [d|]; [destruct (is_aborted d w1)|];
        reflexivity. }
    rewrite Hpp, Hp in Hpc. injection Hpc as <-.
    unfold handleCancel, abort_current. rewrite Hc.
    pose proof (abort_fires (nextController w) w1) as Hf.
    unfold is_aborted in *. exact Hf.
Qed.

Example stray_response_is_rejected :
  interpret_response html_env stray_response = inl unexpected_error_message.
Proof. reflexivity. Qed.

Example empty_prediction_is_not_usable :
  interpret_response html_env
    (mkResponse [("content-type", "text/plain")]
       (JObj [("prediction", JStr "")]))
  = inl unexpected_error_message.
Proof. reflexivity. Qed.

(* ------------------------------------------------------------------ *)
(** ** Uploader: a reset while a request is on the wire *)

(** The scripted cancel is one of the interruptions: with the
    interruptions read off the attempts, the three functions are
    [uploadOnce], [retry_loop] and [handleUpload]. *)
Lemma uploadOnce_interrupted_scripted (env : Env) (f : File) (a : Attempt)
    (w : World) :
  uploadOnce_interrupted env f a (interruption_of a) w = uploadOnce env f a w.
Proof.
  unfold uploadOnce_interrupted, uploadOnce, interruption_of.
  destruct (at_cancel a); reflexivity.
Qed.

Lemma retry_loop_interrupted_scripted (env : Env) (f : File) (n : nat) :
  forall k lastError w,
    retry_loop_interrupted env f (fun j => interruption_of (transport env j))
      n k lastError w
    = retry_loop env f n k lastError w.
Proof.
  induction n as [|n IH]; intros k lastError w; [reflexivity|].
  cbn [retry_loop_interrupted retry_loop].
  rewrite uploadOnce_interrupted_scripted.
  destruct (uploadOnce env f (transport env (S k)) w) as [w1 [|err]];
    [reflexivity|].
  destruct (is_cancel err); [reflexivity|].
  destruct (client_status err); [reflexivity|].
  apply IH.
Qed.

Lemma handleUpload_interrupted_scripted (view : ReactState) (env : Env)
    (w : World) :
  handleUpload_interrupted view env
    (fun j => interruption_of (transport env j)) w
  = handleUpload view env w.
Proof.
  unfold handleUpload_interrupted, handleUpload, uploadWithRetry.
  destruct (file view); [|reflexivity].
  now rewrite retry_loop_interrupted_scripted.
Qed.

(** An attempt during which "Remove image" is pressed: the reset aborts
    the request, which is then rejected as cancelled, whatever the
    transport had in store. *)
Lemma uploadOnce_removed (env : Env) (f : File) (a : Attempt) (w : World) :
  let w' := fst (uploadOnce_interrupted env f a RemoveImage w) in
  snd (uploadOnce_interrupted env f a RemoveImage w)
    = Throw (Some CanceledError)
  /\ log w' = (log w ++ [EPost (apiEndpoint env) (nextController w) f])%list
  /\ ui w' = initial_state
  /\ pending w' = None.
Proof.
  unfold uploadOnce_interrupted, uploadOnce_start.
  cbn [new_controller interrupt].
  match goal with
  | |- context [run_ticks f (at_ticks a) ?w0] =>
      pose proof (run_ticks_frame f (at_ticks a) w0) as F;
      destruct (run_ticks f (at_ticks a) w0) as [u cr st ab nc pd lu nu lg]
  end.
  unfold same_frame in F.
  cbn [controllerRef startTimeRef aborted nextController pending liveUrls
       nextUrl log ui set_pending set_controllerRef set_startTimeRef emit
       with_ui setProgress setEtaSeconds setTotalBytes setUploadedBytes
       file previewUrl status errors result] in F.
  destruct F as (-> & -> & -> & -> & -> & -> & -> & -> & _).
  cbn [ui]. rewrite resetAll_eq.
  unfold abort_current. cbn [controllerRef log pending nextController].
  match goal with
  | |- context [abort ?c ?w0] => pose proof (abort_fires c w0) as Hf
  end.
  unfold is_aborted in Hf |- *. cbn [aborted set_pending]. rewrite Hf.
  cbn [fst snd log ui pending]. repeat split.
Qed.

(** C1, the code at the failing input.  While the first request is on the
    wire the user presses "Remove image": [resetAll] fires the abort
    signal and clears the widget; the request is rejected as cancelled,
    [uploadWithRetry] rethrows without another attempt, and the [catch] of
    [handleUpload], which does not look for a cancellation, reports a
    failure.  The upload ends in state [Error] with the violation list
    ["canceled"] and an error toast; no cancellation notice is shown. *)
Theorem removed_upload_ends_in_error
    (view : ReactState) (env : Env) (script : nat -> Interruption)
    (w : World) (f : File) :
  file view = Some f ->
  script 1%nat = RemoveImage ->
  let w' := handleUpload_interrupted view env script w in
  status (ui w') = Error
  /\ errors (ui w') = ["canceled"]
  /\ file (ui w') = None
  /\ previewUrl (ui w') = None
  /\ result (ui w') = None
  /\ log w' =
     (log w ++
      [EToast ToastPlain "Starting upload"
         "Your image is being uploaded and processed...";
       EPost (apiEndpoint env) (nextController w) f;
       EFocus ErrorRegion;
       EToast ToastError "Prediction failed" "canceled"])%list
  /\ existsb is_error_toast (log w') = true
  /\ (In cancel_toast (log w') -> In cancel_toast (log w))
  /\ controllerRef w' = None.
Proof.
  intros Hf Hs w'. subst w'. unfold handleUpload_interrupted. rewrite Hf.
  cbn [retry_loop_interrupted]. rewrite Hs.
  match goal with
  | |- context [uploadOnce_interrupted env f (transport env 1) RemoveImage ?w0] =>
      destruct (uploadOnce_removed env f (transport env 1) w0)
        as (Hr & Hl & Hu & _);
      destruct (uploadOnce_interrupted env f (transport env 1) RemoveImage w0)
        as [w1 c]
  end.
  cbn [fst snd] in Hr, Hl, Hu. subst c.
  cbn [is_cancel CanceledError err_cancel].
  cbn [log toast emit with_ui nextController] in Hl.
  rewrite <- app_assoc in Hl. cbn [app] in Hl.
  assert (Hlog :
    log (set_startTimeRef None (set_controllerRef None
      (toast ToastError "Prediction failed" (error_text (Some CanceledError))
        (focus_later ErrorRegion
          (with_ui (setErrors [error_text (Some CanceledError)])
            (with_ui (setStatus Error) w1))))))
    = (log w ++
      [EToast ToastPlain "Starting upload"
         "Your image is being uploaded and processed...";
       EPost (apiEndpoint env) (nextController w) f;
       EFocus ErrorRegion;
       EToast ToastError "Prediction failed" "canceled"])%list).
  { cbn. rewrite Hl. rewrite <- !app_assoc. reflexivity. }
  split; [reflexivity|]. split; [reflexivity|].
  split; [cbn; now rewrite Hu|]. split; [cbn; now rewrite Hu|].
  split; [cbn; now rewrite Hu|].
  split; [exact Hlog|]. split; [|split; [|reflexivity]].
  - rewrite Hlog, existsb_app. apply orb_true_iff. right. reflexivity.
  - rewrite Hlog. intro H. apply in_app_or in H as [H|H]; [exact H|].
    cbn in H. repeat (destruct H as [H|H]; [discriminate H|]). destruct H.
Qed.

Lemma removed_upload_ends_in_error_witness :
  status (ui ready_world) = Ready
  /\ status (ui (handleUpload_interrupted (ui ready_world) prompt_env
                   remove_during_first ready_world)) = Error
  /\ errors (ui (handleUpload_interrupted (ui ready_world) prompt_env
                   remove_during_first ready_world)) = ["canceled"]
  /\ existsb is_error_toast
       (log (handleUpload_interrupted (ui ready_world) prompt_env
               remove_during_first ready_world)) = true.
Proof.
  pose proof (removed_upload_ends_in_error (ui ready_world) prompt_env
                remove_during_first ready_world sample_file
                eq_refl eq_refl) as H.
  cbv zeta in H. destruct H as (H1 & H2 & _ & _ & _ & _ & H3 & _).
  split; [reflexivity|]. split; [exact H1|]. split; [exact H2|exact H3].
Defined.

(** Left alone, the same upload succeeds. *)
Example undisturbed_upload_succeeds :
  status (ui (handleUpload_interrupted (ui ready_world) prompt_env
                (fun _ => Undisturbed) ready_world)) = Success.
Proof. vm_compute. reflexivity. Qed.

(** The button that was pressed is the one wired to [resetAll], and it is
    not the primary button, which is disabled in that state. *)
Example cancel_is_not_available_while_uploading :
  ctaDisabled (ui uploading_world) = true
  /\ status (ui uploading_world) = Uploading
  /\ in_flight uploading_world = true.
Proof. vm_compute. repeat split. Qed.

(* ================================================================== *)
(** * Further properties of the component *)

(* ------------------------------------------------------------------ *)
(** ** Display helpers *)

Lemma Qfloor_unique (x : Q) (z : Z) :
  (inject_Z z <= x)%Q -> (x < inject_Z (z + 1))%Q -> Qfloor x = z.
Proof.
  intros H1 H2. pose proof (Qfloor_le x) as F1. pose proof (Qlt_floor x) as F2.
  assert (z < Qfloor x + 1) by (rewrite Zlt_Qlt; eapply Qle_lt_trans; eauto).
  assert (Qfloor x < z + 1) by (rewrite Zlt_Qlt; eapply Qle_lt_trans; eauto).
  lia.
Qed.

Lemma Math_round_shift (s : Q) (n : Z) :
  Math_round (s - inject_Z n)%Q = Math_round s - n.
Proof.
  unfold Math_round. apply Qfloor_unique.
  - pose proof (Qfloor_le (s + (1 # 2))) as F.
    unfold Z.sub. rewrite inject_Z_plus, inject_Z_opp. lra.
  - pose proof (Qlt_floor (s + (1 # 2))) as F.
    replace (Qfloor (s + (1 # 2)) - n + 1)
      with ((Qfloor (s + (1 # 2)) + 1) + - n) by lia.
    rewrite inject_Z_plus, inject_Z_opp. lra.
Qed.

Lemma Math_round_between (s : Q) (a b : Z) :
  (inject_Z a <= s)%Q -> (s <= inject_Z b)%Q -> a <= Math_round s <= b.
Proof.
  intros Ha Hb. unfold Math_round. split.
  - rewrite <- (Qfloor_Z a). apply Qfloor_resp_le. lra.
  - assert (Qfloor (s + (1 # 2)) < b + 1); [|lia].
    rewrite Zlt_Qlt, inject_Z_plus.
    pose proof (Qfloor_le (s + (1 # 2))).
    change (inject_Z 1) with 1%Q. lra.
Qed.

Lemma floor_div_60 (s : Q) :
  (60 <= s)%Q ->
  1 <= Qfloor (s / 60)%Q
  /\ (inject_Z (60 * Qfloor (s / 60)%Q) <= s)%Q
  /\ (s < inject_Z (60 * Qfloor (s / 60)%Q) + 60)%Q.
Proof.
  intros H. set (m := Qfloor (s / 60)%Q).
  pose proof (Qfloor_le (s / 60)) as F1. pose proof (Qlt_floor (s / 60)) as F2.
  fold m in F1, F2. rewrite inject_Z_plus in F2.
  assert (E : (s == 60 * (s / 60))%Q) by field.
  rewrite inject_Z_mult. change (inject_Z 60) with 60%Q.
  change (inject_Z 1) with 1%Q in F2.
  split; [|split]; [|lra|lra].
  assert (1 < m + 1); [|lia]. rewrite Zlt_Qlt, inject_Z_plus.
  assert (1 <= s / 60)%Q by (apply Qle_shift_div_l; [reflexivity|lra]).
  change (inject_Z 1) with 1%Q. lra.
Qed.

Lemma Qle_bool_false (x y : Q) : Qle_bool x y = false <-> (y < x)%Q.
Proof.
  split; intro H.
  - apply Qnot_le_lt. intro L. apply Qle_bool_iff in L. congruence.
  - apply not_true_is_false. rewrite Qle_bool_iff. now apply Qlt_not_le.
Qed.

(** X1.  [formatEta] shows the time rounded to the nearest second: below
    one second "<1s"; below a minute the rounded seconds, from 1 to 60;
    from a minute on, minutes and seconds that add up to the rounded
    time, the seconds part ranging from 0 to 60 inclusive. *)
Theorem formatEta_shows_rounded_seconds (s : Q) :
  ((s < 1)%Q -> formatEta s = "<1s")
  /\ ((1 <= s)%Q -> (s < 60)%Q ->
        formatEta s = Js.show (Math_round s) ++ "s"
        /\ 1 <= Math_round s <= 60)
  /\ ((60 <= s)%Q ->
        exists m r,
          formatEta s = Js.show m ++ "m " ++ Js.show r ++ "s"
          /\ 1 <= m /\ 0 <= r <= 60 /\ 60 * m + r = Math_round s).
Proof.
  unfold formatEta. split; [|split].
  - intro H. apply Qle_bool_false in H. now rewrite H.
  - intros H1 H60. apply Qle_bool_iff in H1. rewrite H1.
    apply Qle_bool_false in H60. rewrite H60. cbn [negb].
    split; [reflexivity|].
    apply Qle_bool_iff in H1. apply Qle_bool_false in H60.
    apply Math_round_between.
    + exact H1.
    + change (inject_Z 60) with 60%Q. lra.
  - intro H60.
    assert (H1 : Qle_bool 1 s = true) by (apply Qle_bool_iff; lra).
    assert (H2 : Qle_bool 60 s = true) by (apply Qle_bool_iff; exact H60).
    rewrite H1, H2. cbn [negb].
    destruct (floor_div_60 s H60) as (Hm & Hlo & Hhi).
    eexists. eexists. split; [reflexivity|]. split; [exact Hm|]. split.
    + apply Math_round_between.
      * change (inject_Z 0) with 0%Q. lra.
      * change (inject_Z 60) with 60%Q. lra.
    + rewrite Math_round_shift. lia.
Qed.

Example formatEta_rolls_to_sixty : formatEta (1196 # 10) = "1m 60s".
Proof. reflexivity. Qed.

Lemma size_unit_large (i : Z) : 4 <= i -> size_unit i = "undefined".
Proof.
  intro H. destruct i as [|p|p]; try lia.
  destruct p as [p|p|]; try lia;
    destruct p as [p|p|]; try lia; reflexivity.
Qed.

Lemma unit_index_bounds (b : Z) :
  1 <= b ->
  0 <= unit_index b
  /\ 2 ^ (10 * unit_index b) <= b < 2 ^ (10 * unit_index b + 10).
Proof.
  intro H. unfold unit_index.
  pose proof (Z.log2_spec b ltac:(lia)) as [L1 L2].
  pose proof (Z.log2_nonneg b) as L0.
  set (l := Z.log2 b) in *.
  assert (0 <= l / 10) by (apply Z.div_pos; lia).
  pose proof (Z.mul_div_le l 10 ltac:(lia)) as D1.
  pose proof (Z.mul_succ_div_gt l 10 ltac:(lia)) as D2.
  split; [assumption|]. split.
  - apply Z.le_trans with (2 ^ l); [|exact L1].
    apply Z.pow_le_mono_r; lia.
  - apply Z.lt_le_trans with (2 ^ Z.succ l); [exact L2|].
    apply Z.pow_le_mono_r; lia.
Qed.

(** X2.  For a size from 1 byte up to (not including) 1024^4,
    [humanFileSize] prints the size over 1024^i to the nearest tenth with
    one of the units B, KB, MB, GB; the number printed lies between 1.0
    and 1024.0 inclusive. *)
Theorem humanFileSize_in_range (b : Z) :
  1 <= b < 2 ^ 40 ->
  exists t,
    humanFileSize b =
      (Js.show (t / 10) ++ "." ++ Js.show (t mod 10)) ++ " "
        ++ size_unit (unit_index b)
    /\ In (size_unit (unit_index b)) ["B"; "KB"; "MB"; "GB"]
    /\ 10 <= t <= 10240
    /\ 2 ^ (10 * unit_index b) * (2 * t - 1) <= 20 * b
       < 2 ^ (10 * unit_index b) * (2 * t + 1).
Proof.
  intros [H1 H2].
  destruct (unit_index_bounds b H1) as (Hi0 & Hlo & Hhi).
  assert (Hi : unit_index b < 4).
  { assert (Z.log2 b < 40) by (apply Z.log2_lt_pow2; lia).
    unfold unit_index. apply Z.div_lt_upper_bound; lia. }
  unfold humanFileSize, toFixed1_dyadic. fold (unit_index b).
  destruct (Z.eqb_spec b 0); [lia|].
  set (P := 2 ^ (10 * unit_index b)) in *.
  assert (HP : 0 < P) by (apply Z.pow_pos_nonneg; lia).
  assert (HP10 : 2 ^ (10 * unit_index b + 10) = 1024 * P).
  { rewrite Z.pow_add_r by lia. subst P. change (2 ^ 10) with 1024. lia. }
  rewrite HP10 in Hhi.
  exists ((20 * b + P) / (2 * P)). split; [reflexivity|].
  split.
  { assert (unit_index b = 0 \/ unit_index b = 1 \/ unit_index b = 2
            \/ unit_index b = 3) as [-> | [-> | [-> | ->]]] by lia;
      cbn; tauto. }
  pose proof (Z.div_mod (20 * b + P) (2 * P) ltac:(lia)) as D.
  pose proof (Z.mod_pos_bound (20 * b + P) (2 * P) ltac:(lia)) as M.
  set (t := (20 * b + P) / (2 * P)) in *.
  split; [|nia]. split.
  - apply Z.div_le_lower_bound; nia.
  - apply Z.lt_succ_r. apply Z.div_lt_upper_bound; nia.
Qed.

Lemma humanFileSize_in_range_witness :
  exists t,
    humanFileSize 1048575 =
      (Js.show (t / 10) ++ "." ++ Js.show (t mod 10)) ++ " KB"
    /\ 10 <= t <= 10240.
Proof.
  destruct (humanFileSize_in_range 1048575 ltac:(lia)) as (t & Ht & _ & Hr & _).
  exists t. split; [exact Ht|exact Hr].
Defined.

Example humanFileSize_rounds_up_to_1024 :
  humanFileSize 1048575 = "1024.0 KB".
Proof. reflexivity. Qed.

(** X3.  From 1024^4 bytes on there is no unit left in the table:
    [humanFileSize] prints the word "undefined" in its place. *)
Theorem humanFileSize_runs_out_of_units (b : Z) :
  2 ^ 40 <= b ->
  exists t,
    humanFileSize b =
      (Js.show (t / 10) ++ "." ++ Js.show (t mod 10)) ++ " undefined".
Proof.
  intro H.
  assert (H40 : 40 <= Z.log2 b) by (apply Z.log2_le_pow2; lia).
  unfold humanFileSize, toFixed1_dyadic.
  destruct (Z.eqb_spec b 0); [lia|].
  rewrite (size_unit_large (Z.log2 b / 10))
    by (apply Z.div_le_lower_bound; lia).
  eexists. reflexivity.
Qed.

Lemma humanFileSize_runs_out_of_units_witness :
  exists t,
    humanFileSize (2 ^ 40) =
      (Js.show (t / 10) ++ "." ++ Js.show (t mod 10)) ++ " undefined".
Proof. exact (humanFileSize_runs_out_of_units (2 ^ 40) ltac:(lia)). Defined.

(* ------------------------------------------------------------------ *)
(** ** String handling: HTML detection and the endpoint *)

Lemma lower_char_ws (c : ascii) : Js.is_ws (Js.lower_char c) = Js.is_ws c.
Proof. destruct c as [[] [] [] [] [] [] [] []]; reflexivity. Qed.

Lemma lower_char_idem (c : ascii) :
  Js.lower_char (Js.lower_char c) = Js.lower_char c.
Proof. destruct c as [[] [] [] [] [] [] [] []]; reflexivity. Qed.

Lemma toLowerCase_idem (s : string) :
  Js.toLowerCase (Js.toLowerCase s) = Js.toLowerCase s.
Proof.
  induction s as [|c r IH]; [reflexivity|].
  cbn [Js.toLowerCase]. now rewrite lower_char_idem, IH.
Qed.

Lemma trimStart_lower (s : string) :
  Js.trimStart (Js.toLowerCase s) = Js.toLowerCase (Js.trimStart s).
Proof.
  induction s as [|c r IH]; [reflexivity|].
  cbn [Js.toLowerCase Js.trimStart]. rewrite lower_char_ws.
  destruct (Js.is_ws c); [exact IH|reflexivity].
Qed.

Lemma trimEnd_lower (s : string) :
  Js.trimEnd (Js.toLowerCase s) = Js.toLowerCase (Js.trimEnd s).
Proof.
  induction s as [|c r IH]; [reflexivity|].
  cbn [Js.toLowerCase Js.trimEnd]. rewrite IH, lower_char_ws.
  destruct (Js.trimEnd r); cbn [Js.toLowerCase];
    [destruct (Js.is_ws c)|]; reflexivity.
Qed.

Lemma trim_lower (s : string) :
  Js.trim (Js.toLowerCase s) = Js.toLowerCase (Js.trim s).
Proof. unfold Js.trim. now rewrite trimStart_lower, trimEnd_lower. Qed.

Lemma trimStart_fixed (s : string) :
  (forall c r, s = String c r -> Js.is_ws c = false) -> Js.trimStart s = s.
Proof.
  destruct s as [|c r]; [reflexivity|]. intro H.
  cbn [Js.trimStart]. now rewrite (H c r eq_refl).
Qed.

Lemma trimStart_head (s : string) (c : ascii) (r : string) :
  Js.trimStart s = String c r -> Js.is_ws c = false.
Proof.
  induction s as [|a s IH]; [discriminate|].
  cbn [Js.trimStart]. destruct (Js.is_ws a) eqn:W; [exact IH|].
  intro E. injection E as <- _. exact W.
Qed.

Lemma trimEnd_head (s : string) (c : ascii) (r : string) :
  Js.trimEnd s = String c r ->
  exists r', s = String c r'.
Proof.
  destruct s as [|a s]; [discriminate|].
  cbn [Js.trimEnd]. destruct (Js.trimEnd s); [destruct (Js.is_ws a)|];
    intro E; try discriminate; injection E as <- _; eauto.
Qed.

Lemma trimEnd_idem (s : string) : Js.trimEnd (Js.trimEnd s) = Js.trimEnd s.
Proof.
  induction s as [|c r IH]; [reflexivity|].
  cbn [Js.trimEnd]. destruct (Js.trimEnd r) as [|c' r'] eqn:E.
  - destruct (Js.is_ws c) eqn:W; [reflexivity|].
    cbn [Js.trimEnd]. now rewrite W.
  - change (Js.trimEnd (String c (String c' r')))
      with (match Js.trimEnd (String c' r') with
            | EmptyString =>
                if Js.is_ws c then EmptyString else String c EmptyString
            | r'' => String c r''
            end).
    now rewrite IH.
Qed.

Lemma trim_idem (s : string) : Js.trim (Js.trim s) = Js.trim s.
Proof.
  unfold Js.trim.
  rewrite (trimStart_fixed (Js.trimEnd (Js.trimStart s))).
  - apply trimEnd_idem.
  - intros c r E. destruct (trimEnd_head _ _ _ E) as [r' E'].
    exact (trimStart_head _ _ _ E').
Qed.

Lemma trimStart_trimEnd (s : string) :
  Js.trimEnd (Js.trimStart s) = Js.trimStart (Js.trimEnd s).
Proof.
  induction s as [|c r IH]; [reflexivity|].
  cbn [Js.trimStart Js.trimEnd].
  destruct (Js.is_ws c) eqn:W.
  - rewrite IH. destruct (Js.trimEnd r) as [|c' r']; [reflexivity|].
    cbn [Js.trimStart]. now rewrite W.
  - cbn [Js.trimEnd]. destruct (Js.trimEnd r); rewrite ?W;
      cbn [Js.trimStart]; now rewrite W.
Qed.

Lemma in_append (c : ascii) (a b : string) :
  In c (list_ascii_of_string (a ++ b)) <->
  In c (list_ascii_of_string a) \/ In c (list_ascii_of_string b).
Proof.
  induction a as [|x a IH]; cbn; [tauto|]. rewrite IH. tauto.
Qed.

Lemma trimStart_ws_app (a s : string) :
  all_ws a -> Js.trimStart (a ++ s) = Js.trimStart s.
Proof.
  induction a as [|c a IH]; intro H; [reflexivity|].
  cbn [append Js.trimStart]. rewrite (H c) by (cbn; auto).
  apply IH. intros x Hx. apply H. cbn. auto.
Qed.

Lemma trimEnd_all_ws (b : string) : all_ws b -> Js.trimEnd b = "".
Proof.
  induction b as [|c b IH]; intro H; [reflexivity|].
  cbn [Js.trimEnd]. rewrite IH by (intros x Hx; apply H; cbn; auto).
  now rewrite (H c) by (cbn; auto).
Qed.

Lemma trimEnd_app_ws (s b : string) :
  all_ws b -> Js.trimEnd (s ++ b) = Js.trimEnd s.
Proof.
  intro H. induction s as [|c s IH]; [now apply trimEnd_all_ws|].
  cbn [append Js.trimEnd]. now rewrite IH.
Qed.

Lemma trim_surrounded (a s b : string) :
  all_ws a -> all_ws b -> Js.trim (a ++ s ++ b) = Js.trim s.
Proof.
  intros Ha Hb. unfold Js.trim.
  rewrite (trimStart_ws_app a _ Ha), !trimStart_trimEnd.
  now rewrite (trimEnd_app_ws s b Hb).
Qed.

(** X4.  [looksLikeHTML] ignores the case of letters and the white space
    around the text: two texts with the same lower-casing get the same
    answer, and so do a text and the same text with white space before
    and after it. *)
Theorem looksLikeHTML_ignores_case_and_padding :
  (forall s s', Js.toLowerCase s = Js.toLowerCase s' ->
     looksLikeHTML s = looksLikeHTML s')
  /\ (forall a s b, all_ws a -> all_ws b ->
        looksLikeHTML (a ++ s ++ b) = looksLikeHTML s)
  /\ (forall s, looksLikeHTML (Js.trim s) = looksLikeHTML s).
Proof.
  split; [|split].
  - intros s s' E. unfold looksLikeHTML.
    now rewrite <- !trim_lower, E.
  - intros a s b Ha Hb. unfold looksLikeHTML.
    now rewrite (trim_surrounded a s b Ha Hb).
  - intro s. unfold looksLikeHTML. now rewrite trim_idem.
Qed.

Lemma trimEnd_no_ws (s : string) : no_ws s -> Js.trimEnd s = s.
Proof.
  induction s as [|c r IH]; intro H; [reflexivity|].
  cbn [Js.trimEnd]. rewrite IH by (intros x Hx; apply H; cbn; auto).
  destruct r; [|reflexivity]. now rewrite (H c) by (cbn; auto).
Qed.

Lemma trim_no_ws (s : string) : no_ws s -> Js.trim s = s.
Proof.
  intro H. unfold Js.trim. rewrite trimStart_fixed.
  - now apply trimEnd_no_ws.
  - intros c r ->. apply H. cbn. auto.
Qed.

Lemma trim_all_ws (s : string) : all_ws s -> Js.trim s = "".
Proof.
  intro H. unfold Js.trim. rewrite trimStart_trimEnd.
  now rewrite trimEnd_all_ws.
Qed.

Lemma strip_trailing_slash_app (b : string) :
  strip_trailing_slash (b ++ "/") = b.
Proof.
  induction b as [|c r IH]; [reflexivity|].
  cbn [append strip_trailing_slash]. rewrite IH.
  destruct r; reflexivity.
Qed.

Lemma strip_trailing_slash_none (s : string) :
  (forall b, s <> b ++ "/") -> strip_trailing_slash s = s.
Proof.
  induction s as [|c r IH]; intro H; [reflexivity|].
  cbn [strip_trailing_slash]. destruct r as [|c' r'].
  - destruct (Ascii.eqb_spec c "/"%char) as [->|]; [|reflexivity].
    now destruct (H "").
  - rewrite IH; [reflexivity|].
    intros b E. apply (H (String c b)). cbn [append]. now rewrite E.
Qed.

(** X5.  The endpoint is the configured base with the white space
    around it and one trailing slash removed, followed by "/predict": an
    unset or blank base gives "/predict", and a base written with or
    without a final slash gives the same endpoint. *)
Theorem apiEndpoint_normalizes_the_base (env : Env) :
  (API_URL env = None -> apiEndpoint env = "/predict")
  /\ (forall b, API_URL env = Some b -> all_ws b ->
        apiEndpoint env = "/predict")
  /\ (forall a b c, API_URL env = Some (a ++ (b ++ "/") ++ c) ->
        all_ws a -> all_ws c -> no_ws b ->
        apiEndpoint env = b ++ "/predict")
  /\ (forall a b c, API_URL env = Some (a ++ b ++ c) ->
        all_ws a -> all_ws c -> no_ws b -> b <> "" ->
        (forall b', b <> b' ++ "/") ->
        apiEndpoint env = b ++ "/predict").
Proof.
  unfold apiEndpoint. split; [|split; [|split]].
  - intros ->. reflexivity.
  - intros b -> Hb. now rewrite trim_all_ws.
  - intros a b c -> Ha Hc Hb.
    rewrite (trim_surrounded a _ c Ha Hc), trim_no_ws.
    + rewrite strip_trailing_slash_app. destruct b; reflexivity.
    + intros x Hx. apply in_append in Hx. destruct Hx as [Hx|Hx].
      * now apply Hb.
      * cbn in Hx. destruct Hx as [<-|[]]. reflexivity.
  - intros a b c -> Ha Hc Hb Hne Hns.
    rewrite (trim_surrounded a _ c Ha Hc), (trim_no_ws b Hb).
    rewrite (strip_trailing_slash_none b Hns).
    destruct b; [congruence|reflexivity].
Qed.

Example apiEndpoint_keeps_a_second_slash :
  apiEndpoint (mkEnv (Some "http://localhost:8000//") (fun _ => None)
                 (fun _ => 0%Q) (fun _ => quiet (NetworkError "")))
  = "http://localhost:8000//predict".
Proof. reflexivity. Qed.

(* ------------------------------------------------------------------ *)
(** ** Uploader: more on responses, errors and the retry loop *)





Lemma or_else_truthy (a b : string) :
  Js.truthy b = true -> Js.truthy (Js.or_else a b) = true.
Proof. intro H. unfold Js.or_else. destruct (Js.truthy a) eqn:E; auto. Qed.

Lemma error_text_nonempty (e : option Err) : Js.truthy (error_text e) = true.
Proof.
  destruct e as [e|]; [|reflexivity].
  unfold error_text. apply or_else_truthy, or_else_truthy. reflexivity.
Qed.

(** X7.  The failure message shown to the user is never a falsy value.
    It is the [message] field of the error response's body whenever that
    holds a truthy value, of whatever type: a non-empty string, but also
    a number other than 0, [true], an array or an object, which is then
    shown in place of a text.  Otherwise it is the error's own message
    when that is not empty, and else the fixed default text.  On errors
    whose [message] field is absent or a string this is [error_text],
    which is never empty; a thrown [null] gives the default. *)
Theorem error_text_priority (e : Err) :
  (forall body m, json_truthy (failure_message body m) = true)
  /\ (forall d v m, prop d "message" = Some v -> json_truthy v = true ->
        failure_message (Some d) m = v)
  /\ (forall body m,
        body = None
        \/ (exists d, body = Some d
            /\ forall v, prop d "message" = Some v -> json_truthy v = false) ->
        failure_message body m
        = JStr (if Js.truthy m then m else default_failure_message))
  /\ (forall d,
        prop d "message" = option_map JStr (err_data_message e) ->
        failure_message (Some d) (err_message e) = JStr (error_text (Some e)))
  /\ Js.truthy (error_text (Some e)) = true
  /\ (forall m, err_data_message e = Some m -> Js.truthy m = true ->
        error_text (Some e) = m)
  /\ (err_data_message e = None \/ err_data_message e = Some "" ->
      Js.truthy (err_message e) = true ->
        error_text (Some e) = err_message e)
  /\ (err_data_message e = None \/ err_data_message e = Some "" ->
      err_message e = "" ->
        error_text (Some e) = default_failure_message)
  /\ error_text None = default_failure_message.
Proof.
  assert (Hown : forall m,
    json_truthy (JStr (Js.or_else m default_failure_message)) = true).
  { intro m. cbn [json_truthy]. now apply or_else_truthy. }
  split.
  { intros body m. unfold failure_message.
    destruct body as [d|]; [|apply Hown].
    destruct (prop d "message") as [v|]; [|apply Hown].
    destruct (json_truthy v) eqn:E; [exact E|apply Hown]. }
  split.
  { intros d v m Hp Hv. unfold failure_message. now rewrite Hp, Hv. }
  split.
  { intros body m H. unfold failure_message, Js.or_else.
    destruct H as [-> | (d & -> & Hd)]; [reflexivity|].
    destruct (prop d "message") as [v|]; [|reflexivity].
    now rewrite (Hd v eq_refl). }
  split.
  { intros d Hp. unfold failure_message, error_text. rewrite Hp.
    destruct (err_data_message e) as [s|]; cbn [option_map json_truthy].
    - unfold Js.or_else at 2. destruct (Js.truthy s); reflexivity.
    - unfold Js.or_else at 2. reflexivity. }
  split; [apply error_text_nonempty|].
  unfold error_text, Js.or_else. split; [|split; [|split]].
  - intros m -> Hm. now rewrite Hm.
  - intros [-> | ->] Hm; cbn; now rewrite Hm.
  - intros [-> | ->] ->; reflexivity.
  - reflexivity.
Qed.

(** A numeric [message] is shown as the number, and [true] as [true],
    which renders as nothing. *)
Example failure_message_of_other_types :
  failure_message (Some (JObj [("message", JNum (42 # 1))]))
    "Request failed with status code 500" = JNum (42 # 1)
  /\ failure_message (Some (JObj [("message", JBool true)]))
       "Request failed with status code 500" = JBool true
  /\ failure_message (Some (JObj [("message", JStr "")]))
       "Request failed with status code 500"
     = JStr "Request failed with status code 500"
  /\ failure_message (Some (JStr "<html>")) "" = JStr default_failure_message.
Proof. repeat split. Qed.





(** X9.  When all three attempts fail in a retryable way, the loop waits
    after the third attempt as well before it throws: the requests and
    timers are attempt, delay, attempt, delay, attempt, delay, the last
    delay is at least 8 seconds and the three delays add up to at least
    14 and less than 14.6 seconds; what is thrown is the error of the
    third attempt. *)
Theorem exhausted_retries_end_with_a_delay
    (env : Env) (f : File) (w : World) :
  unit_random env ->
  retried env (transport env 1) = true ->
  retried env (transport env 2) = true ->
  retried env (transport env 3) = true ->
  net_trace (log (fst (uploadWithRetry env f 3 w))) =
    (net_trace (log w) ++
     [Post; Sleep (retry_delay env 1); Post; Sleep (retry_delay env 2);
      Post; Sleep (retry_delay env 3)])%list
  /\ snd (uploadWithRetry env f 3 w) = completion_of env (transport env 3)
  /\ snd (uploadWithRetry env f 3 w) <> Return
  /\ 8000 <= retry_delay env 3
  /\ 14000 <= retry_delay env 1 + retry_delay env 2 + retry_delay env 3
     < 14600.
Proof.
  intros Hr R1 R2 R3. unfold uploadWithRetry.
  destruct (retry_loop_spec env f 3 0 None w) as (Ht & Hc).
  rewrite Ht, Hc. cbn [trace_plan completion_plan]. rewrite R1, R2, R3.
  assert (Hj : forall k, 0 <= jitter (Math_random env k) < 200)
    by (intro k; destruct (Hr k); now apply jitter_range).
  pose proof (Hj 1%nat). pose proof (Hj 2%nat). pose proof (Hj 3%nat).
  unfold retried in R1, R2, R3.
  destruct (completion_of env (transport env 1)); [discriminate|].
  destruct (completion_of env (transport env 2)); [discriminate|].
  destruct (completion_of env (transport env 3)); [discriminate|].
  split; [reflexivity|]. split; [reflexivity|]. split; [discriminate|].
  unfold retry_delay.
  change (backoff 1) with 2000. change (backoff 2) with 4000.
  change (backoff 3) with 8000. lia.
Qed.

Lemma exhausted_retries_end_with_a_delay_witness :
  net_trace (log (fst (uploadWithRetry offline_env sample_file 3
                         initial_world)))
  = [Post; Sleep 2100; Post; Sleep 4100; Post; Sleep 8100].
Proof.
  assert (Hr : unit_random offline_env)
    by (intro k; cbn; split; [discriminate|reflexivity]).
  exact (proj1 (exhausted_retries_end_with_a_delay offline_env sample_file
                  initial_world Hr eq_refl eq_refl eq_refl)).
Defined.

Lemma count_sleeps_plan (env : Env) (n : nat) :
  forall k,
    (List.length (trace_plan env n k) <= 2 * attempts_plan env n k)%nat.
Proof.
  induction n as [|n IH]; intro k; cbn [trace_plan attempts_plan List.length];
    [lia|].
  destruct (retried env _); cbn [List.length]; [|lia]. specialize (IH (S k)). lia.
Qed.

(** X10.  For any [maxAttempts], [uploadWithRetry] issues at most that
    many requests, at least one when [maxAttempts] is positive, and never
    more timers than requests; with [maxAttempts = 0] it touches nothing
    and throws [null], for which the message shown is the default
    text. *)
Theorem uploadWithRetry_respects_maxAttempts
    (env : Env) (f : File) (n : nat) (w : World) :
  let w' := fst (uploadWithRetry env f n w) in
  (count_posts (log w) <= count_posts (log w')
   <= count_posts (log w) + n)%nat
  /\ ((1 <= n)%nat -> (count_posts (log w) + 1 <= count_posts (log w'))%nat)
  /\ (List.length (net_trace (log w'))
      <= List.length (net_trace (log w))
         + 2 * (count_posts (log w') - count_posts (log w)))%nat
  /\ uploadWithRetry env f 0 w = (w, Throw None)
  /\ error_text None = default_failure_message.
Proof.
  intro w'. subst w'.
  pose proof (uploadWithRetry_posts env f n w) as Hn.
  destruct (attempts_plan_bounds env n 0) as [B1 B2].
  split; [lia|]. split; [intro H; specialize (B2 H); lia|].
  split; [|split; reflexivity].
  unfold uploadWithRetry in *.
  destruct (retry_loop_spec env f n 0 None w) as (Ht & _).
  rewrite Ht, List.length_app, Hn.
  pose proof (count_sleeps_plan env n 0). lia.
Qed.

(* ------------------------------------------------------------------ *)
(** ** Uploader: more on progress and cancellation *)

Lemma eta_stored_positive (l t : Z) (elapsed : Q) :
  eta_positive (eta_stored (eta_of l t elapsed)).
Proof.
  unfold eta_of.
  destruct (Qle_bool (rate_of l elapsed) 0) eqn:R; [exact I|].
  apply Qle_bool_false in R. cbn [negb eta_stored].
  set (q := (inject_Z (Z.max (t - l) 0) / rate_of l elapsed)%Q).
  assert (Hq : (0 <= q)%Q).
  { subst q. apply Qle_shift_div_l; [exact R|]. rewrite Qmult_0_l.
    change 0%Q with (inject_Z 0). rewrite <- Zle_Qle. lia. }
  destruct (Qeq_bool q 0) eqn:E; [exact I|].
  apply Qeq_bool_neq in E. cbn [eta_positive].
  rewrite (Q.max_r 0 q Hq).
  apply Qle_lteq in Hq. destruct Hq as [Hq|Hq]; [exact Hq|].
  now destruct E.
Qed.

Lemma onUploadProgress_eta_positive (f : File) (e : ProgressEvent) (now : Z)
    (w : World) :
  eta_positive (etaSeconds (ui w)) ->
  eta_positive (etaSeconds (ui (onUploadProgress f e now w))).
Proof.
  intro H. unfold onUploadProgress. cbn [startTimeRef with_ui].
  destruct (startTimeRef w) as [t0|]; [|exact H].
  destruct (negb (t0 =? 0) && negb (_ =? 0)); [|exact H].
  cbn. apply eta_stored_positive.
Qed.

Lemma run_ticks_eta_positive (f : File) (ticks : list (ProgressEvent * Z)) :
  forall w, eta_positive (etaSeconds (ui w)) ->
            eta_positive (etaSeconds (ui (run_ticks f ticks w))).
Proof.
  unfold run_ticks.
  induction ticks as [|t ticks IH]; intros w H; cbn [fold_left]; [exact H|].
  apply IH. now apply onUploadProgress_eta_positive.
Qed.

(** X11.  The ETA the progress handler stores is never zero or negative:
    after any sequence of progress events of a request it is either
    absent or strictly positive, whatever the events carry. *)
Theorem stored_eta_is_positive_or_absent
    (env : Env) (f : File) (now : Z) (ticks : list (ProgressEvent * Z))
    (w : World) :
  eta_positive
    (etaSeconds (ui (run_ticks f ticks (snd (uploadOnce_start env f now w)))))
  /\ (forall e t w0,
        eta_positive (etaSeconds (ui w0)) ->
        eta_positive (etaSeconds (ui (onUploadProgress f e t w0))))
  /\ (forall l t elapsed q,
        eta_stored (eta_of l t elapsed) = Some q -> (0 < q)%Q).
Proof.
  split; [|split].
  - apply run_ticks_eta_positive. exact I.
  - intros e t w0. apply onUploadProgress_eta_positive.
  - intros l t elapsed q E.
    pose proof (eta_stored_positive l t elapsed) as H.
    rewrite E in H. exact H.
Qed.

(** X12.  A progress event whose total is 0 (an empty file, or a total
    of 0 in the event) sets the percentage to 0 without dividing and
    leaves the ETA as it was. *)
Theorem progress_event_without_total
    (f : File) (e : ProgressEvent) (now : Z) (w : World) :
  match total e with Some t => t | None => file_size f end = 0 ->
  let w' := onUploadProgress f e now w in
  progress (ui w') = 0
  /\ totalBytes (ui w') = 0
  /\ uploadedBytes (ui w') = match loaded e with Some l => l | None => 0 end
  /\ etaSeconds (ui w') = etaSeconds (ui w).
Proof.
  intros Ht w'. subst w'. unfold onUploadProgress. rewrite Ht.
  cbn [startTimeRef with_ui Z.eqb negb andb].
  destruct (startTimeRef w) as [t0|]; [rewrite andb_false_r|]; repeat split.
Qed.

Lemma progress_event_without_total_witness :
  progress (ui (onUploadProgress (mkFile "empty.png" "image/png" 0)
                  (mkProgress (Some 180) None) 2000 in_flight_world)) = 0.
Proof.
  exact (proj1 (progress_event_without_total
                  (mkFile "empty.png" "image/png" 0)
                  (mkProgress (Some 180) None) 2000 in_flight_world eq_refl)).
Defined.

(** X13.  Pressing cancel while a request is on the wire stops it: the
    request is no longer in flight, the state is [Ready], the percentage
    and the bytes sent are 0 and the ETA is absent, the total is kept,
    and the handle is dropped, so that a second cancel aborts nothing. *)
Theorem cancel_stops_the_request
    (env : Env) (f : File) (now : Z) (ticks : list (ProgressEvent * Z))
    (w : World) :
  let w1 := run_ticks f ticks (snd (uploadOnce_start env f now w)) in
  let w2 := handleCancel w1 in
  in_flight w1 = true
  /\ in_flight w2 = false
  /\ status (ui w2) = Ready
  /\ progress (ui w2) = 0 /\ uploadedBytes (ui w2) = 0
  /\ etaSeconds (ui w2) = None
  /\ totalBytes (ui w2) = totalBytes (ui w1)
  /\ file (ui w2) = file (ui w)
  /\ controllerRef w2 = None
  /\ aborted (handleCancel w2) = aborted w2.
Proof.
  intros w1 w2.
  pose proof (run_ticks_frame f ticks (snd (uploadOnce_start env f now w)))
    as F. fold w1 in F. unfold same_frame in F.
  destruct F as (Hc & _ & Ha & _ & Hp & _ & _ & _ & Hf & _).
  cbn in Hc, Ha, Hp, Hf.
  pose proof (fresh_not_aborted (nextController w) (aborted w)) as Hfresh.
  assert (Hw2 : pending w2 = pending w1 /\ controllerRef w2 = None
                /\ is_aborted (nextController w) w2 = true).
  { subst w2. unfold handleCancel, abort_current. rewrite Hc.
    pose proof (abort_fires (nextController w) w1) as Hf1.
    unfold abort in *. destruct (is_aborted (nextController w) w1);
      repeat split; exact Hf1. }
  destruct Hw2 as (Hp2 & Hc2 & Ha2).
  split.
  { unfold in_flight, is_aborted. rewrite Hp, Ha, Hfresh. reflexivity. }
  split.
  { unfold in_flight. rewrite Hp2, Hp, Ha2. reflexivity. }
  split; [apply handleCancel_sets_ready|].
  assert (Hui : ui w2 = setEtaSeconds None (setUploadedBytes 0
                   (setProgress 0 (setStatus Ready (ui w1))))).
  { subst w2. unfold handleCancel, abort_current, abort.
    destruct (controllerRef w1) as [c|]; [destruct (is_aborted c w1)|];
      reflexivity. }
  rewrite Hui. cbn [status progress uploadedBytes etaSeconds totalBytes file
                    setEtaSeconds setUploadedBytes setProgress setStatus].
  repeat split; auto.
Qed.

(* ------------------------------------------------------------------ *)
(** ** Selecting a file *)

Lemma to_int_not_nil (z : Z) :
  Z.to_int z <> Decimal.Pos Decimal.Nil /\ Z.to_int z <> Decimal.Neg Decimal.Nil.
Proof.
  split; intro E;
    pose proof (DecimalZ.of_to z) as H; rewrite E in H; cbn in H; subst z;
    discriminate E.
Qed.

Lemma show_inj (a b : Z) : Js.show a = Js.show b -> a = b.
Proof.
  unfold Js.show. intro E.
  destruct (to_int_not_nil a) as [A1 A2]. destruct (to_int_not_nil b) as [B1 B2].
  pose proof (NilZero.isi (Z.to_int a) A1 A2) as Ha.
  pose proof (NilZero.isi (Z.to_int b) B1 B2) as Hb.
  rewrite E in Ha. rewrite Ha in Hb. injection Hb as Hb.
  now apply DecimalZ.to_int_inj.
Qed.

Lemma blob_url_inj (a b : nat) : blob_url a = blob_url b -> a = b.
Proof.
  unfold blob_url. intro E. cbn [append] in E.
  injection E as E. apply show_inj in E. lia.
Qed.

Lemma filter_all_kept {A} (p : A -> bool) (l : list A) :
  (forall x, In x l -> p x = true) -> filter p l = l.
Proof.
  induction l as [|a l IH]; intro H; [reflexivity|].
  cbn [filter]. rewrite (H a) by (cbn; auto).
  rewrite IH; [reflexivity|]. intros x Hx. apply H. cbn. auto.
Qed.

Lemma fresh_url_not_live (w : World) (k : nat) :
  urls_wf w -> (nextUrl w <= k)%nat -> ~ In (blob_url k) (liveUrls w).
Proof.
  intros Hwf Hk Hin. destruct (Hwf _ Hin) as (j & Hj & E).
  apply blob_url_inj in E. lia.
Qed.

Lemma revoke_fresh (w : World) (k : nat) :
  urls_wf w -> (nextUrl w <= k)%nat ->
  filter (fun u => negb (String.eqb u (blob_url k))) (liveUrls w) = liveUrls w.
Proof.
  intros Hwf Hk. apply filter_all_kept. intros u Hu.
  apply negb_true_iff. apply String.eqb_neq. intros ->.
  exact (fresh_url_not_live w k Hwf Hk Hu).
Qed.

Lemma temp_url_round_trip (w : World) :
  urls_wf w ->
  revokeObjectURL (blob_url (nextUrl w))
    (mkWorld (ui w) (controllerRef w) (startTimeRef w) (aborted w)
       (nextController w) (pending w) (blob_url (nextUrl w) :: liveUrls w)
       (S (nextUrl w)) (log w))
  = mkWorld (ui w) (controllerRef w) (startTimeRef w) (aborted w)
      (nextController w) (pending w) (liveUrls w) (S (nextUrl w)) (log w).
Proof.
  intro Hwf. unfold revokeObjectURL. cbn [liveUrls filter ui controllerRef
    startTimeRef aborted nextController pending nextUrl log].
  rewrite String.eqb_refl. cbn [negb].
  now rewrite (revoke_fresh w (nextUrl w) Hwf (le_n _)).
Qed.

Lemma validate_nil_loaded (f : File) (load : ImageLoad) :
  validate f load = [] -> exists wd ht, load = Loaded wd ht.
Proof.
  destruct load as [wd ht|]; [eauto|].
  unfold validate. intro E. apply app_eq_nil in E. destruct E as [_ E].
  discriminate E.
Qed.

Lemma retry_loop_log (env : Env) (f : File) (n : nat) :
  forall k lastError w,
    exists l,
      log (fst (retry_loop env f n k lastError w)) = (log w ++ l)%list
      /\ ((1 <= n)%nat ->
          exists l', l = EPost (apiEndpoint env) (nextController w) f :: l').
Proof.
  induction n as [|n IH]; intros k lastError w.
  - exists []. cbn. rewrite app_nil_r. split; [reflexivity|lia].
  - cbn [retry_loop].
    destruct (uploadOnce_spec env f (transport env (S k)) w) as (_ & Hl & _).
    destruct (uploadOnce env f (transport env (S k)) w) as [w1 c].
    cbn [fst] in Hl.
    destruct c as [|err]; cbn [fst];
      [eexists; split; [exact Hl|eauto]|].
    destruct (is_cancel err); cbn [fst];
      [eexists; split; [exact Hl|eauto]|].
    destruct (client_status err); cbn [fst];
      [eexists; split; [exact Hl|eauto]|].
    destruct (IH (S k) err (emit (ESleep (retry_delay env (S k))) w1))
      as (l & El & _).
    rewrite El. cbn [emit log]. rewrite Hl.
    eexists. split; [|intros _; eexists; reflexivity].
    rewrite <- !app_assoc. cbn [app]. reflexivity.
Qed.

Lemma handleUpload_first_post (view : ReactState) (env : Env) (w : World)
    (f : File) :
  file view = Some f ->
  exists l,
    log (handleUpload view env w) =
    (log w ++
     EToast ToastPlain "Starting upload"
       "Your image is being uploaded and processed..."
     :: EPost (apiEndpoint env) (nextController w) f :: l)%list.
Proof.
  intro Hf. unfold handleUpload, uploadWithRetry. rewrite Hf.
  match goal with
  | |- context [retry_loop env f 3 0 None ?w0] =>
      destruct (retry_loop_log env f 3 0 None w0) as (l & El & Hp);
      destruct (retry_loop env f 3 0 None w0) as [w2 c]
  end.
  destruct (Hp ltac:(lia)) as [l' ->].
  cbn [fst] in El. cbn [log emit toast with_ui nextController] in El.
  rewrite <- app_assoc in El. cbn [app] in El.
  destruct c; cbn; rewrite El, <- ?app_assoc; cbn [app];
    eexists; reflexivity.
Qed.

(** X14.  A file that fails validation does not replace the selection:
    the previously accepted file, its preview URL and the previous result
    stay, only the violation list and the state change and focus is
    asked for the error region; an upload started after that sends the
    previously accepted file. *)
Theorem rejected_file_keeps_the_previous_selection
    (view : ReactState) (g : File) (load : ImageLoad) (w : World) :
  validate g load <> [] ->
  let w' := setFileWithValidation view g load w in
  file (ui w') = file (ui w)
  /\ previewUrl (ui w') = previewUrl (ui w)
  /\ result (ui w') = result (ui w)
  /\ log w' = (log w ++ [EFocus ErrorRegion])%list
  /\ (forall f env, file (ui w) = Some f ->
        exists l,
          log (handleUpload (ui w') env w') =
          (log w' ++
           EToast ToastPlain "Starting upload"
             "Your image is being uploaded and processed..."
           :: EPost (apiEndpoint env) (nextController w) f :: l)%list).
Proof.
  intros Hne w'.
  assert (H : file (ui w') = file (ui w)
              /\ previewUrl (ui w') = previewUrl (ui w)
              /\ result (ui w') = result (ui w)
              /\ log w' = (log w ++ [EFocus ErrorRegion])%list
              /\ nextController w' = nextController w).
  { subst w'. unfold setFileWithValidation, validate, validateDimensions in *.
    destruct (createObjectURL w) as [url w1] eqn:E.
    unfold createObjectURL in E. injection E as _ <-.
    destruct load as [wd ht|];
      destruct (validateBasic g ++ _)%list; try congruence;
      repeat split. }
  destruct H as (Hf & Hp & Hr & Hl & Hn).
  repeat split; auto.
  intros f env Hfile. rewrite <- Hn.
  apply handleUpload_first_post. congruence.
Qed.

Lemma rejected_file_keeps_the_previous_selection_witness :
  file (ui (setFileWithValidation previewing
              (mkFile "notes.gif" "image/gif" 10) (Loaded 300 300)
              (with_ui (fun _ => previewing) initial_world)))
  = Some sample_file.
Proof.
  exact (proj1 (rejected_file_keeps_the_previous_selection previewing
                  (mkFile "notes.gif" "image/gif" 10) (Loaded 300 300)
                  (with_ui (fun _ => previewing) initial_world)
                  ltac:(discriminate))).
Defined.

(** X15.  When the image cannot be decoded, the object URL created for
    the dimension check is never revoked: it stays in the table of live
    URLs; the file is rejected with the could-not-read message and the
    previous selection stays. *)
Theorem undecodable_image_leaks_its_url
    (view : ReactState) (g : File) (w : World) :
  let w' := setFileWithValidation view g LoadFailed w in
  liveUrls w' = blob_url (nextUrl w) :: liveUrls w
  /\ nextUrl w' = S (nextUrl w)
  /\ status (ui w') = Error
  /\ In unreadable_message (errors (ui w'))
  /\ file (ui w') = file (ui w)
  /\ previewUrl (ui w') = previewUrl (ui w).
Proof.
  intro w'. subst w'.
  unfold setFileWithValidation, validateDimensions, createObjectURL.
  cbn [dimension_errors].
  assert (Hin : In unreadable_message
                  (validateBasic g ++ [unreadable_message])%list)
    by (apply in_or_app; right; cbn; auto).
  destruct (validateBasic g ++ [unreadable_message])%list as [|m l] eqn:E.
  - destruct Hin.
  - cbn. repeat split. exact Hin.
Qed.

(** X16.  When a file is accepted and every live object URL is one that
    was handed out, the URL of the dimension check is released again, the
    preview URL of the render is revoked, and one new live URL, never
    used before, becomes the preview: the table grows by at most one and
    an earlier preview URL is not live any more. *)
Theorem accepted_file_swaps_the_preview
    (view : ReactState) (f : File) (load : ImageLoad) (w : World) :
  urls_wf w ->
  validate f load = [] ->
  let w' := setFileWithValidation view f load w in
  let new := blob_url (S (nextUrl w)) in
  file (ui w') = Some f /\ status (ui w') = Ready /\ errors (ui w') = []
  /\ previewUrl (ui w') = Some new
  /\ ~ In new (liveUrls w)
  /\ liveUrls w' = new :: liveUrls (revokePreview view w)
  /\ (List.length (liveUrls w') <= S (List.length (liveUrls w)))%nat
  /\ (forall k, previewUrl view = Some (blob_url k) -> (k < nextUrl w)%nat ->
        ~ In (blob_url k) (liveUrls w'))
  /\ urls_wf w'.
Proof.
  intros Hwf Hv w' new.
  destruct (validate_nil_loaded f load Hv) as (wd & ht & ->).
  pose proof (revoke_fresh w (nextUrl w) Hwf (le_n _)) as Hfresh.
  assert (Hlive : liveUrls w' = new :: liveUrls (revokePreview view w)
                  /\ nextUrl w' = S (S (nextUrl w))
                  /\ ui w' = setStatus Ready (setPreviewUrl (Some new)
                               (setFile (Some f) (setErrors [] (ui w))))).
  { subst w' new. unfold validate in Hv.
    unfold setFileWithValidation, validateDimensions.
    destruct (createObjectURL w) as [url w0] eqn:E.
    unfold createObjectURL in E. injection E as <- <-.
    rewrite Hv. cbv beta iota zeta.
    pose proof (temp_url_round_trip w Hwf) as R.
    unfold blob_url in R |- *. cbn [append] in R |- *. rewrite R.
    unfold revokePreview, revokeObjectURL, createObjectURL.
    destruct (previewUrl view) as [u|]; [destruct (Js.truthy u)|];
      repeat split. }
  destruct Hlive as (Hl & Hn & Hu).
  assert (Hsub : forall u, In u (liveUrls (revokePreview view w)) ->
                           In u (liveUrls w)).
  { intros u. unfold revokePreview, revokeObjectURL.
    destruct (previewUrl view) as [p|]; [destruct (Js.truthy p)|]; cbn;
      try tauto. rewrite filter_In. tauto. }
  rewrite Hu, Hl. cbn [file status errors previewUrl setStatus setPreviewUrl
                        setFile setErrors].
  split; [reflexivity|]. split; [reflexivity|]. split; [reflexivity|].
  split; [reflexivity|].
  split; [apply fresh_url_not_live; [exact Hwf|lia]|].
  split; [reflexivity|]. split; [|split].
  - cbn [List.length]. apply le_n_S.
    unfold revokePreview, revokeObjectURL.
    destruct (previewUrl view) as [p|]; [destruct (Js.truthy p)|]; cbn;
      try lia. apply filter_length_le.
  - intros k Hk Hlt [E|Hin].
    + apply blob_url_inj in E. lia.
    + revert Hin. unfold revokePreview, revokeObjectURL. rewrite Hk.
      assert (Js.truthy (blob_url k) = true) as -> by reflexivity.
      cbn. rewrite filter_In. intros [_ H].
      now rewrite String.eqb_refl in H.
  - intros u Hin. rewrite Hl in Hin. rewrite Hn. destruct Hin as [<-|Hin].
    + exists (S (nextUrl w)). split; [lia|reflexivity].
    + destruct (Hwf u (Hsub u Hin)) as (k & Hk & ->).
      exists k. split; [lia|reflexivity].
Qed.

Lemma accepted_file_swaps_the_preview_witness :
  previewUrl (ui (setFileWithValidation initial_state sample_file
                    (Loaded 512 512) initial_world)) = Some "blob:1"
  /\ liveUrls (setFileWithValidation initial_state sample_file
                 (Loaded 512 512) initial_world) = ["blob:1"].
Proof.
  assert (Hwf : urls_wf initial_world) by (intros u []).
  pose proof (accepted_file_swaps_the_preview initial_state sample_file
                (Loaded 512 512) initial_world Hwf eq_refl) as H.
  cbv zeta in H. destruct H as (_ & _ & _ & Hp & _ & Hl & _).
  split; [exact Hp|exact Hl].
Defined.

(** X17.  Paste hands the validator the first clipboard item that is an
    image and yields a file, under the name "pasted-image.png" and with
    the type "image/png" when the blob has none; items before it that are
    not images or yield no file are skipped, and later items are ignored.
    Without such an item, or without clipboard items at all, nothing
    changes. *)
Theorem onPaste_takes_the_first_image (items : list ClipboardItem) :
  (forall f,
     pasted_file items = Some f <->
     exists pre it b post,
       items = (pre ++ it :: post)%list
       /\ is_image_item it = true /\ item_file it = Some b /\ f = pasted b
       /\ forall x, In x pre -> is_image_item x = false \/ item_file x = None)
  /\ (forall view load w,
        onPaste view (Some items) load w =
        match pasted_file items with
        | Some f => setFileWithValidation view f load w
        | None => w
        end)
  /\ (forall view load w, onPaste view None load w = w)
  /\ (forall f, pasted_file items = Some f ->
        file_name f = "pasted-image.png" /\ file_type f <> "")
  /\ (forall b, blob_type b = "" -> file_type (pasted b) = "image/png").
Proof.
  split; [|split; [|split; [|split]]]; try reflexivity.
  - intro f. induction items as [|it rest IH].
    + split; [discriminate|].
      intros (pre & x & b & post & E & _). destruct pre; discriminate E.
    + cbn [pasted_file]. destruct (is_image_item it) eqn:Hi.
      * destruct (item_file it) as [b|] eqn:Hb.
        -- split.
           ++ intros [= <-]. exists [], it, b, rest. repeat split; auto.
              intros x [].
           ++ intros (pre & x & b' & post & E & Hx & Hb' & -> & Hpre).
              destruct pre as [|p pre].
              ** injection E as <- _. congruence.
              ** injection E as <- _.
                 destruct (Hpre it (or_introl eq_refl)); congruence.
        -- rewrite IH. split.
           ++ intros (pre & x & b & post & -> & Hx & Hb' & -> & Hpre).
              exists (it :: pre), x, b, post. repeat split; auto.
              intros y [<-|Hy]; auto.
           ++ intros (pre & x & b & post & E & Hx & Hb' & -> & Hpre).
              destruct pre as [|p pre].
              ** injection E as <- _. congruence.
              ** injection E as <- ->. exists pre, x, b, post.
                 repeat split; auto. intros y Hy. apply Hpre. now right.
      * rewrite IH. split.
        -- intros (pre & x & b & post & -> & Hx & Hb' & -> & Hpre).
           exists (it :: pre), x, b, post. repeat split; auto.
           intros y [<-|Hy]; auto.
        -- intros (pre & x & b & post & E & Hx & Hb' & -> & Hpre).
           destruct pre as [|p pre].
           ++ injection E as <- _. congruence.
           ++ injection E as <- ->. exists pre, x, b, post.
              repeat split; auto. intros y Hy. apply Hpre. now right.
  - intros f Hf. induction items as [|it rest IH]; [discriminate|].
    cbn [pasted_file] in Hf. destruct (is_image_item it); [|auto].
    destruct (item_file it) as [b|]; [|auto].
    injection Hf as <-. split; [reflexivity|].
    unfold pasted, Js.or_else. cbn [file_type].
    destruct (blob_type b); [discriminate|discriminate].
  - intros b Hb. unfold pasted. now rewrite Hb.
Qed.

(* ------------------------------------------------------------------ *)
(** ** Buttons and teardown *)

(** X18.  No button that can be pressed runs [handleCancel]: the primary
    button is the only one wired to it, and it is disabled for as long as
    the state is [Uploading].  While uploading the only handler a press
    can reach is the reset of "Remove image".  When the primary button is
    enabled it runs [handleUpload], and without a file it is enabled only
    in the [Error] state, labelled "Select an image". *)
Theorem cancel_button_is_disabled (s : ReactState) :
  ~ In OnCancel (pressable s)
  /\ (ctaOnClick s = OnCancel -> ctaDisabled s = true)
  /\ (status s = Uploading ->
        pressable s = if has_file s then [OnReset] else [])
  /\ (ctaDisabled s = false ->
        ctaOnClick s = OnUpload /\ (has_file s = true \/ status s = Error))
  /\ (ctaDisabled s = false -> has_file s = false ->
        status s = Error /\ ctaLabel s = "Select an image").
Proof.
  unfold pressable, ctaOnClick, ctaDisabled, ctaLabel.
  destruct (status s); destruct (has_file s); cbn;
    repeat split; intros; try discriminate; try tauto;
    intuition discriminate.
Qed.

(** X19.  Teardown aborts the request in flight but releases no object
    URL: the cleanup runs with the [previewUrl] of the first render, which
    is null, so the URL table and the state are left as they are. *)
Theorem unmount_aborts_but_releases_nothing (w : World) :
  request_owned w ->
  in_flight (unmount w) = false
  /\ liveUrls (unmount w) = liveUrls w
  /\ ui (unmount w) = ui w
  /\ log (unmount w) = log w.
Proof.
  intro Ho. unfold unmount, revokePreview. cbn [previewUrl initial_state].
  split; [now apply abort_current_stops_request|].
  unfold abort_current, abort.
  destruct (controllerRef w) as [c|]; [destruct (is_aborted c w)|];
    repeat split.
Qed.

Lemma unmount_aborts_but_releases_nothing_witness :
  in_flight previewing_in_flight_world = true
  /\ in_flight (unmount previewing_in_flight_world) = false
  /\ liveUrls (unmount previewing_in_flight_world) = ["blob:1"].
Proof.
  assert (Ho : request_owned previewing_in_flight_world).
  { intros c Hc. left. cbn in Hc |- *. exact Hc. }
  pose proof (unmount_aborts_but_releases_nothing
                previewing_in_flight_world Ho) as H.
  split; [reflexivity|]. split; [exact (proj1 H)|].
  rewrite (proj1 (proj2 H)). reflexivity.
Defined.

(* ------------------------------------------------------------------ *)
(** ** Presenter: which labels are negative *)

Lemma prefix_app (p y : string) : String.prefix p (p ++ y) = true.
Proof.
  induction p as [|c p IH]; cbn; [now destruct y|].
  destruct (ascii_dec c c); [exact IH|congruence].
Qed.

Lemma prefix_true (p s : string) :
  String.prefix p s = true -> exists b, s = p ++ b.
Proof.
  revert s. induction p as [|c p IH]; intros s H.
  - exists s. reflexivity.
  - destruct s as [|d s]; [discriminate H|]. cbn in H.
    destruct (ascii_dec c d) as [->|]; [|discriminate H].
    destruct (IH s H) as [b ->]. exists b. reflexivity.
Qed.

Lemma includes_iff (s p : string) :
  Js.includes s p = true <-> exists a b, s = a ++ p ++ b.
Proof.
  split.
  - induction s as [|c s IH]; cbn [Js.includes]; intro H.
    + rewrite orb_false_r in H. destruct (prefix_true _ _ H) as [b E].
      exists "", b. exact E.
    + apply orb_true_iff in H. destruct H as [H|H].
      * destruct (prefix_true _ _ H) as [b E]. exists "", b. exact E.
      * destruct (IH H) as (a & b & ->). exists (String c a), b. reflexivity.
  - intros (a & b & ->). induction a as [|c a IH].
    + cbn [append]. destruct (p ++ b) eqn:E; cbn [Js.includes];
        rewrite <- E, prefix_app; reflexivity.
    + cbn [append Js.includes]. rewrite IH. apply orb_true_r.
Qed.

Lemma strip_non_az_app (a b : string) :
  strip_non_az (a ++ b) = strip_non_az a ++ strip_non_az b.
Proof.
  induction a as [|c a IH]; [reflexivity|].
  cbn [append strip_non_az]. destruct (is_az c); cbn [append]; now rewrite IH.
Qed.

Lemma toLowerCase_app (a b : string) :
  Js.toLowerCase (a ++ b) = Js.toLowerCase a ++ Js.toLowerCase b.
Proof.
  induction a as [|c a IH]; [reflexivity|].
  cbn [append Js.toLowerCase]. now rewrite IH.
Qed.

Lemma normalizeLabel_app (a b : string) :
  normalizeLabel (Some (a ++ b))
  = normalizeLabel (Some a) ++ normalizeLabel (Some b).
Proof.
  now rewrite !normalizeLabel_eq, toLowerCase_app, strip_non_az_app.
Qed.

Lemma isNoTumor_iff (n : string) :
  isNoTumor n = true <->
  (exists t a b, In t negative_tokens /\ n = a ++ t ++ b)
  \/ n = "normal" \/ n = "healthy".
Proof.
  unfold isNoTumor. rewrite !orb_true_iff, !includes_iff, !String.eqb_eq.
  unfold negative_tokens. split.
  - intros [[[[[H|H]|H]|H]|H]|H]; auto;
      destruct H as (a & b & ->); left; eexists; exists a, b;
      (split; [|reflexivity]); cbn; auto.
  - intros [(t & a & b & Ht & ->) | [-> | ->]]; auto.
    cbn in Ht.
    repeat (destruct Ht as [<-|Ht]; [eauto 10|]). destruct Ht.
Qed.

(** X20.  A label is in the negative band exactly when its normalized
    form contains "notumor", "notumour", "negative" or "absenceoftumor"
    anywhere, or is exactly "normal" or "healthy".  So any text around a
    casing or spacing variant of "No Tumor", "No Tumour", "Negative" or
    "Absence of Tumor" still gives the negative band. *)
Theorem negative_band_characterization :
  (forall l,
     kind (classifyPrediction (Some l)) = Negative <->
     (exists t a b, In t negative_tokens
                    /\ normalizeLabel (Some l) = a ++ t ++ b)
     \/ normalizeLabel (Some l) = "normal"
     \/ normalizeLabel (Some l) = "healthy")
  /\ (forall tok v x y, In tok contained_labels -> variant tok v ->
        kind (classifyPrediction (Some (x ++ v ++ y))) = Negative).
Proof.
  assert (H1 : forall l,
     kind (classifyPrediction (Some l)) = Negative <->
     isNoTumor (normalizeLabel (Some l)) = true).
  { intro l. rewrite classify_kind.
    destruct (isNoTumor _); [tauto|].
    destruct (usable (Some l)); split; discriminate. }
  split.
  - intro l. rewrite H1. apply isNoTumor_iff.
  - intros tok v x y Htok Hv. rewrite H1. apply isNoTumor_iff. left.
    rewrite !normalizeLabel_app, (variant_normalizeLabel tok v Hv).
    cbn in Htok.
    repeat (destruct Htok as [<-|Htok];
            [eexists; exists (normalizeLabel (Some x)),
                             (normalizeLabel (Some y));
             (split; [|reflexivity]); cbn; auto|]).
    destruct Htok.
Qed.

Example abnormal_is_positive :
  kind (classifyPrediction (Some "Abnormal")) = Positive.
Proof. reflexivity. Qed.

Lemma az_lower_char (c : ascii) : is_az c = true -> Js.lower_char c = c.
Proof.
  destruct c as [[] [] [] [] [] [] [] []]; intro H;
    (reflexivity || discriminate H).
Qed.

Lemma strip_lower_strip (s : string) :
  strip_non_az (Js.toLowerCase (strip_non_az s)) = strip_non_az s.
Proof.
  induction s as [|c s IH]; [reflexivity|].
  cbn [strip_non_az]. destruct (is_az c) eqn:A; [|exact IH].
  cbn [Js.toLowerCase strip_non_az].
  now rewrite (az_lower_char c A), A, IH.
Qed.

(** X21.  Normalizing a label twice is the same as normalizing it once;
    two non-empty labels with the same normalized form get the same
    classification; and a non-empty label without any letter a-z, such
    as a numeric class id, is in the positive band. *)
Theorem normalizeLabel_is_idempotent :
  (forall l, normalizeLabel (Some (normalizeLabel (Some l)))
             = normalizeLabel (Some l))
  /\ (forall p q, p <> "" -> q <> "" ->
        normalizeLabel (Some p) = normalizeLabel (Some q) ->
        classifyPrediction (Some p) = classifyPrediction (Some q))
  /\ (forall l, l <> "" -> normalizeLabel (Some l) = "" ->
        kind (classifyPrediction (Some l)) = Positive).
Proof.
  split; [|split].
  - intro l. rewrite !normalizeLabel_eq. apply strip_lower_strip.
  - intros p q Hp Hq E. unfold classifyPrediction. rewrite E.
    destruct p; [congruence|]. destruct q; [congruence|]. reflexivity.
  - intros l Hl E. rewrite classify_kind, E.
    destruct l; [congruence|reflexivity].
Qed.

(* ------------------------------------------------------------------ *)
(** ** The earlier page *)

(** X22.  The earlier page makes one request, without validation or
    retry, when a file is selected and none otherwise; in every case it
    ends with [loading] false; after a failure the prediction is cleared
    and an alert is shown; the endpoint is the configured text followed
    by "/predict" with no normalization. *)
Theorem HomePage_upload_makes_one_request
    (api_url : option string) (settle : Settle) (s : HomePage.State) :
  let s' := fst (HomePage.handleUpload api_url settle s) in
  let out := snd (HomePage.handleUpload api_url settle s) in
  (HomePage.file s = None ->
     s' = s /\ out = [HomePage.Alert "Please select an image"])
  /\ (forall f, HomePage.file s = Some f ->
        HomePage.loading s' = false
        /\ HomePage.file s' = Some f
        /\ List.length (filter HomePage.is_post out) = 1%nat
        /\ hd_error out = Some (HomePage.Post (HomePage.endpoint api_url) f)
        /\ (settle_error settle <> None \/
            (exists res, settle = Fulfilled res /\ data res = JNull) ->
            HomePage.prediction s' = None
            /\ In (HomePage.Alert "Prediction failed. Check console.") out)
        /\ (forall res, settle = Fulfilled res -> data res <> JNull ->
              HomePage.prediction s' = prop (data res) "prediction"
              /\ out = [HomePage.Post (HomePage.endpoint api_url) f]))
  /\ (forall b, HomePage.endpoint (Some (b ++ "/")) = b ++ "//predict")
  /\ HomePage.endpoint None = "undefined/predict".
Proof.
  cbv zeta. unfold HomePage.handleUpload.
  split; [|split; [|split]].
  - intros ->. auto.
  - intros f Hf. rewrite Hf.
    assert (Hfail : forall s0 : HomePage.State,
              HomePage.prediction
                (HomePage.setLoading false
                   (HomePage.setPrediction None (HomePage.setLoading true s0)))
              = None) by reflexivity.
    destruct settle as [res|st dm m|m]; cbn [settle_error].
    + destruct (data res) eqn:D; cbn [fst snd];
        (split; [reflexivity|]); (split; [exact Hf|]);
        (split; [reflexivity|]); (split; [reflexivity|]); split.
      all: try (intros [H|(r & E & H)];
                [congruence|injection E as <-; congruence]).
      all: try (intros r E H; injection E as <-; rewrite D; split;
                reflexivity).
      * intros _. split; [reflexivity|]. cbn. auto.
      * intros r E H. injection E as <-. congruence.
    + cbn [fst snd]. repeat split; auto.
      * cbn. auto.
      * discriminate H.
      * discriminate H.
    + cbn [fst snd]. repeat split; auto.
      * cbn. auto.
      * discriminate H.
      * discriminate H.
  - intro b. unfold HomePage.endpoint.
    induction b as [|c b IH]; [reflexivity|].
    cbn [append] in *. now rewrite IH.
  - reflexivity.
Qed.

(* ------------------------------------------------------------------ *)
(** ** Selection routes and attempts after an abort *)

Lemma disallowed_type_is_rejected (view : ReactState) (f : File)
    (load : ImageLoad) (w : World) :
  Js.mem (file_type f) ALLOWED_TYPES = false ->
  status (ui (setFileWithValidation view f load w)) = Error
  /\ file (ui (setFileWithValidation view f load w)) = file (ui w)
  /\ In (type_message f) (errors (ui (setFileWithValidation view f load w))).
Proof.
  intro Ht.
  assert (Hin : In (type_message f) (validate f load)).
  { unfold validate. apply in_or_app. left. apply validateBasic_spec. auto. }
  assert (Hne : validate f load <> []) by (intro E; rewrite E in Hin; exact Hin).
  rewrite setFileWithValidation_status, setFileWithValidation_errors by exact Hne.
  split; [destruct (validate f load); congruence|]. split; [|exact Hin].
  unfold setFileWithValidation, validate, validateDimensions in *.
  destruct (createObjectURL w) as [url w1] eqn:E.
  unfold createObjectURL in E. injection E as _ <-.
  destruct load as [wd ht|];
    destruct (validateBasic f ++ _)%list; try congruence; reflexivity.
Qed.

(** X23.  Drop, paste and the sample buttons all go through the
    validator: a drop takes the first file only and an empty drop changes
    nothing; a sample with no blob type is taken as "image/jpeg"; and on
    each route a file whose type is outside the allow-list ends in state
    [Error] with the type message, the earlier selection kept. *)
Theorem every_route_validates
    (view : ReactState) (load : ImageLoad) (w : World) :
  onDrop view [] load w = w
  /\ (forall f rest, onDrop view (f :: rest) load w = onDrop view [f] load w)
  /\ (forall f rest, Js.mem (file_type f) ALLOWED_TYPES = false ->
        status (ui (onDrop view (f :: rest) load w)) = Error
        /\ file (ui (onDrop view (f :: rest) load w)) = file (ui w))
  /\ (forall items f, pasted_file items = Some f ->
        Js.mem (file_type f) ALLOWED_TYPES = false ->
        status (ui (onPaste view (Some items) load w)) = Error
        /\ file (ui (onPaste view (Some items) load w)) = file (ui w))
  /\ (forall name b, Js.mem (blob_type b) ALLOWED_TYPES = false ->
        blob_type b <> "" ->
        status (ui (useSample view name b load w)) = Error
        /\ file (ui (useSample view name b load w)) = file (ui w))
  /\ (forall name b wd ht, blob_type b = "" ->
        blob_size b <= MAX_SIZE_BYTES -> MIN_WIDTH <= wd -> MIN_HEIGHT <= ht ->
        file (ui (useSample view name b (Loaded wd ht) w))
        = Some (mkFile name "image/jpeg" (blob_size b))).
Proof.
  split; [reflexivity|]. split; [reflexivity|]. split; [|split; [|split]].
  - intros f rest Ht. cbn [onDrop].
    destruct (disallowed_type_is_rejected view f load w Ht) as (H1 & H2 & _).
    auto.
  - intros items f Hf Ht. unfold onPaste. rewrite Hf.
    destruct (disallowed_type_is_rejected view f load w Ht) as (H1 & H2 & _).
    auto.
  - intros name b Ht Hne. unfold useSample.
    assert (E : Js.or_else (blob_type b) "image/jpeg" = blob_type b)
      by (unfold Js.or_else; destruct (blob_type b); [congruence|reflexivity]).
    rewrite E.
    destruct (disallowed_type_is_rejected view
                (mkFile name (blob_type b) (blob_size b)) load w Ht)
      as (H1 & H2 & _).
    auto.
  - intros name b wd ht Hb Hs Hw Hh. unfold useSample. rewrite Hb.
    cbn [Js.or_else Js.truthy].
    assert (Hv : validate (mkFile name "image/jpeg" (blob_size b))
                   (Loaded wd ht) = []).
    { unfold validate, validateBasic, dimension_errors. cbn [file_type file_size].
      replace (blob_size b >? MAX_SIZE_BYTES) with false
        by (symmetry; rewrite Z.gtb_ltb; apply Z.ltb_ge; exact Hs).
      replace (wd <? MIN_WIDTH) with false
        by (symmetry; apply Z.ltb_ge; exact Hw).
      replace (ht <? MIN_HEIGHT) with false
        by (symmetry; apply Z.ltb_ge; exact Hh).
      reflexivity. }
    unfold setFileWithValidation, validateDimensions. unfold validate in Hv.
    destruct (createObjectURL w) as [url w0]. rewrite Hv.
    destruct (createObjectURL _) as [url1 w1] eqn:E.
    unfold createObjectURL in E. injection E as _ <-. reflexivity.
Qed.

(** X24.  Every attempt gets a new abort handle, so an abort that
    happened before an attempt starts - a reset or a cancel during the
    backoff delay - does not stop it: the request is sent, the attempt
    completes as the transport settles it, and a successful response
    stores its result even though the widget was reset to [Idle] with no
    file. *)
Theorem abort_before_an_attempt_does_not_stop_it
    (env : Env) (f : File) (a : Attempt) (view : ReactState) (w : World) :
  at_cancel a = false ->
  let w1 := resetAll view w in
  let w2 := fst (uploadOnce env f a w1) in
  snd (uploadOnce env f a w1) = completion_of env a
  /\ snd (uploadOnce env f a (handleCancel w)) = completion_of env a
  /\ snd (uploadOnce env f a w1) <> Throw (Some CanceledError)
  /\ count_posts (log w2) = S (count_posts (log w))
  /\ status (ui w2) = Idle /\ file (ui w2) = None
  /\ (forall res p, at_settle a = Fulfilled res ->
        interpret_response env res = inr p -> result (ui w2) = Some p).
Proof.
  intros Hc w1 w2.
  destruct (uploadOnce_spec env f a w1) as (Hr & Hl & Hs & Hf & _ & _ & Hres).
  destruct (uploadOnce_spec env f a (handleCancel w)) as (Hr' & _).
  fold w2 in Hl, Hs, Hf, Hres. rewrite Hc in Hl, Hs, Hres.
  split; [exact Hr|]. split; [exact Hr'|]. split.
  { rewrite Hr. unfold completion_of, outcome_of. rewrite Hc.
    destruct (at_settle a) as [res|st dm m|m]; cbn [settle_error];
      [destruct (interpret_response env res)|..]; discriminate. }
  split.
  { rewrite Hl, count_posts_app. cbn [count_posts].
    subst w1. rewrite resetAll_eq. cbn [log]. lia. }
  split; [rewrite Hs; reflexivity|]. split; [rewrite Hf; reflexivity|].
  intros res p Hset Hp. rewrite Hres, Hset, Hp. reflexivity.
Qed.

Lemma abort_before_an_attempt_does_not_stop_it_witness :
  snd (uploadOnce flaky_env sample_file (quiet (Fulfilled glioma_response))
         (resetAll previewing in_flight_world)) = Return.
Proof.
  exact (proj1 (abort_before_an_attempt_does_not_stop_it flaky_env sample_file
                  (quiet (Fulfilled glioma_response)) previewing
                  in_flight_world eq_refl)).
Defined.
